(** * secure-auth-poc: the token lifecycle, embedded and checked

    A shallow embedding of the authentication gateway's token engine:

    - [TokenManager]            (shared/utils/TokenManager.ts)
    - [TokenBlacklist]          (shared/utils/TokenBlacklist.ts)
    - [UserRepository]          (modules/user/user.repository.ts)
    - [RefreshTokenRepository]  (modules/auth/refreshToken.repository.ts)
    - [AuthService]             (modules/auth/auth.service.ts)
    - [authGuard]               (shared/middlewares/authGuard.ts)

    Conventions.

    - Time is [Z]: [Date.now()] in milliseconds, JWT NumericDates
      ([iat], [exp]) and the Redis epoch stamp in whole seconds.  Every
      operation reads the clock once and receives that reading as [now].
    - [crypto.randomUUID()] and the keys generated by the database are
      arguments of the operation that draws them.
    - A thrown exception is an [Outcome]; the effects performed before the
      [throw] stay in the [World], as they do in JavaScript.
    - Cryptography is symbolic: a string is a literal, the compact
      serialization produced by [jwt.sign], or a SHA-256 hex digest.
      Distinct constructors are distinct strings, so digests never collide
      and a signature cannot be produced without its secret. *)

From Stdlib Require Import String Ascii ZArith List Bool Lia.
Import ListNotations.

Local Open Scope string_scope.
Local Open Scope Z_scope.

(* ===================================================================== *)
(** * Strings, claims and exceptions *)
(* ===================================================================== *)

(** The claims object a JWT carries.  [AccessTokenPayload] is
    [{userId, email, iat?, exp?}] and [RefreshTokenPayload] is
    [{userId, tokenId}]; [jwt.sign] adds the registered claims.  A
    property that is absent in JavaScript is [None]. *)
Module Claims.
Record t : Type := Build {
  userId  : string;
  email   : option string;
  tokenId : option string;
  iat     : option Z;
  exp     : option Z;
  iss     : option string;
  aud     : option string;
  jti     : option string
}.
End Claims.

(** Strings that travel as tokens or are stored as digests. *)
Inductive Str : Type :=
| Lit (s : string)
| Jwt (secret : string) (c : Claims.t)
| Sha256Hex (t : Str).

Definition option_eq_dec {A : Type} (dec : forall x y : A, {x = y} + {x <> y})
  (x y : option A) : {x = y} + {x <> y}.
Proof. decide equality. Defined.

Definition Claims_eq_dec (x y : Claims.t) : {x = y} + {x <> y}.
Proof.
  decide equality;
    first [ apply string_dec
          | apply (option_eq_dec string_dec)
          | apply (option_eq_dec Z.eq_dec) ].
Defined.

Definition Str_eq_dec (x y : Str) : {x = y} + {x <> y}.
Proof.
  decide equality; first [ apply string_dec | apply Claims_eq_dec ].
Defined.

(** JavaScript truthiness of a string: only the empty string is falsy. *)
Definition truthy_str (t : Str) : bool :=
  match t with
  | Lit EmptyString => false
  | _ => true
  end.

(** Truthiness of a number: [0] (and [NaN], which the model has not) is falsy. *)
Definition truthy_num (n : Z) : bool := negb (n =? 0).

(** The error classes of shared/errors/AppError, the built-in [Error] and
    [TypeError], and the known-request error of the database client with
    its code ([P2002] unique constraint, [P2025] record not found). *)
Inductive Exn : Type :=
| UnauthorizedError (message : string)
| ConflictError (message : string)
| BadRequestError (message : string)
| Error (message : string)
| TypeError (message : string)
| PrismaError (code : string).

Inductive Outcome (A : Type) : Type :=
| Ok (a : A)
| Throw (e : Exn).
Arguments Ok {A} a.
Arguments Throw {A} e.

(* ===================================================================== *)
(** * config/env.ts *)
(* ===================================================================== *)

Module Env.
Record t : Type := Build {
  JWT_ACCESS_SECRET : string;
  JWT_REFRESH_SECRET : string;
  JWT_ACCESS_EXPIRES_IN : string;
  JWT_REFRESH_EXPIRES_IN : string;
  REFRESH_GRACE_PERIOD_SECONDS : Z
}.

(** The schema's defaults; the two secrets have none and are supplied. *)
Definition defaults (accessSecret refreshSecret : string) : t :=
  Build accessSecret refreshSecret "15m" "7d" 10.
End Env.

(* ===================================================================== *)
(** * Durations: [/^(\d+)([dhm])$/] and the timespans of [jwt.sign] *)
(* ===================================================================== *)

Definition digit_value (c : ascii) : option Z :=
  let n := Z.of_nat (nat_of_ascii c) in
  if (48 <=? n) && (n <=? 57) then Some (n - 48) else None.

(** [parseInt(s, 10)] on a string already matched by [\d+]. *)
Fixpoint parse_digits (acc : Z) (s : string) : option Z :=
  match s with
  | EmptyString => Some acc
  | String c rest =>
      match digit_value c with
      | Some d => parse_digits (acc * 10 + d) rest
      | None => None
      end
  end.

(** Splits [<digits><unit>] into the number and the unit character: the
    two capture groups of [^(\d+)(.)$]. *)
Fixpoint split_last (s : string) : option (string * ascii) :=
  match s with
  | EmptyString => None
  | String c EmptyString => Some (EmptyString, c)
  | String c rest =>
      match split_last rest with
      | Some (front, u) => Some (String c front, u)
      | None => None
      end
  end.

Definition match_duration (s : string) : option (Z * ascii) :=
  match split_last s with
  | Some (EmptyString, _) => None
  | Some (front, u) =>
      match parse_digits 0 front with
      | Some v => Some (v, u)
      | None => None
      end
  | None => None
  end.

(** The [ms] package as [jwt.sign] uses it for [expiresIn], restricted to
    [<digits><unit>] with a one-letter unit; the result is in seconds.
    [None] is a timespan the signer refuses. *)
Definition timespan_seconds (s : string) : option Z :=
  match match_duration s with
  | Some (v, "s"%char) => Some v
  | Some (v, "m"%char) => Some (v * 60)
  | Some (v, "h"%char) => Some (v * 60 * 60)
  | Some (v, "d"%char) => Some (v * 24 * 60 * 60)
  | Some (v, "w"%char) => Some (v * 7 * 24 * 60 * 60)
  | _ => None
  end.

(** [Math.floor(Date.now() / 1000)]. *)
Definition seconds_of (now : Z) : Z := now / 1000.

(* ===================================================================== *)
(** * shared/utils/TokenManager.ts *)
(* ===================================================================== *)

Module TokenManager.

Definition issuer : string := "secure-auth-poc".

(** [jwt.sign(payload, secret, {expiresIn, issuer, audience, jwtid})]. *)
Definition sign (secret : string) (uid : string)
    (mail tid : option string) (expiresIn audience : string)
    (jwtid : option string) (now : Z) : Outcome Str :=
  match timespan_seconds expiresIn with
  | None => Throw (Error "invalid expiresIn option")
  | Some span =>
      Ok (Jwt secret
            (Claims.Build uid mail tid
               (Some (seconds_of now)) (Some (seconds_of now + span))
               (Some issuer) (Some audience) jwtid))
  end.

Definition generateAccessToken (env : Env.t) (uid mail : string)
    (jwtid : string) (now : Z) : Outcome Str :=
  sign (Env.JWT_ACCESS_SECRET env) uid (Some mail) None
       (Env.JWT_ACCESS_EXPIRES_IN env) "api" (Some jwtid) now.

Definition generateRefreshToken (env : Env.t) (uid tid : string)
    (now : Z) : Outcome Str :=
  sign (Env.JWT_REFRESH_SECRET env) uid None (Some tid)
       (Env.JWT_REFRESH_EXPIRES_IN env) "refresh" None now.

(** [jwt.verify(token, secret, {issuer, audience})]: the signature, the
    expiry ([clock >= exp] is expired), the issuer and the audience. *)
Definition verify (secret audience : string) (token : Str) (now : Z)
    : option Claims.t :=
  match token with
  | Jwt k c =>
      if negb (String.eqb k secret) then None
      else if match Claims.exp c with
              | Some e => e <=? seconds_of now
              | None => false
              end then None
      else if negb (match Claims.iss c with
                    | Some i => String.eqb i issuer
                    | None => false
                    end) then None
      else if negb (match Claims.aud c with
                    | Some a => String.eqb a audience
                    | None => false
                    end) then None
      else Some c
  | _ => None
  end.

Definition verifyAccessToken (env : Env.t) (token : Str) (now : Z)
    : Outcome Claims.t :=
  match verify (Env.JWT_ACCESS_SECRET env) "api" token now with
  | Some decoded => Ok decoded
  | None => Throw (UnauthorizedError "Invalid or expired access token")
  end.

Definition verifyRefreshToken (env : Env.t) (token : Str) (now : Z)
    : Outcome Claims.t :=
  match verify (Env.JWT_REFRESH_SECRET env) "refresh" token now with
  | Some decoded => Ok decoded
  | None => Throw (UnauthorizedError "Invalid or expired refresh token")
  end.

(** [jwt.decode(token)?.exp ?? null]: no signature check. *)
Definition getTokenExpiration (token : Str) : option Z :=
  match token with
  | Jwt _ c => Claims.exp c
  | _ => None
  end.

(** [jwt.decode(token)?.jti ?? null] *)
Definition getTokenId (token : Str) : option string :=
  match token with
  | Jwt _ c => Claims.jti c
  | _ => None
  end.

End TokenManager.

(* ===================================================================== *)
(** * shared/utils/HashProvider.ts *)
(* ===================================================================== *)

(** The password column.  [argon2.hash] draws a salt; [argon2.verify]
    accepts exactly the password that was hashed and throws on a string
    that is not an encoded hash. *)
Inductive PwHash : Type :=
| Argon2id (salt value : string)
| NotAHash (s : string).

Module HashProvider.

Definition hash (value salt : string) : PwHash := Argon2id salt value.

(** [try { return await argon2.verify(hash, value) } catch { return false }] *)
Definition compare (value : string) (h : PwHash) : bool :=
  match h with
  | Argon2id _ v => String.eqb v value
  | NotAHash _ => false
  end.

End HashProvider.

(* ===================================================================== *)
(** * The persistent state *)
(* ===================================================================== *)

Module User.
Record t : Type := Build {
  id : string;
  email : string;
  password : PwHash;
  name : string;
  createdAt : Z
}.
End User.

Module RefreshToken.
Record t : Type := Build {
  id : string;
  token : Str;
  userId : string;
  expiresAt : Z;
  createdAt : Z;
  revokedAt : option Z;
  replacedBy : option string;
  gracePeriodToken : option Str;
  gracePeriodEnds : option Z
}.

Definition with_revoked (r : t) (at_ : Z) (by_ : option string) : t :=
  Build (id r) (token r) (userId r) (expiresAt r) (createdAt r)
        (Some at_) by_ (gracePeriodToken r) (gracePeriodEnds r).

Definition with_revokedAt (r : t) (at_ : Z) : t :=
  Build (id r) (token r) (userId r) (expiresAt r) (createdAt r)
        (Some at_) (replacedBy r) (gracePeriodToken r) (gracePeriodEnds r).

Definition with_grace (r : t) (tok : Str) (ends : Z) : t :=
  Build (id r) (token r) (userId r) (expiresAt r) (createdAt r)
        (revokedAt r) (replacedBy r) (Some tok) (Some ends).

Definition is_revoked (r : t) : bool :=
  match revokedAt r with Some _ => true | None => false end.
End RefreshToken.

(** Redis keys [`blacklist:token:${hash}`] and [`blacklist:user:${userId}`],
    and the two values the application writes: ['revoked'] and the decimal
    rendering of a timestamp. *)
Inductive RedisKey : Type :=
| TokenKey (digest : Str)
| UserKey (uid : string).

Inductive RedisVal : Type :=
| Revoked
| Stamp (seconds : Z).

Definition RedisKey_eq_dec (x y : RedisKey) : {x = y} + {x <> y}.
Proof. decide equality; first [ apply Str_eq_dec | apply string_dec ]. Defined.

Definition RedisKey_eqb (x y : RedisKey) : bool :=
  if RedisKey_eq_dec x y then true else false.

Module Redis.
Record entry : Type := Entry {
  key : RedisKey;
  val : RedisVal;
  deadline : Z          (* the instant, in ms, at which the entry expires *)
}.
End Redis.

(** The callback handed to [setTimeout] by a rotation. *)
Record Timer : Type := MkTimer {
  dueAt : Z;
  oldTokenId : string;
  newTokenId : string
}.

Record World : Type := MkWorld {
  users : list User.t;
  refreshTokens : list RefreshToken.t;
  redis : list Redis.entry;
  timers : list Timer
}.

Definition set_users (w : World) (us : list User.t) : World :=
  MkWorld us (refreshTokens w) (redis w) (timers w).
Definition set_refreshTokens (w : World) (rs : list RefreshToken.t) : World :=
  MkWorld (users w) rs (redis w) (timers w).
Definition set_redis (w : World) (es : list Redis.entry) : World :=
  MkWorld (users w) (refreshTokens w) es (timers w).
Definition set_timers (w : World) (ts : list Timer) : World :=
  MkWorld (users w) (refreshTokens w) (redis w) ts.

(* ===================================================================== *)
(** * Effects: state that survives a throw *)
(* ===================================================================== *)

Definition M (A : Type) : Type := World -> World * Outcome A.

Definition ret {A : Type} (a : A) : M A := fun w => (w, Ok a).

Definition throw {A : Type} (e : Exn) : M A := fun w => (w, Throw e).

Definition bind {A B : Type} (c : M A) (k : A -> M B) : M B :=
  fun w =>
    match c w with
    | (w', Ok a) => k a w'
    | (w', Throw e) => (w', Throw e)
    end.

(** A pure computation that may throw. *)
Definition lift {A : Type} (o : Outcome A) : M A := fun w => (w, o).

(** [try { c } catch { }] *)
Definition try_ignore {A : Type} (c : M A) : M unit :=
  fun w => (fst (c w), Ok tt).

Declare Scope js_scope.
Delimit Scope js_scope with js.
Notation "x <- c ;; k" := (bind c (fun x => k))
  (at level 61, c at next level, right associativity) : js_scope.
Notation "c ;;; k" := (bind c (fun _ => k))
  (at level 61, right associativity) : js_scope.
Local Open Scope js_scope.

(* ===================================================================== *)
(** * shared/utils/TokenBlacklist.ts *)
(* ===================================================================== *)

Module TokenBlacklist.

(** [client.get(key)]: the value, unless the entry has expired. *)
Definition get (k : RedisKey) (now : Z) (es : list Redis.entry) : option RedisVal :=
  match find (fun e => RedisKey_eqb (Redis.key e) k) es with
  | Some e => if now <? Redis.deadline e then Some (Redis.val e) else None
  | None => None
  end.

(** [client.setEx(key, ttl, value)]: replaces the entry; Redis refuses a
    time to live that is not positive. *)
Definition setEx (k : RedisKey) (ttl : Z) (v : RedisVal) (now : Z) : M unit :=
  fun w =>
    if ttl <=? 0 then (w, Throw (Error "ERR invalid expire time in 'setex' command"))
    else
      (set_redis w
         (Redis.Entry k v (now + ttl * 1000)
            :: filter (fun e => negb (RedisKey_eqb (Redis.key e) k)) (redis w)),
       Ok tt).

(** [`${prefix}:token:${sha256(token)}`] *)
Definition getKey (token : Str) : RedisKey := TokenKey (Sha256Hex token).

Definition add (token : Str) (now : Z) : M unit :=
  let expirationTimestamp := TokenManager.getTokenExpiration token in
  match expirationTimestamp with
  | None => throw (Error "Invalid token: no expiration found")
  | Some e =>
      if negb (truthy_num e) then throw (Error "Invalid token: no expiration found")
      else
        let now_s := seconds_of now in
        let ttl := Z.max (e - now_s) 0 in
        if ttl =? 0 then ret tt
        else setEx (getKey token) ttl Revoked now
  end.

Definition isBlacklisted (token : Str) (now : Z) (w : World) : bool :=
  match get (getKey token) now (redis w) with
  | Some Revoked => true
  | _ => false
  end.

Definition revokeAllUserTokens (uid : string) (ttl : Z) (now : Z) : M unit :=
  setEx (UserKey uid) ttl (Stamp (seconds_of now)) now.

(** [result ? parseInt(result, 10) : null].  A value that is not a number
    parses to [NaN], which every caller treats as it treats [null]. *)
Definition getUserRevocationTimestamp (uid : string) (now : Z) (w : World)
    : option Z :=
  match get (UserKey uid) now (redis w) with
  | Some (Stamp n) => Some n
  | _ => None
  end.

Definition areAllUserTokensRevoked (uid : string) (now : Z) (w : World) : bool :=
  match getUserRevocationTimestamp uid now w with
  | Some n => truthy_num n
  | None => false
  end.

(** [client.del(key)] *)
Definition remove (token : Str) : M unit :=
  fun w =>
    (set_redis w (filter (fun e => negb (RedisKey_eqb (Redis.key e) (getKey token)))
                         (redis w)),
     Ok tt).

End TokenBlacklist.

(* ===================================================================== *)
(** * modules/user/user.repository.ts *)
(* ===================================================================== *)

(** [String.prototype.toLowerCase] on the ASCII letters. *)
Definition lower_ascii (c : ascii) : ascii :=
  let n := nat_of_ascii c in
  if (Nat.leb 65 n && Nat.leb n 90)%bool then ascii_of_nat (n + 32) else c.

Fixpoint toLowerCase (s : string) : string :=
  match s with
  | EmptyString => EmptyString
  | String c rest => String (lower_ascii c) (toLowerCase rest)
  end.

Module UserRepository.

Definition findByEmail (mail : string) : M (option User.t) :=
  fun w => (w, Ok (find (fun u => String.eqb (User.email u) (toLowerCase mail)) (users w))).

Definition findById (uid : string) : M (option User.t) :=
  fun w => (w, Ok (find (fun u => String.eqb (User.id u) uid) (users w))).

(** [prisma.user.create]: the key [newId] is generated by the database;
    [id] and [email] are unique. *)
Definition create (mail : string) (pw : PwHash) (nm : string)
    (newId : string) (now : Z) : M User.t :=
  fun w =>
    let stored := toLowerCase mail in
    if existsb (fun u => String.eqb (User.email u) stored || String.eqb (User.id u) newId)
               (users w)
    then (w, Throw (PrismaError "P2002"))
    else
      let u := User.Build newId stored pw nm now in
      (set_users w (users w ++ [u]), Ok u).

Definition updatePassword (uid : string) (newPasswordHash : PwHash) : M unit :=
  fun w =>
    if existsb (fun u => String.eqb (User.id u) uid) (users w)
    then
      (set_users w
         (map (fun u =>
                 if String.eqb (User.id u) uid
                 then User.Build (User.id u) (User.email u) newPasswordHash
                                 (User.name u) (User.createdAt u)
                 else u)
              (users w)),
       Ok tt)
    else (w, Throw (PrismaError "P2025")).

End UserRepository.

(* ===================================================================== *)
(** * modules/auth/refreshToken.repository.ts *)
(* ===================================================================== *)

Module RefreshTokenRepository.

(** [crypto.createHash('sha256').update(token).digest('hex')] *)
Definition hashToken (token : Str) : Str := Sha256Hex token.

Definition byId (tid : string) (r : RefreshToken.t) : bool :=
  String.eqb (RefreshToken.id r) tid.

Definition byToken (h : Str) (r : RefreshToken.t) : bool :=
  if Str_eq_dec (RefreshToken.token r) h then true else false.

(** [prisma.refreshToken.create]: [id] and [token] are unique. *)
Definition create (uid : string) (token : Str) (expiresAt : Z)
    (newId : string) (now : Z) : M RefreshToken.t :=
  fun w =>
    let tokenHash := hashToken token in
    if existsb (fun r => byToken tokenHash r || byId newId r) (refreshTokens w)
    then (w, Throw (PrismaError "P2002"))
    else
      let r := RefreshToken.Build newId tokenHash uid expiresAt now
                                  None None None None in
      (set_refreshTokens w (refreshTokens w ++ [r]), Ok r).

(** [findUnique({ where: { token: tokenHash }, include: { user: true } })] *)
Definition findByToken (token : Str)
    : M (option (RefreshToken.t * option User.t)) :=
  fun w =>
    let tokenHash := hashToken token in
    (w, Ok match find (byToken tokenHash) (refreshTokens w) with
           | Some r =>
               Some (r, find (fun u => String.eqb (User.id u) (RefreshToken.userId r))
                             (users w))
           | None => None
           end).

(** [prisma.refreshToken.update({ where: { id }, data })]: the record must
    exist. *)
Definition update (tid : string) (f : RefreshToken.t -> RefreshToken.t)
    : M RefreshToken.t :=
  fun w =>
    match find (byId tid) (refreshTokens w) with
    | Some r =>
        (set_refreshTokens w
           (map (fun x => if byId tid x then f x else x) (refreshTokens w)),
         Ok (f r))
    | None => (w, Throw (PrismaError "P2025"))
    end.

Definition revoke (tid : string) (replacedBy : option string) (now : Z)
    : M RefreshToken.t :=
  update tid (fun r => RefreshToken.with_revoked r now replacedBy).

Definition setGracePeriod (tid : string) (newToken : Str)
    (gracePeriodSeconds : Z) (now : Z) : M RefreshToken.t :=
  let gracePeriodEnds := now + gracePeriodSeconds * 1000 in
  update tid (fun r => RefreshToken.with_grace r (hashToken newToken) gracePeriodEnds).

(** [updateMany({ where: { userId, revokedAt: null }, data: { revokedAt } })] *)
Definition revokeAllByUserId (uid : string) (now : Z) : M unit :=
  fun w =>
    (set_refreshTokens w
       (map (fun r =>
               if String.eqb (RefreshToken.userId r) uid
                  && negb (RefreshToken.is_revoked r)
               then RefreshToken.with_revokedAt r now
               else r)
            (refreshTokens w)),
     Ok tt).

(** [deleteMany({ where: { expiresAt: { lt: new Date() } } })] *)
Definition deleteExpired (now : Z) : M unit :=
  fun w =>
    (set_refreshTokens w
       (filter (fun r => negb (RefreshToken.expiresAt r <? now)) (refreshTokens w)),
     Ok tt).

End RefreshTokenRepository.

(* ===================================================================== *)
(** * modules/auth/auth.service.ts *)
(* ===================================================================== *)

Record RegisterDTO : Type := MkRegisterDTO {
  reg_email : string;
  reg_password : string;
  reg_name : string
}.

Record LoginDTO : Type := MkLoginDTO {
  login_email : string;
  login_password : string;
  login_rememberMe : bool
}.

Record UpdatePasswordDTO : Type := MkUpdatePasswordDTO {
  currentPassword : string;
  newPassword : string
}.

Record UserSummary : Type := MkUserSummary {
  summary_id : string;
  summary_email : string;
  summary_name : string
}.

Record LoginResult : Type := MkLoginResult {
  login_user : UserSummary;
  login_accessToken : Str;
  login_refreshToken : Str;
  result_rememberMe : bool
}.

Record RefreshResult : Type := MkRefreshResult {
  accessToken : Str;
  refreshToken : Str
}.

(** The values an operation draws: the [jwtid] of the access token, the
    [crypto.randomUUID()] handed to the ledger, and the key the database
    gives the new ledger row. *)
Record Entropy : Type := MkEntropy {
  jwtid : string;
  uuid : string;
  rowId : string
}.

Module AuthService.

Definition calculateExpiration (duration : string) (now : Z) : Outcome Z :=
  match match_duration duration with
  | Some (value, "d"%char) => Ok (now + value * 24 * 60 * 60 * 1000)
  | Some (value, "h"%char) => Ok (now + value * 60 * 60 * 1000)
  | Some (value, "m"%char) => Ok (now + value * 60 * 1000)
  | _ => Throw (Error "Invalid duration format")
  end.

Definition register (data : RegisterDTO) (salt newId : string) (now : Z)
    : M User.t :=
  existingUser <- UserRepository.findByEmail (reg_email data) ;;
  match existingUser with
  | Some _ => throw (ConflictError "Email already registered")
  | None =>
      let passwordHash := HashProvider.hash (reg_password data) salt in
      UserRepository.create (reg_email data) passwordHash (reg_name data) newId now
  end.

Definition login (env : Env.t) (data : LoginDTO) (rnd : Entropy) (now : Z)
    : M LoginResult :=
  found <- UserRepository.findByEmail (login_email data) ;;
  match found with
  | None => throw (UnauthorizedError "Invalid credentials")
  | Some user =>
      let passwordMatches :=
        HashProvider.compare (login_password data) (User.password user) in
      if negb passwordMatches then throw (UnauthorizedError "Invalid credentials")
      else
        access <- lift (TokenManager.generateAccessToken
                          env (User.id user) (User.email user) (jwtid rnd) now) ;;
        let refreshExpiresIn :=
          if login_rememberMe data then "30d" else Env.JWT_REFRESH_EXPIRES_IN env in
        expiresAt <- lift (calculateExpiration refreshExpiresIn now) ;;
        refreshTokenRecord <-
          RefreshTokenRepository.create (User.id user) (Lit (uuid rnd)) expiresAt
                                        (rowId rnd) now ;;
        refresh_ <- lift (TokenManager.generateRefreshToken
                            env (User.id user)
                            (RefreshToken.id refreshTokenRecord) now) ;;
        ret (MkLoginResult
               (MkUserSummary (User.id user) (User.email user) (User.name user))
               access refresh_ (login_rememberMe data))
  end.

(** The rotation branch of [refresh]. *)
Definition rotate (env : Env.t) (tokenRecord : RefreshToken.t) (user : User.t)
    (rnd : Entropy) (now : Z) : M RefreshResult :=
  newAccessToken <- lift (TokenManager.generateAccessToken
                            env (User.id user) (User.email user) (jwtid rnd) now) ;;
  newRefreshTokenRecord <-
    RefreshTokenRepository.create (User.id user) (Lit (uuid rnd))
                                  (now + 7 * 24 * 60 * 60 * 1000) (rowId rnd) now ;;
  newRefreshToken <- lift (TokenManager.generateRefreshToken
                             env (User.id user)
                             (RefreshToken.id newRefreshTokenRecord) now) ;;
  RefreshTokenRepository.setGracePeriod
    (RefreshToken.id tokenRecord) newRefreshToken
    (Env.REFRESH_GRACE_PERIOD_SECONDS env) now ;;;
  (fun w =>
     (set_timers w
        (timers w ++ [MkTimer (now + Env.REFRESH_GRACE_PERIOD_SECONDS env * 1000)
                              (RefreshToken.id tokenRecord)
                              (RefreshToken.id newRefreshTokenRecord)]),
      Ok tt)) ;;;
  ret (MkRefreshResult newAccessToken newRefreshToken).

(** [tokenRecord.user.id]: dereferencing a missing relation is a
    [TypeError]. *)
Definition the_user (u : option User.t) : M User.t :=
  match u with
  | Some user => ret user
  | None => throw (TypeError "Cannot read properties of null")
  end.

Definition refresh (env : Env.t) (token : Str) (rnd : Entropy) (now : Z)
    : M RefreshResult :=
  payload <- lift (TokenManager.verifyRefreshToken env token now) ;;
  found <- RefreshTokenRepository.findByToken token ;;
  match found with
  | None => throw (UnauthorizedError "Invalid refresh token")
  | Some (tokenRecord, joined) =>
      if RefreshToken.is_revoked tokenRecord then
        RefreshTokenRepository.revokeAllByUserId (Claims.userId payload) now ;;;
        TokenBlacklist.revokeAllUserTokens (Claims.userId payload) 3600 now ;;;
        throw (UnauthorizedError "Token reuse detected. All sessions revoked.")
      else if RefreshToken.expiresAt tokenRecord <? now then
        throw (UnauthorizedError "Refresh token expired")
      else
        match RefreshToken.gracePeriodToken tokenRecord,
              RefreshToken.gracePeriodEnds tokenRecord with
        | Some stored, Some ends =>
            if truthy_str stored && (now <? ends) then
              user <- the_user joined ;;
              gracePeriodAccessToken <-
                lift (TokenManager.generateAccessToken
                        env (User.id user) (User.email user) (jwtid rnd) now) ;;
              ret (MkRefreshResult gracePeriodAccessToken stored)
            else
              user <- the_user joined ;;
              rotate env tokenRecord user rnd now
        | _, _ =>
            user <- the_user joined ;;
            rotate env tokenRecord user rnd now
        end
  end.

(** The callback of the rotation's [setTimeout]; an outcome [Throw] is a
    rejection nobody handles. *)
Definition deferredRevocation (t : Timer) (now : Z) : M unit :=
  RefreshTokenRepository.revoke (oldTokenId t) (Some (newTokenId t)) now ;;;
  ret tt.

Definition logout (env : Env.t) (access : Str) (refresh_ : option Str) (now : Z)
    : M unit :=
  TokenBlacklist.add access now ;;;
  match refresh_ with
  | Some token =>
      if truthy_str token then
        try_ignore
          (payload <- lift (TokenManager.verifyRefreshToken env token now) ;;
           match Claims.tokenId payload with
           | Some tid => RefreshTokenRepository.revoke tid None now
           | None => throw (PrismaError "validation")
           end)
      else ret tt
  | None => ret tt
  end.

Definition updatePassword (uid : string) (data : UpdatePasswordDTO)
    (salt : string) (now : Z) : M unit :=
  found <- UserRepository.findById uid ;;
  match found with
  | None => throw (BadRequestError "User not found")
  | Some user =>
      let passwordMatches :=
        HashProvider.compare (currentPassword data) (User.password user) in
      if negb passwordMatches
      then throw (UnauthorizedError "Current password is incorrect")
      else
        let newPasswordHash := HashProvider.hash (newPassword data) salt in
        UserRepository.updatePassword uid newPasswordHash ;;;
        RefreshTokenRepository.revokeAllByUserId uid now ;;;
        TokenBlacklist.revokeAllUserTokens uid 3600 now
  end.

End AuthService.

(* ===================================================================== *)
(** * The second revision of auth.service.ts *)
(* ===================================================================== *)

(** The repository holds a second copy of the service.  It differs in
    [login] and in the rotation: the refresh token is signed first, with a
    random UUID as [tokenId], and the ledger row is created from the
    signed token; the rotation's callback swallows what [revoke] throws. *)
Module AuthService2.

Definition login (env : Env.t) (data : LoginDTO) (rnd : Entropy) (now : Z)
    : M LoginResult :=
  found <- UserRepository.findByEmail (login_email data) ;;
  match found with
  | None => throw (UnauthorizedError "Invalid credentials")
  | Some user =>
      let passwordMatches :=
        HashProvider.compare (login_password data) (User.password user) in
      if negb passwordMatches then throw (UnauthorizedError "Invalid credentials")
      else
        access <- lift (TokenManager.generateAccessToken
                          env (User.id user) (User.email user) (jwtid rnd) now) ;;
        let refreshExpiresIn :=
          if login_rememberMe data then "30d" else Env.JWT_REFRESH_EXPIRES_IN env in
        expiresAt <- lift (AuthService.calculateExpiration refreshExpiresIn now) ;;
        refresh_ <- lift (TokenManager.generateRefreshToken
                            env (User.id user) (uuid rnd) now) ;;
        RefreshTokenRepository.create (User.id user) refresh_ expiresAt
                                      (rowId rnd) now ;;;
        ret (MkLoginResult
               (MkUserSummary (User.id user) (User.email user) (User.name user))
               access refresh_ (login_rememberMe data))
  end.

(** [try { await revoke(old, new) } catch { }] *)
Definition deferredRevocation (t : Timer) (now : Z) : M unit :=
  try_ignore (RefreshTokenRepository.revoke (oldTokenId t) (Some (newTokenId t)) now).

End AuthService2.

(* ===================================================================== *)
(** * shared/middlewares/authGuard.ts *)
(* ===================================================================== *)

(** [req.user] *)
Record ReqUser : Type := MkReqUser {
  req_userId : string;
  req_email : option string
}.

(** Step 4 of the guard: the per-user revocation epoch against [iat]. *)
Definition revocationCheck (payload : Claims.t) (revocationTimestamp : option Z)
    : Outcome unit :=
  match revocationTimestamp with
  | Some ts =>
      if truthy_num ts then
        match Claims.iat payload with
        | None =>
            Throw (UnauthorizedError "Token revocation check failed: missing iat")
        | Some i =>
            if negb (truthy_num i) then
              Throw (UnauthorizedError "Token revocation check failed: missing iat")
            else if i <? ts then
              Throw (UnauthorizedError "Token has been revoked by user security event")
            else Ok tt
        end
      else Ok tt
  | None => Ok tt
  end.

(** The guard either calls [next(error)] ([Throw]) or sets [req.user] and
    calls [next()] ([Ok]).  [cookie] is [req.cookies['access_token']]. *)
Definition authGuard (env : Env.t) (cookie : option Str) (now : Z) (w : World)
    : Outcome ReqUser :=
  match cookie with
  | None => Throw (UnauthorizedError "Access token not found")
  | Some token =>
      if negb (truthy_str token) then
        Throw (UnauthorizedError "Access token not found")
      else
        match TokenManager.verifyAccessToken env token now with
        | Throw e => Throw e
        | Ok payload =>
            if TokenBlacklist.isBlacklisted token now w then
              Throw (UnauthorizedError "Token has been revoked")
            else
              match revocationCheck payload
                      (TokenBlacklist.getUserRevocationTimestamp
                         (Claims.userId payload) now w) with
              | Throw e => Throw e
              | Ok _ => Ok (MkReqUser (Claims.userId payload) (Claims.email payload))
              end
        end
  end.

(* ===================================================================== *)
(** * Running the ledger's operations *)
(* ===================================================================== *)

(** The five operations of the ledger that the engine calls. *)
Inductive LedgerOp : Type :=
| OpCreate (uid : string) (token : Str) (expiresAt : Z) (newId : string)
| OpFindByToken (token : Str)
| OpRevoke (tid : string) (replacedBy : option string)
| OpSetGracePeriod (tid : string) (newToken : Str) (gracePeriodSeconds : Z)
| OpRevokeAllByUserId (uid : string).

(** The world after an operation, whether it returned or threw. *)
Definition runLedgerOp (op : LedgerOp) (now : Z) (w : World) : World :=
  match op with
  | OpCreate uid token expiresAt newId =>
      fst (RefreshTokenRepository.create uid token expiresAt newId now w)
  | OpFindByToken token => fst (RefreshTokenRepository.findByToken token w)
  | OpRevoke tid replacedBy => fst (RefreshTokenRepository.revoke tid replacedBy now w)
  | OpSetGracePeriod tid newToken secs =>
      fst (RefreshTokenRepository.setGracePeriod tid newToken secs now w)
  | OpRevokeAllByUserId uid => fst (RefreshTokenRepository.revokeAllByUserId uid now w)
  end.

Fixpoint runLedgerOps (ops : list (LedgerOp * Z)) (w : World) : World :=
  match ops with
  | [] => w
  | (op, now) :: rest => runLedgerOps rest (runLedgerOp op now w)
  end.

(** The record with a given key, as [where: { id }] selects it. *)
Definition recordById (tid : string) (w : World) : option RefreshToken.t :=
  find (RefreshTokenRepository.byId tid) (refreshTokens w).

(** What [revokeAllByUserId] does to one record. *)
Definition revokeForUser (uid : string) (now : Z) (r : RefreshToken.t) : RefreshToken.t :=
  if String.eqb (RefreshToken.userId r) uid && negb (RefreshToken.is_revoked r)
  then RefreshToken.with_revokedAt r now
  else r.

(** What a login needs beyond the credentials: timespans the signer
    accepts, a ledger expiry that parses, and a fresh ledger row. *)
Definition can_issue (env : Env.t) (rememberMe : bool) (rnd : Entropy) (w : World)
    : Prop :=
  timespan_seconds (Env.JWT_ACCESS_EXPIRES_IN env) <> None
  /\ timespan_seconds (Env.JWT_REFRESH_EXPIRES_IN env) <> None
  /\ (rememberMe = false ->
      forall now e, AuthService.calculateExpiration (Env.JWT_REFRESH_EXPIRES_IN env) now
                    <> Throw e)
  /\ existsb (fun r => RefreshTokenRepository.byToken (Sha256Hex (Lit (uuid rnd))) r
                       || RefreshTokenRepository.byId (rowId rnd) r)
             (refreshTokens w) = false.

(* ===================================================================== *)
(** * shared/middlewares/csrfProtection.ts *)
(* ===================================================================== *)

Module CsrfProtection.

(** The middleware calls [next()], throws [ForbiddenError], or lets the
    [RangeError] of [crypto.timingSafeEqual] escape. *)
Inductive Result : Type :=
| Next
| Forbidden (message : string)
| RangeError (message : string).

(** [['GET', 'HEAD', 'OPTIONS'].includes(req.method)] *)
Definition safeMethod (method : string) : bool :=
  String.eqb method "GET" || String.eqb method "HEAD" || String.eqb method "OPTIONS".

(** [!value] for a [string | undefined]. *)
Definition missing (value : option string) : bool :=
  match value with
  | None => true
  | Some EmptyString => true
  | Some _ => false
  end.

(** [tokenFromHeader] is [req.headers['x-csrf-token']], [tokenFromCookie]
    is [req.cookies['csrf_token']]; a string is the sequence of its bytes,
    as [Buffer.from] reads it. *)
Definition validateToken (method : string) (tokenFromHeader tokenFromCookie : option string)
    : Result :=
  if safeMethod method then Next
  else if missing tokenFromHeader || missing tokenFromCookie
  then Forbidden "CSRF token missing"
  else
    match tokenFromHeader, tokenFromCookie with
    | Some h, Some c =>
        if negb (Nat.eqb (String.length h) (String.length c))
        then RangeError "Input buffers must have the same byte length"
        else if String.eqb h c then Next
        else Forbidden "Invalid CSRF token"
    | _, _ => Forbidden "CSRF token missing"
    end.

(** [sendToken]: the cookie it sets on the response, if any; [newToken]
    is the value [generateToken] draws. *)
Definition sendToken (existingToken : option string) (newToken : string)
    : option string :=
  if missing existingToken then Some newToken else None.

End CsrfProtection.

(* ===================================================================== *)
(** * shared/infra/redis.ts *)
(* ===================================================================== *)

Module RedisClient.

Inductive Reconnect : Type :=
| GiveUp (message : string)
| Delay (ms : Z).

(** [reconnectStrategy: (retries) => ...] *)
Definition reconnectStrategy (retries : Z) : Reconnect :=
  if 10 <? retries then GiveUp "Redis connection failed"
  else Delay (Z.min (retries * 100) 3000).

End RedisClient.

(* ===================================================================== *)
(** * Runs of the ledger with the expiry sweep, and what they keep *)
(* ===================================================================== *)

Inductive LedgerStep : Type :=
| Step (op : LedgerOp)
| Sweep.

Definition runLedgerStep (s : LedgerStep) (now : Z) (w : World) : World :=
  match s with
  | Step op => runLedgerOp op now w
  | Sweep => fst (RefreshTokenRepository.deleteExpired now w)
  end.

Fixpoint runLedgerSteps (steps : list (LedgerStep * Z)) (w : World) : World :=
  match steps with
  | [] => w
  | (s, now) :: rest => runLedgerSteps rest (runLedgerStep s now w)
  end.

(** The two unique columns of the ledger. *)
Definition uniqueKeys (rs : list RefreshToken.t) : Prop :=
  NoDup (map RefreshToken.id rs) /\ NoDup (map RefreshToken.token rs).

(** The grace-period columns are both null or both set. *)
Definition graceTogether (r : RefreshToken.t) : Prop :=
  RefreshToken.gracePeriodToken r = None <-> RefreshToken.gracePeriodEnds r = None.

(** The identity store: unique keys, and addresses unique and stored in
    lower case. *)
Definition usersWellFormed (us : list User.t) : Prop :=
  NoDup (map User.id us)
  /\ NoDup (map User.email us)
  /\ Forall (fun u => toLowerCase (User.email u) = User.email u) us.

(** The grace period of a record is running at instant [now]. *)
Definition inGracePeriod (r : RefreshToken.t) (now : Z) : bool :=
  match RefreshToken.gracePeriodToken r, RefreshToken.gracePeriodEnds r with
  | Some stored, Some ends => truthy_str stored && (now <? ends)
  | _, _ => false
  end.

(** What [UserRepository.updatePassword] does to one row. *)
Definition withPassword (uid : string) (h : PwHash) (u : User.t) : User.t :=
  if String.eqb (User.id u) uid
  then User.Build (User.id u) (User.email u) h (User.name u) (User.createdAt u)
  else u.

(** Several [refresh] calls with the same token, one after the other. *)
Fixpoint refreshAll (env : Env.t) (token : Str) (calls : list (Entropy * Z)) (w : World)
    : World * list (Outcome RefreshResult) :=
  match calls with
  | [] => (w, [])
  | (rnd, now) :: rest =>
      let (w1, o) := AuthService.refresh env token rnd now w in
      let (w2, os) := refreshAll env token rest w1 in
      (w2, o :: os)
  end.

(** The largest time value a [Date] holds, in milliseconds from the epoch;
    [new Date(t)] beyond it is an Invalid Date. *)
Definition maxDate : Z := 8640000000000000.

(** The longest string the [ms] parser behind [jwt.sign] reads; a longer
    [expiresIn] is refused whatever it spells. *)
Definition msMaxLength : nat := 100.

(** [login] with the clock read where the code reads it: [jwt.sign] of the
    access token, [Date.now()] in [calculateExpiration], the database's
    [createdAt] default at the insert, and [jwt.sign] of the refresh token
    after the awaited insert. *)
Module Timed.

Record Clocks : Type := MkClocks {
  atAccessSign : Z;
  atExpiration : Z;
  atInsert : Z;
  atRefreshSign : Z
}.

Definition login (env : Env.t) (data : LoginDTO) (rnd : Entropy) (clk : Clocks)
    : M LoginResult :=
  found <- UserRepository.findByEmail (login_email data) ;;
  match found with
  | None => throw (UnauthorizedError "Invalid credentials")
  | Some user =>
      let passwordMatches :=
        HashProvider.compare (login_password data) (User.password user) in
      if negb passwordMatches then throw (UnauthorizedError "Invalid credentials")
      else
        access <- lift (TokenManager.generateAccessToken
                          env (User.id user) (User.email user) (jwtid rnd)
                          (atAccessSign clk)) ;;
        let refreshExpiresIn :=
          if login_rememberMe data then "30d" else Env.JWT_REFRESH_EXPIRES_IN env in
        expiresAt <- lift (AuthService.calculateExpiration refreshExpiresIn
                                                           (atExpiration clk)) ;;
        refreshTokenRecord <-
          RefreshTokenRepository.create (User.id user) (Lit (uuid rnd)) expiresAt
                                        (rowId rnd) (atInsert clk) ;;
        refresh_ <- lift (TokenManager.generateRefreshToken
                            env (User.id user)
                            (RefreshToken.id refreshTokenRecord) (atRefreshSign clk)) ;;
        ret (MkLoginResult
               (MkUserSummary (User.id user) (User.email user) (User.name user))
               access refresh_ (login_rememberMe data))
  end.

End Timed.

(** [updatePassword] when the services it awaits can reject: the database
    client (lookup, user update, ledger update) with a request error of
    some code, argon2 and the Redis client with an [Error].  A fault that
    is [None] lets the call run as in [AuthService]. *)
Module Faulty.

Record Faults : Type := MkFaults {
  lookupFails : option string;
  hashFails : option string;
  userUpdateFails : option string;
  ledgerUpdateFails : option string;
  redisFails : option string
}.

Definition none : Faults := MkFaults None None None None None.

Definition failing {A : Type} (fault : option string) (error : string -> Exn) (c : M A)
    : M A :=
  match fault with
  | Some m => throw (error m)
  | None => c
  end.

Definition updatePassword (f : Faults) (uid : string) (data : UpdatePasswordDTO)
    (salt : string) (now : Z) : M unit :=
  found <- failing (lookupFails f) PrismaError (UserRepository.findById uid) ;;
  match found with
  | None => throw (BadRequestError "User not found")
  | Some user =>
      let passwordMatches :=
        HashProvider.compare (currentPassword data) (User.password user) in
      if negb passwordMatches
      then throw (UnauthorizedError "Current password is incorrect")
      else
        newPasswordHash <- failing (hashFails f) Error
                             (ret (HashProvider.hash (newPassword data) salt)) ;;
        failing (userUpdateFails f) PrismaError
                (UserRepository.updatePassword uid newPasswordHash) ;;;
        failing (ledgerUpdateFails f) PrismaError
                (RefreshTokenRepository.revokeAllByUserId uid now) ;;;
        failing (redisFails f) Error
                (TokenBlacklist.revokeAllUserTokens uid 3600 now)
  end.

End Faulty.

(** How one step changes the ledger: not at all, by one new row with fresh
    keys and no grace period, by an update that keeps both keys and keeps
    [graceTogether], or by deleting rows. *)
Inductive StepShape (before after : list RefreshToken.t) : Prop :=
| Same : after = before -> StepShape before after
| Appended (r : RefreshToken.t) :
    after = (before ++ [r])%list ->
    ~ In (RefreshToken.id r) (map RefreshToken.id before) ->
    ~ In (RefreshToken.token r) (map RefreshToken.token before) ->
    RefreshToken.gracePeriodToken r = None ->
    RefreshToken.gracePeriodEnds r = None ->
    StepShape before after
| Mapped (g : RefreshToken.t -> RefreshToken.t) :
    after = map g before ->
    (forall x, RefreshToken.id (g x) = RefreshToken.id x) ->
    (forall x, RefreshToken.token (g x) = RefreshToken.token x) ->
    (forall x, graceTogether x -> graceTogether (g x)) ->
    StepShape before after
| Filtered (p : RefreshToken.t -> bool) :
    after = filter p before -> StepShape before after.

(* ===================================================================== *)
(** * A concrete deployment, used by the examples *)
(* ===================================================================== *)

Module Fixture.

Definition env : Env.t :=
  Env.defaults "access-secret-0123456789abcdef0123456789"
               "refresh-secret-0123456789abcdef012345678".

Definition empty : World := MkWorld [] [] [] [].

(** 2023-11-14T22:13:20.500Z *)
Definition t0 : Z := 1700000000500.

Definition day : Z := 24 * 60 * 60 * 1000.

Definition registered : World :=
  fst (AuthService.register (MkRegisterDTO "A@X.com" "P@ssw0rd1" "Ann")
                            "salt-1" "user-1" (t0 - 1000) empty).

Definition ann : User.t :=
  User.Build "user-1" "a@x.com" (Argon2id "salt-1" "P@ssw0rd1") "Ann" (t0 - 1000).

Definition rnd1 : Entropy := MkEntropy "jti-1" "uuid-1" "row-1".
Definition rnd2 : Entropy := MkEntropy "jti-2" "uuid-2" "row-2".
Definition rnd3 : Entropy := MkEntropy "jti-3" "uuid-3" "row-3".
Definition rnd4 : Entropy := MkEntropy "jti-4" "uuid-4" "row-4".

(** The pair a login at [t0] with [rememberMe] returns. *)
Definition access1 : Str :=
  Jwt (Env.JWT_ACCESS_SECRET env)
      (Claims.Build "user-1" (Some "a@x.com") None
                    (Some 1700000000) (Some 1700000900)
                    (Some "secure-auth-poc") (Some "api") (Some "jti-1")).

Definition refresh1 : Str :=
  Jwt (Env.JWT_REFRESH_SECRET env)
      (Claims.Build "user-1" None (Some "row-1")
                    (Some 1700000000) (Some 1700604800)
                    (Some "secure-auth-poc") (Some "refresh") None).

Definition loggedIn : World :=
  fst (AuthService.login env (MkLoginDTO "a@x.com" "P@ssw0rd1" true) rnd1 t0 registered).

(** The world after the user changes the password at instant [t]. *)
Definition passwordChangedAt (t : Z) : World :=
  fst (AuthService.updatePassword
         "user-1" (MkUpdatePasswordDTO "P@ssw0rd1" "N3w-P@ssw0rd") "salt-2" t loggedIn).

(** The same login by the second revision: the ledger row is keyed by the
    digest of the token that is returned. *)
Definition refreshK : Str :=
  Jwt (Env.JWT_REFRESH_SECRET env)
      (Claims.Build "user-1" None (Some "uuid-1")
                    (Some 1700000000) (Some 1700604800)
                    (Some "secure-auth-poc") (Some "refresh") None).

Definition keyed : World :=
  fst (AuthService2.login env (MkLoginDTO "a@x.com" "P@ssw0rd1" true) rnd1 t0 registered).

(** The token minted by the rotation of [refreshK] one second later. *)
Definition refresh2 : Str :=
  Jwt (Env.JWT_REFRESH_SECRET env)
      (Claims.Build "user-1" None (Some "row-2")
                    (Some 1700000001) (Some 1700604801)
                    (Some "secure-auth-poc") (Some "refresh") None).

Definition access_at (jti_ : string) (seconds : Z) : Str :=
  Jwt (Env.JWT_ACCESS_SECRET env)
      (Claims.Build "user-1" (Some "a@x.com") None
                    (Some seconds) (Some (seconds + 900))
                    (Some "secure-auth-poc") (Some "api") (Some jti_)).

Definition rotated : World :=
  fst (AuthService.refresh env refreshK rnd2 (t0 + 1000) keyed).

(** A token, signed by anybody, whose [exp] claim is [0]. *)
Definition expiredAtEpoch : Str :=
  Jwt "any-secret"
      (Claims.Build "user-1" (Some "a@x.com") None
                    None (Some 0)
                    (Some "secure-auth-poc") (Some "api") None).

(** The user changes the password five seconds after the login: the row
    of the old token is revoked before the rotation's callback runs. *)
Definition revokedFirst : World :=
  fst (AuthService.updatePassword
         "user-1" (MkUpdatePasswordDTO "P@ssw0rd1" "N3w-P@ssw0rd") "salt-2"
         (t0 + 5000) rotated).

(** The callback that the rotation at [t0 + 1000] scheduled. *)
Definition timer1 : Timer := MkTimer (t0 + 11000) "row-1" "row-2".

(** A login without [rememberMe], a rotation five seconds before the old
    row expires, and the sweep of expired rows one second after it did. *)
Definition keyed7 : World :=
  fst (AuthService2.login env (MkLoginDTO "a@x.com" "P@ssw0rd1" false) rnd1 t0 registered).

Definition lateRotation : World :=
  fst (AuthService.refresh env refreshK rnd2 (t0 + 7 * day - 5000) keyed7).

Definition swept : World :=
  fst (RefreshTokenRepository.deleteExpired (t0 + 7 * day + 1000) lateRotation).

Definition timer7 : Timer := MkTimer (t0 + 7 * day + 5000) "row-1" "row-2".

End Fixture.

(** Further scenarios: a policy with two-hour access tokens, and a second
    user. *)
Module Fixture2.

Definition env2h : Env.t :=
  Env.Build (Env.JWT_ACCESS_SECRET Fixture.env) (Env.JWT_REFRESH_SECRET Fixture.env)
            "2h" "7d" 10.

(** The access token of a login at [t0] under [env2h]. *)
Definition access2h : Str :=
  Jwt (Env.JWT_ACCESS_SECRET env2h)
      (Claims.Build "user-1" (Some "a@x.com") None
                    (Some 1700000000) (Some 1700007200)
                    (Some "secure-auth-poc") (Some "api") (Some "jti-1")).

Definition loggedIn2h : World :=
  fst (AuthService.login env2h (MkLoginDTO "a@x.com" "P@ssw0rd1" false)
                         Fixture.rnd1 Fixture.t0 Fixture.registered).

Definition changed2h : World :=
  fst (AuthService.updatePassword
         "user-1" (MkUpdatePasswordDTO "P@ssw0rd1" "N3w-P@ssw0rd") "salt-2"
         (Fixture.t0 + 2000) loggedIn2h).

(** A second account, registered after Ann logged in. *)
Definition twoUsers : World :=
  fst (AuthService.register (MkRegisterDTO "Bob@X.com" "hunter22!" "Bob")
                            "salt-b" "user-2" (Fixture.t0 + 100) Fixture.loggedIn).

Definition accessBob : Str :=
  Jwt (Env.JWT_ACCESS_SECRET Fixture.env)
      (Claims.Build "user-2" (Some "bob@x.com") None
                    (Some 1700000000) (Some 1700000900)
                    (Some "secure-auth-poc") (Some "api") (Some "jti-b")).

(** The rotation's callback has run, eleven seconds after the login. *)
Definition timerFired : World :=
  fst (AuthService.deferredRevocation Fixture.timer1 (Fixture.t0 + 11000) Fixture.rotated).

(** The claims of [Fixture.refreshK]. *)
Definition claimsK : Claims.t :=
  Claims.Build "user-1" None (Some "uuid-1")
               (Some 1700000000) (Some 1700604800)
               (Some "secure-auth-poc") (Some "refresh") None.

(** The row of the login by the second revision. *)
Definition rowK : RefreshToken.t :=
  RefreshToken.Build "row-1" (Sha256Hex Fixture.refreshK) "user-1"
                     (Fixture.t0 + 30 * Fixture.day) Fixture.t0 None None None None.

End Fixture2.

(* ===================================================================== *)
(** * Basic facts *)
(* ===================================================================== *)

Example timespan_15m : timespan_seconds "15m" = Some 900.
Proof. reflexivity. Qed.

Example timespan_7d : timespan_seconds "7d" = Some 604800.
Proof. reflexivity. Qed.

Example timespan_rejects : timespan_seconds "d" = None /\ timespan_seconds "7x" = None.
Proof. split; reflexivity. Qed.

Lemma find_app_last {A : Type} (p : A -> bool) (l : list A) (x : A) :
  find p (l ++ [x]) =
  match find p l with
  | Some y => Some y
  | None => if p x then Some x else None
  end.
Proof.
  induction l as [|a l IH]; simpl.
  - reflexivity.
  - destruct (p a); [reflexivity | exact IH].
Qed.

Lemma find_map_same_key {A : Type} (p : A -> bool) (g : A -> A) (l : list A) :
  (forall x, p (g x) = p x) ->
  find p (map g l) = option_map g (find p l).
Proof.
  intros Hg. induction l as [|a l IH]; simpl.
  - reflexivity.
  - rewrite Hg. destruct (p a); [reflexivity | exact IH].
Qed.

Lemma find_none_existsb {A : Type} (p : A -> bool) (l : list A) :
  find p l = None <-> existsb p l = false.
Proof.
  induction l as [|a l IH]; simpl.
  - split; reflexivity.
  - destruct (p a); simpl; [split; discriminate | exact IH].
Qed.

Lemma byToken_true (h : Str) (r : RefreshToken.t) :
  RefreshTokenRepository.byToken h r = true <-> RefreshToken.token r = h.
Proof.
  unfold RefreshTokenRepository.byToken.
  destruct (Str_eq_dec (RefreshToken.token r) h); split; congruence.
Qed.

Lemma RedisKey_eqb_refl (k : RedisKey) : RedisKey_eqb k k = true.
Proof. unfold RedisKey_eqb. destruct (RedisKey_eq_dec k k); congruence. Qed.

Lemma RedisKey_eqb_eq (a b : RedisKey) : RedisKey_eqb a b = true <-> a = b.
Proof. unfold RedisKey_eqb. destruct (RedisKey_eq_dec a b); split; congruence. Qed.

Lemma truthy_num_pos (n : Z) : 0 < n -> truthy_num n = true.
Proof. intros H. unfold truthy_num. destruct (Z.eqb_spec n 0); [lia | reflexivity]. Qed.

(** An update that keeps the key keeps every lookup by key in place. *)
Lemma recordById_update (tid tid' : string) (f : RefreshToken.t -> RefreshToken.t)
    (rs : list RefreshToken.t) :
  (forall x, RefreshToken.id (f x) = RefreshToken.id x) ->
  find (RefreshTokenRepository.byId tid)
       (map (fun x => if RefreshTokenRepository.byId tid' x then f x else x) rs)
  = option_map (fun x => if RefreshTokenRepository.byId tid' x then f x else x)
               (find (RefreshTokenRepository.byId tid) rs).
Proof.
  intros Hf. apply find_map_same_key. intros x.
  unfold RefreshTokenRepository.byId.
  destruct (String.eqb (RefreshToken.id x) tid'); [rewrite Hf|]; reflexivity.
Qed.

(* ===================================================================== *)
(** * The ledger: revocation is terminal *)
(* ===================================================================== *)

Section LedgerInvariant.

Variables (tid : string) (now : Z).

Lemma revoked_after_update (tid' : string) (f : RefreshToken.t -> RefreshToken.t)
    (w : World) (r : RefreshToken.t) :
  (forall x, RefreshToken.id (f x) = RefreshToken.id x) ->
  (forall x, RefreshToken.revokedAt x <> None -> RefreshToken.revokedAt (f x) <> None) ->
  recordById tid w = Some r ->
  RefreshToken.revokedAt r <> None ->
  exists r',
    recordById tid (fst (RefreshTokenRepository.update tid' f w)) = Some r'
    /\ RefreshToken.revokedAt r' <> None.
Proof.
  intros Hid Hrev Hfind Hr.
  unfold RefreshTokenRepository.update.
  destruct (find (RefreshTokenRepository.byId tid') (refreshTokens w)) as [r0|]; simpl.
  - unfold recordById in *. simpl.
    rewrite recordById_update by exact Hid. rewrite Hfind. simpl.
    destruct (RefreshTokenRepository.byId tid' r); eexists; split; eauto.
  - exists r. split; assumption.
Qed.

Lemma revoked_step (op : LedgerOp) (w : World) (r : RefreshToken.t) :
  recordById tid w = Some r ->
  RefreshToken.revokedAt r <> None ->
  exists r',
    recordById tid (runLedgerOp op now w) = Some r'
    /\ RefreshToken.revokedAt r' <> None.
Proof.
  intros Hfind Hr.
  destruct op as [uid token expiresAt newId | token | tid' by_ | tid' newToken secs | uid];
    simpl.
  - (* create *)
    unfold RefreshTokenRepository.create.
    destruct (existsb _ (refreshTokens w)); simpl.
    + exists r. split; assumption.
    + unfold recordById in *. simpl. rewrite find_app_last, Hfind.
      exists r. split; [reflexivity | assumption].
  - (* findByToken *)
    exists r. split; assumption.
  - (* revoke *)
    apply (revoked_after_update tid' _ w r); try assumption.
    + intros x. reflexivity.
    + intros x _. simpl. discriminate.
  - (* setGracePeriod *)
    apply (revoked_after_update tid' _ w r); try assumption.
    + intros x. reflexivity.
    + intros x Hx. exact Hx.
  - (* revokeAllByUserId *)
    unfold recordById in *. simpl.
    rewrite find_map_same_key.
    + rewrite Hfind. simpl.
      destruct (String.eqb (RefreshToken.userId r) uid && negb (RefreshToken.is_revoked r));
        eexists; split; try reflexivity; [simpl; discriminate | assumption].
    + intros x. unfold RefreshTokenRepository.byId.
      destruct (String.eqb (RefreshToken.userId x) uid && negb (RefreshToken.is_revoked x));
        reflexivity.
Qed.

End LedgerInvariant.

(** C8. Once the record selected by a key has a non-null [revokedAt], the
    record selected by that key still has a non-null [revokedAt] after
    any sequence of the ledger's operations [create], [findByToken],
    [revoke], [setGracePeriod] and [revokeAllByUserId], run at any
    instants and whether they return or throw. *)
Theorem revoked_is_terminal :
  forall (ops : list (LedgerOp * Z)) (w : World) (tid : string) (r : RefreshToken.t),
    recordById tid w = Some r ->
    RefreshToken.revokedAt r <> None ->
    exists r',
      recordById tid (runLedgerOps ops w) = Some r'
      /\ RefreshToken.revokedAt r' <> None.
Proof.
  induction ops as [|[op now] ops IH]; intros w tid r Hfind Hr; simpl.
  - exists r. split; assumption.
  - destruct (revoked_step tid now op w r Hfind Hr) as [r1 [H1 H1r]].
    exact (IH _ tid r1 H1 H1r).
Qed.

(** The record revoked by the password change stays revoked through the
    rotation's callback, a new login and a second revocation sweep. *)
Lemma revoked_is_terminal_witness :
  exists r',
    recordById "row-1"
      (runLedgerOps
         [(OpRevoke "row-1" (Some "row-2"), Fixture.t0 + 11000);
          (OpCreate "user-1" (Lit "uuid-3") (Fixture.t0 + 8 * Fixture.day) "row-3",
           Fixture.t0 + 12000);
          (OpSetGracePeriod "row-1" Fixture.refresh2 10, Fixture.t0 + 13000);
          (OpFindByToken Fixture.refreshK, Fixture.t0 + 14000);
          (OpRevokeAllByUserId "user-1", Fixture.t0 + 15000)]
         Fixture.revokedFirst)
    = Some r'
    /\ RefreshToken.revokedAt r' <> None.
Proof.
  apply (revoked_is_terminal
           _ Fixture.revokedFirst "row-1"
           (RefreshToken.Build
              "row-1" (Sha256Hex Fixture.refreshK) "user-1"
              (Fixture.t0 + 30 * Fixture.day) Fixture.t0
              (Some (Fixture.t0 + 5000)) None
              (Some (Sha256Hex Fixture.refresh2)) (Some (Fixture.t0 + 11000)))).
  - reflexivity.
  - discriminate.
Defined.

(* ===================================================================== *)
(** * Login: the two credential failures *)
(* ===================================================================== *)

(** C9. A login whose email is absent from the identity store and a login
    whose email is present but whose password does not match both throw
    [UnauthorizedError] with the message "Invalid credentials": the two
    outcomes are the same value, and neither attempt changes the state. *)
Theorem login_failures_indistinguishable :
  forall (env1 env2 : Env.t) (absent wrong : LoginDTO) (rnd1 rnd2 : Entropy)
         (now1 now2 : Z) (w1 w2 : World) (u : User.t),
    UserRepository.findByEmail (login_email absent) w1 = (w1, Ok None) ->
    UserRepository.findByEmail (login_email wrong) w2 = (w2, Ok (Some u)) ->
    HashProvider.compare (login_password wrong) (User.password u) = false ->
    AuthService.login env1 absent rnd1 now1 w1
      = (w1, Throw (UnauthorizedError "Invalid credentials"))
    /\ AuthService.login env2 wrong rnd2 now2 w2
      = (w2, Throw (UnauthorizedError "Invalid credentials"))
    /\ snd (AuthService.login env1 absent rnd1 now1 w1)
       = snd (AuthService.login env2 wrong rnd2 now2 w2).
Proof.
  intros env1 env2 absent wrong rnd1 rnd2 now1 now2 w1 w2 u Habsent Hfound Hcmp.
  assert (H1 : AuthService.login env1 absent rnd1 now1 w1
               = (w1, Throw (UnauthorizedError "Invalid credentials"))).
  { unfold AuthService.login, bind. rewrite Habsent. reflexivity. }
  assert (H2 : AuthService.login env2 wrong rnd2 now2 w2
               = (w2, Throw (UnauthorizedError "Invalid credentials"))).
  { unfold AuthService.login, bind. rewrite Hfound, Hcmp. reflexivity. }
  split; [exact H1 | split; [exact H2 | rewrite H1, H2; reflexivity]].
Qed.

(** An unknown address and a wrong password against the registered user. *)
Lemma login_failures_indistinguishable_witness :
  AuthService.login Fixture.env (MkLoginDTO "nobody@x.com" "P@ssw0rd1" false)
                    Fixture.rnd1 Fixture.t0 Fixture.registered
    = (Fixture.registered, Throw (UnauthorizedError "Invalid credentials"))
  /\ AuthService.login Fixture.env (MkLoginDTO "a@x.com" "wrong" true)
                       Fixture.rnd2 (Fixture.t0 + 5) Fixture.registered
    = (Fixture.registered, Throw (UnauthorizedError "Invalid credentials"))
  /\ snd (AuthService.login Fixture.env (MkLoginDTO "nobody@x.com" "P@ssw0rd1" false)
                            Fixture.rnd1 Fixture.t0 Fixture.registered)
     = snd (AuthService.login Fixture.env (MkLoginDTO "a@x.com" "wrong" true)
                              Fixture.rnd2 (Fixture.t0 + 5) Fixture.registered).
Proof.
  apply (login_failures_indistinguishable
           Fixture.env Fixture.env
           (MkLoginDTO "nobody@x.com" "P@ssw0rd1" false)
           (MkLoginDTO "a@x.com" "wrong" true)
           Fixture.rnd1 Fixture.rnd2 Fixture.t0 (Fixture.t0 + 5)
           Fixture.registered Fixture.registered Fixture.ann);
    reflexivity.
Defined.

(* ===================================================================== *)
(** * Emails are compared without regard to letter case *)
(* ===================================================================== *)

Lemma register_inv (data : RegisterDTO) (salt newId : string) (now : Z)
    (w w' : World) (u : User.t) :
  AuthService.register data salt newId now w = (w', Ok u) ->
  find (fun x => String.eqb (User.email x) (toLowerCase (reg_email data))) (users w) = None
  /\ u = User.Build newId (toLowerCase (reg_email data))
                    (Argon2id salt (reg_password data)) (reg_name data) now
  /\ w' = set_users w (users w ++ [u]).
Proof.
  unfold AuthService.register, bind, UserRepository.findByEmail. simpl.
  destruct (find _ (users w)) as [x|] eqn:Hfind.
  - unfold throw. intros H. inversion H.
  - unfold UserRepository.create, HashProvider.hash.
    destruct (existsb _ (users w)); intros H; inversion H; subst.
    repeat split.
Qed.

Lemma findByEmail_registered (data : RegisterDTO) (salt newId : string) (now : Z)
    (w w' : World) (u : User.t) (mail : string) :
  AuthService.register data salt newId now w = (w', Ok u) ->
  toLowerCase mail = toLowerCase (reg_email data) ->
  UserRepository.findByEmail mail w' = (w', Ok (Some u)).
Proof.
  intros Hreg Hcase.
  destruct (register_inv _ _ _ _ _ _ _ Hreg) as [Hnone [Hu Hw]].
  unfold UserRepository.findByEmail. rewrite Hcase.
  subst w'. simpl. rewrite find_app_last, Hnone.
  subst u. simpl. rewrite String.eqb_refl. reflexivity.
Qed.

Lemma login_succeeds (env : Env.t) (data : LoginDTO) (rnd : Entropy) (now : Z)
    (w : World) (u : User.t) :
  UserRepository.findByEmail (login_email data) w = (w, Ok (Some u)) ->
  HashProvider.compare (login_password data) (User.password u) = true ->
  can_issue env (login_rememberMe data) rnd w ->
  exists w' res,
    AuthService.login env data rnd now w = (w', Ok res)
    /\ login_user res = MkUserSummary (User.id u) (User.email u) (User.name u)
    /\ users w' = users w.
Proof.
  intros Hfind Hcmp [Ha [Hr [Hcalc Hfresh]]].
  unfold AuthService.login, bind. rewrite Hfind, Hcmp. simpl.
  unfold TokenManager.generateAccessToken, TokenManager.generateRefreshToken,
    TokenManager.sign, lift.
  destruct (timespan_seconds (Env.JWT_ACCESS_EXPIRES_IN env)) as [a|]; [|congruence].
  destruct (timespan_seconds (Env.JWT_REFRESH_EXPIRES_IN env)) as [b|]; [|congruence].
  assert (Hexp : exists e,
             AuthService.calculateExpiration
               (if login_rememberMe data then "30d" else Env.JWT_REFRESH_EXPIRES_IN env)
               now = Ok e).
  { destruct (login_rememberMe data).
    - eexists. reflexivity.
    - specialize (Hcalc eq_refl now).
      destruct (AuthService.calculateExpiration (Env.JWT_REFRESH_EXPIRES_IN env) now)
        as [e|e]; [eexists; reflexivity | exfalso; exact (Hcalc e eq_refl)]. }
  destruct Hexp as [e He]. rewrite He.
  unfold RefreshTokenRepository.create, RefreshTokenRepository.hashToken.
  rewrite Hfresh. simpl.
  eexists. eexists. split; [reflexivity | split; reflexivity].
Qed.

(** C10. After [register] succeeds for an address, the stored address is
    its lowercase form, and for every address that differs from it only in
    letter case: [findByEmail] returns the registered user; [login] with
    that address and the registered password returns that user, under
    every policy whose timespans the signer accepts and, in particular,
    under the schema's default lifetimes ("15m", "7d") with any secrets
    of the length the schema demands, given a fresh ledger row; and a
    second [register] throws [ConflictError]. *)
Theorem email_case_insensitive :
  forall (data : RegisterDTO) (salt newId : string) (now : Z) (w w' : World)
         (u : User.t) (mail : string),
    AuthService.register data salt newId now w = (w', Ok u) ->
    toLowerCase mail = toLowerCase (reg_email data) ->
    User.email u = toLowerCase (reg_email data)
    /\ UserRepository.findByEmail mail w' = (w', Ok (Some u))
    /\ (forall env rememberMe rnd now',
          can_issue env rememberMe rnd w' ->
          exists w'' res,
            AuthService.login env (MkLoginDTO mail (reg_password data) rememberMe)
                              rnd now' w' = (w'', Ok res)
            /\ login_user res = MkUserSummary (User.id u) (User.email u) (User.name u))
    /\ (forall accessSecret refreshSecret rememberMe rnd now',
          (32 <= String.length accessSecret)%nat ->
          (32 <= String.length refreshSecret)%nat ->
          existsb (fun r => RefreshTokenRepository.byToken (Sha256Hex (Lit (uuid rnd))) r
                            || RefreshTokenRepository.byId (rowId rnd) r)
                  (refreshTokens w') = false ->
          exists w'' res,
            AuthService.login (Env.defaults accessSecret refreshSecret)
                              (MkLoginDTO mail (reg_password data) rememberMe)
                              rnd now' w' = (w'', Ok res)
            /\ login_user res = MkUserSummary (User.id u) (User.email u) (User.name u))
    /\ (forall password2 name2 salt2 newId2 now2,
          AuthService.register (MkRegisterDTO mail password2 name2) salt2 newId2 now2 w'
          = (w', Throw (ConflictError "Email already registered"))).
Proof.
  intros data salt newId now w w' u mail Hreg Hcase.
  pose proof (findByEmail_registered _ _ _ _ _ _ _ mail Hreg Hcase) as Hfind.
  destruct (register_inv _ _ _ _ _ _ _ Hreg) as [_ [Hu _]].
  assert (Hlogin : forall env rememberMe rnd now',
             can_issue env rememberMe rnd w' ->
             exists w'' res,
               AuthService.login env (MkLoginDTO mail (reg_password data) rememberMe)
                                 rnd now' w' = (w'', Ok res)
               /\ login_user res
                  = MkUserSummary (User.id u) (User.email u) (User.name u)).
  { intros env rememberMe rnd now' Hissue.
    destruct (login_succeeds env (MkLoginDTO mail (reg_password data) rememberMe)
                rnd now' w' u) as [w'' [res [Hl [Hs _]]]].
    - exact Hfind.
    - rewrite Hu. simpl. apply String.eqb_refl.
    - exact Hissue.
    - exists w'', res. split; assumption. }
  split; [rewrite Hu; reflexivity|].
  split; [exact Hfind|].
  split; [exact Hlogin|].
  split.
  - intros accessSecret refreshSecret rememberMe rnd now' _ _ Hfresh.
    apply Hlogin. unfold can_issue. cbn [Env.defaults Env.JWT_ACCESS_EXPIRES_IN
                                            Env.JWT_REFRESH_EXPIRES_IN].
    split; [vm_compute; discriminate|].
    split; [vm_compute; discriminate|].
    split; [|exact Hfresh].
    intros _ t e. vm_compute. discriminate.
  - intros password2 name2 salt2 newId2 now2.
    unfold AuthService.register, bind. cbn [reg_email]. rewrite Hfind. reflexivity.
Qed.

(** Registered as "A@X.com": stored as "a@x.com", found as "a@x.com",
    logged in as "a@x.com" under the fixture's policy, and refused a
    second registration as "a@x.com". *)
Lemma email_case_insensitive_witness :
  User.email Fixture.ann = "a@x.com"
  /\ UserRepository.findByEmail "a@x.com" Fixture.registered
     = (Fixture.registered, Ok (Some Fixture.ann))
  /\ (exists w'' res,
        AuthService.login Fixture.env (MkLoginDTO "a@x.com" "P@ssw0rd1" false)
                          Fixture.rnd1 Fixture.t0 Fixture.registered = (w'', Ok res)
        /\ login_user res = MkUserSummary "user-1" "a@x.com" "Ann")
  /\ AuthService.register (MkRegisterDTO "a@x.com" "0ther-Pw" "Anna")
                          "salt-2" "user-2" Fixture.t0 Fixture.registered
     = (Fixture.registered, Throw (ConflictError "Email already registered")).
Proof.
  pose proof (email_case_insensitive
                (MkRegisterDTO "A@X.com" "P@ssw0rd1" "Ann") "salt-1" "user-1"
                (Fixture.t0 - 1000) Fixture.empty Fixture.registered Fixture.ann
                "a@x.com" eq_refl eq_refl)
    as [Hstored [Hfound [_ [Hlogin Hconflict]]]].
  split; [exact Hstored|].
  split; [exact Hfound|].
  split.
  - exact (Hlogin "access-secret-0123456789abcdef0123456789"
                  "refresh-secret-0123456789abcdef012345678"
                  false Fixture.rnd1 Fixture.t0
                  ltac:(vm_compute; lia) ltac:(vm_compute; lia) eq_refl).
  - exact (Hconflict "0ther-Pw" "Anna" "salt-2" "user-2" Fixture.t0).
Defined.

Example login_other_case :
  exists w res,
    AuthService.login Fixture.env (MkLoginDTO "a@X.COM" "P@ssw0rd1" false)
                      Fixture.rnd1 Fixture.t0 Fixture.registered = (w, Ok res)
    /\ summary_email (login_user res) = "a@x.com".
Proof. eexists. eexists. split; [lazy; reflexivity | reflexivity]. Qed.

(* ===================================================================== *)
(** * The access guard and the revocation epoch *)
(* ===================================================================== *)

Lemma verify_is_jwt (secret audience : string) (token : Str) (now : Z) (c : Claims.t) :
  TokenManager.verify secret audience token now = Some c ->
  exists k, token = Jwt k c.
Proof.
  destruct token as [s | k c' | t]; simpl; try discriminate.
  destruct (negb (String.eqb k secret)); [discriminate|].
  destruct (match Claims.exp c' with Some e => e <=? seconds_of now | None => false end);
    [discriminate|].
  destruct (negb _); [discriminate|].
  destruct (negb _); [discriminate|].
  intros H. inversion H. subst. exists k. reflexivity.
Qed.

Lemma verifyAccessToken_truthy (env : Env.t) (token : Str) (now : Z) (c : Claims.t) :
  TokenManager.verifyAccessToken env token now = Ok c -> truthy_str token = true.
Proof.
  unfold TokenManager.verifyAccessToken.
  destruct (TokenManager.verify _ _ token now) as [d|] eqn:Hv; [|discriminate].
  destruct (verify_is_jwt _ _ _ _ _ Hv) as [k ->]. reflexivity.
Qed.

(** With a positive epoch, the check passes exactly for a token that
    carries an [iat] not before the epoch. *)
Lemma revocationCheck_positive (payload : Claims.t) (ts : Z) :
  0 < ts ->
  match Claims.iat payload with
  | None => exists m, revocationCheck payload (Some ts) = Throw (UnauthorizedError m)
  | Some i =>
      if i <? ts
      then exists m, revocationCheck payload (Some ts) = Throw (UnauthorizedError m)
      else revocationCheck payload (Some ts) = Ok tt
  end.
Proof.
  intros Hts. unfold revocationCheck. rewrite (truthy_num_pos ts Hts).
  destruct (Claims.iat payload) as [i|]; [|eexists; reflexivity].
  unfold truthy_num.
  destruct (Z.eqb_spec i 0) as [-> | Hi]; simpl.
  - destruct (Z.ltb_spec 0 ts); [eexists; reflexivity | lia].
  - destruct (i <? ts); [eexists; reflexivity | reflexivity].
Qed.

(** The guard, once the token has verified and is not blacklisted, is the
    revocation check. *)
Lemma authGuard_after_verification (env : Env.t) (token : Str) (now : Z) (w : World)
    (payload : Claims.t) :
  TokenManager.verifyAccessToken env token now = Ok payload ->
  TokenBlacklist.isBlacklisted token now w = false ->
  authGuard env (Some token) now w =
  match revocationCheck payload
          (TokenBlacklist.getUserRevocationTimestamp (Claims.userId payload) now w) with
  | Throw e => Throw e
  | Ok _ => Ok (MkReqUser (Claims.userId payload) (Claims.email payload))
  end.
Proof.
  intros Hv Hb. unfold authGuard.
  rewrite (verifyAccessToken_truthy _ _ _ _ Hv). simpl.
  rewrite Hv, Hb. reflexivity.
Qed.

(** C4. For a request whose access token verifies and is not blacklisted:
    when a revocation epoch [ts] exists for the token's user (a positive
    Unix time, as [revokeAllUserTokens] writes it), the guard throws
    [UnauthorizedError] exactly when the token has no [iat] or its [iat]
    is before [ts], and admits the request with [{userId, email}] when the
    [iat] is at or after [ts]; when no epoch exists the request is
    accepted with [{userId, email}]. *)
Theorem authGuard_revocation_epoch :
  forall (env : Env.t) (token : Str) (now : Z) (w : World) (payload : Claims.t),
    TokenManager.verifyAccessToken env token now = Ok payload ->
    TokenBlacklist.isBlacklisted token now w = false ->
    let epoch := TokenBlacklist.getUserRevocationTimestamp (Claims.userId payload) now w in
    let rejected :=
      exists m, authGuard env (Some token) now w = Throw (UnauthorizedError m) in
    let accepted :=
      authGuard env (Some token) now w
      = Ok (MkReqUser (Claims.userId payload) (Claims.email payload)) in
    (forall ts, epoch = Some ts -> 0 < ts ->
       (rejected <->
        (Claims.iat payload = None
         \/ exists i, Claims.iat payload = Some i /\ i < ts))
       /\ (forall i, Claims.iat payload = Some i -> ts <= i -> accepted))
    /\ (epoch = None -> accepted).
Proof.
  intros env token now w payload Hv Hb epoch rejected accepted.
  subst epoch rejected accepted.
  rewrite (authGuard_after_verification _ _ _ _ _ Hv Hb).
  split.
  - intros ts Hepoch Hts. rewrite Hepoch.
    pose proof (revocationCheck_positive payload ts Hts) as Hc.
    destruct (Claims.iat payload) as [i|].
    + destruct (Z.ltb_spec i ts) as [Hlt | Hge].
      * destruct Hc as [m Hm]. rewrite Hm. split.
        -- split; [intros _; right; exists i; split; [reflexivity | exact Hlt]
                  | intros _; exists m; reflexivity].
        -- intros i' Hi' Hle. inversion Hi'. subst. lia.
      * rewrite Hc. split.
        -- split.
           ++ intros [m Hm]. discriminate.
           ++ intros [Hnone | [i' [Hi' Hlt]]]; [discriminate|].
              inversion Hi'. subst. lia.
        -- intros _ _ _. reflexivity.
    + destruct Hc as [m Hm]. rewrite Hm. split.
      * split; [intros _; left; reflexivity | intros _; exists m; reflexivity].
      * intros i Hi. discriminate.
  - intros Hnone. rewrite Hnone. reflexivity.
Qed.

Example login_at_t0 :
  AuthService.login Fixture.env (MkLoginDTO "a@x.com" "P@ssw0rd1" true)
                    Fixture.rnd1 Fixture.t0 Fixture.registered
  = (Fixture.loggedIn,
     Ok (MkLoginResult (MkUserSummary "user-1" "a@x.com" "Ann")
                       Fixture.access1 Fixture.refresh1 true)).
Proof. reflexivity. Qed.

(** The password is changed two seconds after the login: the token of the
    login is refused one second later. *)
Lemma authGuard_revocation_epoch_witness :
  TokenBlacklist.getUserRevocationTimestamp
    "user-1" (Fixture.t0 + 3000) (Fixture.passwordChangedAt (Fixture.t0 + 2000))
  = Some 1700000002
  /\ exists m,
       authGuard Fixture.env (Some Fixture.access1) (Fixture.t0 + 3000)
                 (Fixture.passwordChangedAt (Fixture.t0 + 2000))
       = Throw (UnauthorizedError m).
Proof.
  split; [reflexivity|].
  destruct (authGuard_revocation_epoch
              Fixture.env Fixture.access1 (Fixture.t0 + 3000)
              (Fixture.passwordChangedAt (Fixture.t0 + 2000))
              (Claims.Build "user-1" (Some "a@x.com") None
                            (Some 1700000000) (Some 1700000900)
                            (Some "secure-auth-poc") (Some "api") (Some "jti-1"))
              eq_refl eq_refl) as [Hepoch _].
  destruct (Hepoch 1700000002 eq_refl ltac:(lia)) as [[_ Hrej] _].
  apply Hrej. right. exists 1700000000. split; [reflexivity | lia].
Defined.

(** The stamp [revokeAllUserTokens] writes is positive once the clock has
    passed the first second of 1970, and is read back until it expires. *)
Lemma revokeAllUserTokens_stamp (uid : string) (ttl now t : Z) (w : World) :
  0 < ttl ->
  now <= t < now + ttl * 1000 ->
  TokenBlacklist.getUserRevocationTimestamp
    uid t (fst (TokenBlacklist.revokeAllUserTokens uid ttl now w))
  = Some (seconds_of now).
Proof.
  intros Httl Ht.
  unfold TokenBlacklist.revokeAllUserTokens, TokenBlacklist.setEx,
    TokenBlacklist.getUserRevocationTimestamp, TokenBlacklist.get.
  destruct (Z.leb_spec ttl 0); [lia|]. simpl.
  rewrite RedisKey_eqb_refl. simpl.
  destruct (Z.ltb_spec t (now + ttl * 1000)); [reflexivity | lia].
Qed.

Lemma seconds_of_positive (now : Z) : 1000 <= now -> 0 < seconds_of now.
Proof.
  intros H. unfold seconds_of.
  apply Z.div_str_pos. lia.
Qed.

(* ===================================================================== *)
(** * What a successful login wrote and returned *)
(* ===================================================================== *)

Lemma digest_differs (t : Str) : Sha256Hex t <> t.
Proof.
  induction t as [s | k c | t IH]; try discriminate.
  intros H. inversion H. exact (IH H1).
Qed.

(** The uniqueness test of [create] passing means no row has the new key. *)
Lemma fresh_row_has_no_record (h : Str) (tid : string) (rs : list RefreshToken.t) :
  existsb (fun r => RefreshTokenRepository.byToken h r || RefreshTokenRepository.byId tid r)
          rs = false ->
  find (RefreshTokenRepository.byId tid) rs = None.
Proof.
  intros Hfresh. apply find_none_existsb. apply not_true_is_false. intros Hex.
  apply existsb_exists in Hex. destruct Hex as [r [Hin Hr]].
  assert (Hc : existsb (fun r => RefreshTokenRepository.byToken h r
                                 || RefreshTokenRepository.byId tid r) rs = true).
  { apply existsb_exists. exists r. split; [exact Hin|]. rewrite Hr. apply orb_true_r. }
  congruence.
Qed.

Lemma login_inv (env : Env.t) (data : LoginDTO) (rnd : Entropy) (now : Z)
    (w w' : World) (res : LoginResult) :
  AuthService.login env data rnd now w = (w', Ok res) ->
  exists u a b e,
    find (fun x => String.eqb (User.email x) (toLowerCase (login_email data))) (users w)
      = Some u
    /\ HashProvider.compare (login_password data) (User.password u) = true
    /\ timespan_seconds (Env.JWT_ACCESS_EXPIRES_IN env) = Some a
    /\ timespan_seconds (Env.JWT_REFRESH_EXPIRES_IN env) = Some b
    /\ AuthService.calculateExpiration
         (if login_rememberMe data then "30d" else Env.JWT_REFRESH_EXPIRES_IN env) now
       = Ok e
    /\ existsb (fun r => RefreshTokenRepository.byToken (Sha256Hex (Lit (uuid rnd))) r
                         || RefreshTokenRepository.byId (rowId rnd) r)
               (refreshTokens w) = false
    /\ w' = set_refreshTokens w
              (refreshTokens w ++
               [RefreshToken.Build (rowId rnd) (Sha256Hex (Lit (uuid rnd))) (User.id u)
                                   e now None None None None])
    /\ res = MkLoginResult
               (MkUserSummary (User.id u) (User.email u) (User.name u))
               (Jwt (Env.JWT_ACCESS_SECRET env)
                    (Claims.Build (User.id u) (Some (User.email u)) None
                       (Some (seconds_of now)) (Some (seconds_of now + a))
                       (Some TokenManager.issuer) (Some "api") (Some (jwtid rnd))))
               (Jwt (Env.JWT_REFRESH_SECRET env)
                    (Claims.Build (User.id u) None (Some (rowId rnd))
                       (Some (seconds_of now)) (Some (seconds_of now + b))
                       (Some TokenManager.issuer) (Some "refresh") None))
               (login_rememberMe data).
Proof.
  unfold AuthService.login, bind, UserRepository.findByEmail.
  destruct (find _ (users w)) as [u|] eqn:Hfind; [|discriminate].
  destruct (HashProvider.compare _ _) eqn:Hcmp; simpl; [|discriminate].
  unfold TokenManager.generateAccessToken, TokenManager.generateRefreshToken,
    TokenManager.sign, lift.
  destruct (timespan_seconds (Env.JWT_ACCESS_EXPIRES_IN env)) as [a|]; [|discriminate].
  destruct (AuthService.calculateExpiration _ now) as [e|] eqn:Hexp; [|discriminate].
  unfold RefreshTokenRepository.create, RefreshTokenRepository.hashToken.
  destruct (existsb _ (refreshTokens w)) eqn:Hfresh; simpl; [discriminate|].
  destruct (timespan_seconds (Env.JWT_REFRESH_EXPIRES_IN env)) as [b|]; [|discriminate].
  intros H. inversion H; subst.
  exists u, a, b, e. repeat split; assumption.
Qed.

(** The ledger row of a login holds the digest of a random UUID; the
    lookup of the returned token hashes the token. *)
Lemma login_token_lookup_misses (env : Env.t) (data : LoginDTO) (rnd : Entropy)
    (now : Z) (w w' : World) (res : LoginResult) :
  AuthService.login env data rnd now w = (w', Ok res) ->
  (forall r, In r (refreshTokens w) ->
             RefreshToken.token r <> Sha256Hex (login_refreshToken res)) ->
  RefreshTokenRepository.findByToken (login_refreshToken res) w' = (w', Ok None)
  /\ exists r, recordById (rowId rnd) w' = Some r
               /\ RefreshToken.token r = Sha256Hex (Lit (uuid rnd)).
Proof.
  intros Hlogin Hfresh.
  destruct (login_inv _ _ _ _ _ _ _ Hlogin)
    as [u [a [b [e [_ [_ [_ [_ [_ [Hold [Hw Hres]]]]]]]]]]].
  assert (Hmiss : find (RefreshTokenRepository.byToken (Sha256Hex (login_refreshToken res)))
                       (refreshTokens w) = None).
  { apply find_none_existsb. apply not_true_is_false. intros Hex.
    apply existsb_exists in Hex. destruct Hex as [r [Hin Hr]].
    apply byToken_true in Hr. exact (Hfresh r Hin Hr). }
  pose proof (fresh_row_has_no_record _ _ _ Hold) as Hid.
  split.
  - unfold RefreshTokenRepository.findByToken, RefreshTokenRepository.hashToken.
    rewrite Hw. simpl. rewrite find_app_last, Hmiss.
    replace (RefreshTokenRepository.byToken _ _) with false; [reflexivity|].
    symmetry. apply not_true_is_false. intros Hc. apply byToken_true in Hc.
    rewrite Hres in Hc. simpl in Hc. discriminate.
  - eexists. split.
    + unfold recordById. rewrite Hw. simpl. rewrite find_app_last, Hid.
      unfold RefreshTokenRepository.byId. simpl. rewrite String.eqb_refl. reflexivity.
    + reflexivity.
Qed.

(** C1 (the code departs from the claim). A login of the registered user
    succeeds and persists the ledger row "row-1" for that user, but the
    row is keyed by the digest of a random UUID: [findByToken] applied to
    the refresh token that the login returned yields no record, and
    [refresh] with that token throws "Invalid refresh token". *)
Theorem login_refresh_token_not_found :
  AuthService.login Fixture.env (MkLoginDTO "a@x.com" "P@ssw0rd1" true)
                    Fixture.rnd1 Fixture.t0 Fixture.registered
  = (Fixture.loggedIn,
     Ok (MkLoginResult (MkUserSummary "user-1" "a@x.com" "Ann")
                       Fixture.access1 Fixture.refresh1 true))
  /\ refreshTokens Fixture.loggedIn
     = [RefreshToken.Build "row-1" (Sha256Hex (Lit "uuid-1")) "user-1"
                           (Fixture.t0 + 30 * Fixture.day) Fixture.t0
                           None None None None]
  /\ RefreshTokenRepository.findByToken Fixture.refresh1 Fixture.loggedIn
     = (Fixture.loggedIn, Ok None)
  /\ AuthService.refresh Fixture.env Fixture.refresh1 Fixture.rnd2
                         (Fixture.t0 + 1000) Fixture.loggedIn
     = (Fixture.loggedIn, Throw (UnauthorizedError "Invalid refresh token")).
Proof. repeat split; reflexivity. Qed.

(** The second revision of [login] keys the row by the digest of the
    returned token, and the lookup finds the row and its owner. *)
Example login2_refresh_token_found :
  AuthService2.login Fixture.env (MkLoginDTO "a@x.com" "P@ssw0rd1" true)
                     Fixture.rnd1 Fixture.t0 Fixture.registered
  = (Fixture.keyed,
     Ok (MkLoginResult (MkUserSummary "user-1" "a@x.com" "Ann")
                       Fixture.access1 Fixture.refreshK true))
  /\ RefreshTokenRepository.findByToken Fixture.refreshK Fixture.keyed
     = (Fixture.keyed,
        Ok (Some (RefreshToken.Build "row-1" (Sha256Hex Fixture.refreshK) "user-1"
                                     (Fixture.t0 + 30 * Fixture.day) Fixture.t0
                                     None None None None,
                  Some Fixture.ann))).
Proof. split; reflexivity. Qed.

(* ===================================================================== *)
(** * Refresh inside the grace period *)
(* ===================================================================== *)

(** The grace branch reads the ledger and writes nothing: it returns a
    fresh access token and the string stored on the old record. *)
Lemma refresh_in_grace_period (env : Env.t) (token : Str) (rnd : Entropy) (now : Z)
    (w : World) (payload : Claims.t) (r : RefreshToken.t) (u : User.t)
    (stored : Str) (ends a : Z) :
  TokenManager.verifyRefreshToken env token now = Ok payload ->
  RefreshTokenRepository.findByToken token w = (w, Ok (Some (r, Some u))) ->
  RefreshToken.revokedAt r = None ->
  now <= RefreshToken.expiresAt r ->
  RefreshToken.gracePeriodToken r = Some stored ->
  truthy_str stored = true ->
  RefreshToken.gracePeriodEnds r = Some ends ->
  now < ends ->
  timespan_seconds (Env.JWT_ACCESS_EXPIRES_IN env) = Some a ->
  AuthService.refresh env token rnd now w
  = (w, Ok (MkRefreshResult
              (Jwt (Env.JWT_ACCESS_SECRET env)
                   (Claims.Build (User.id u) (Some (User.email u)) None
                      (Some (seconds_of now)) (Some (seconds_of now + a))
                      (Some TokenManager.issuer) (Some "api") (Some (jwtid rnd))))
              stored)).
Proof.
  intros Hv Hfind Hrev Hexp Hg Htruthy Hends Hnow Ha.
  unfold AuthService.refresh, bind, lift. rewrite Hv, Hfind.
  unfold RefreshToken.is_revoked. rewrite Hrev, Hg, Hends, Htruthy.
  destruct (Z.ltb_spec (RefreshToken.expiresAt r) now); [lia|].
  destruct (Z.ltb_spec now ends); [|lia]. simpl.
  unfold ret, TokenManager.generateAccessToken, TokenManager.sign.
  rewrite Ha. reflexivity.
Qed.

(** Two calls inside the grace period return the same refresh string, the
    one stored on the record. *)
Lemma grace_calls_agree (env : Env.t) (token : Str) (rndA rndB : Entropy)
    (nowA nowB : Z) (w : World) (pA pB : Claims.t) (r : RefreshToken.t) (u : User.t)
    (stored : Str) (ends a : Z) :
  TokenManager.verifyRefreshToken env token nowA = Ok pA ->
  TokenManager.verifyRefreshToken env token nowB = Ok pB ->
  RefreshTokenRepository.findByToken token w = (w, Ok (Some (r, Some u))) ->
  RefreshToken.revokedAt r = None ->
  nowA <= RefreshToken.expiresAt r -> nowB <= RefreshToken.expiresAt r ->
  RefreshToken.gracePeriodToken r = Some stored ->
  truthy_str stored = true ->
  RefreshToken.gracePeriodEnds r = Some ends ->
  nowA < ends -> nowB < ends ->
  timespan_seconds (Env.JWT_ACCESS_EXPIRES_IN env) = Some a ->
  exists resA resB,
    AuthService.refresh env token rndA nowA w = (w, Ok resA)
    /\ AuthService.refresh env token rndB nowB (fst (AuthService.refresh env token rndA nowA w))
       = (w, Ok resB)
    /\ refreshToken resA = stored
    /\ refreshToken resB = stored.
Proof.
  intros HvA HvB Hfind Hrev HeA HeB Hg Ht Hends HnA HnB Ha.
  pose proof (refresh_in_grace_period env token rndA nowA w pA r u stored ends a
                HvA Hfind Hrev HeA Hg Ht Hends HnA Ha) as HA.
  pose proof (refresh_in_grace_period env token rndB nowB w pB r u stored ends a
                HvB Hfind Hrev HeB Hg Ht Hends HnB Ha) as HB.
  eexists. eexists. rewrite HA. simpl. rewrite HB.
  repeat split; reflexivity.
Qed.

(** What [setGracePeriod] attaches is the digest of the new token. *)
Lemma setGracePeriod_stores_digest (tid : string) (newToken : Str) (secs now : Z)
    (w : World) (r : RefreshToken.t) :
  recordById tid w = Some r ->
  exists r',
    recordById tid (fst (RefreshTokenRepository.setGracePeriod tid newToken secs now w))
      = Some r'
    /\ RefreshToken.gracePeriodToken r' = Some (Sha256Hex newToken)
    /\ RefreshToken.gracePeriodEnds r' = Some (now + secs * 1000)
    /\ Sha256Hex newToken <> newToken.
Proof.
  intros Hfind.
  unfold RefreshTokenRepository.setGracePeriod, RefreshTokenRepository.update,
    RefreshTokenRepository.hashToken.
  unfold recordById in *. rewrite Hfind. simpl.
  rewrite recordById_update by (intros x; reflexivity).
  rewrite Hfind. simpl.
  assert (Hid : RefreshTokenRepository.byId tid r = true).
  { apply find_some in Hfind. exact (proj2 Hfind). }
  rewrite Hid. eexists. split; [reflexivity|].
  repeat split. apply digest_differs.
Qed.

(** C2 (the code departs from the claim). A rotation of the old token
    mints and returns [refresh2] and attaches its digest to the old
    record.  Two further calls with the old token inside the grace period
    return refresh strings that are identical to each other, with access
    tokens that differ, but the string they return is the SHA-256 digest
    of [refresh2], not [refresh2]. *)
Theorem grace_refresh_returns_digest :
  AuthService.refresh Fixture.env Fixture.refreshK Fixture.rnd2
                      (Fixture.t0 + 1000) Fixture.keyed
  = (Fixture.rotated,
     Ok (MkRefreshResult (Fixture.access_at "jti-2" 1700000001) Fixture.refresh2))
  /\ AuthService.refresh Fixture.env Fixture.refreshK Fixture.rnd3
                         (Fixture.t0 + 2000) Fixture.rotated
     = (Fixture.rotated,
        Ok (MkRefreshResult (Fixture.access_at "jti-3" 1700000002)
                            (Sha256Hex Fixture.refresh2)))
  /\ AuthService.refresh Fixture.env Fixture.refreshK Fixture.rnd4
                         (Fixture.t0 + 3000) Fixture.rotated
     = (Fixture.rotated,
        Ok (MkRefreshResult (Fixture.access_at "jti-4" 1700000003)
                            (Sha256Hex Fixture.refresh2)))
  /\ Sha256Hex Fixture.refresh2 <> Fixture.refresh2
  /\ Fixture.access_at "jti-3" 1700000002 <> Fixture.access_at "jti-4" 1700000003.
Proof.
  repeat split; try reflexivity.
  - apply digest_differs.
  - discriminate.
Qed.

(* ===================================================================== *)
(** * The blacklist and its time to live *)
(* ===================================================================== *)

(** A token that expires [n] seconds from now is stored with a time to
    live of [n] seconds: it is blacklisted from now until then, and no
    longer afterwards. *)
Lemma blacklist_add_live (token : Str) (now n : Z) (w : World) :
  TokenManager.getTokenExpiration token = Some (seconds_of now + n) ->
  0 < n ->
  seconds_of now + n <> 0 ->
  let w' := fst (TokenBlacklist.add token now w) in
  TokenBlacklist.add token now w = (w', Ok tt)
  /\ redis w' = Redis.Entry (TokenBlacklist.getKey token) Revoked (now + n * 1000)
                  :: filter (fun e => negb (RedisKey_eqb (Redis.key e)
                                                         (TokenBlacklist.getKey token)))
                            (redis w)
  /\ (forall t, t < now + n * 1000 -> TokenBlacklist.isBlacklisted token t w' = true)
  /\ (forall t, now + n * 1000 <= t -> TokenBlacklist.isBlacklisted token t w' = false).
Proof.
  intros Hexp Hn Hnz. unfold TokenBlacklist.add. rewrite Hexp.
  unfold truthy_num. destruct (Z.eqb_spec (seconds_of now + n) 0) as [|_]; [contradiction|].
  simpl negb. cbv iota.
  replace (seconds_of now + n - seconds_of now) with n by lia.
  rewrite Z.max_l by lia.
  destruct (Z.eqb_spec n 0); [lia|].
  unfold TokenBlacklist.setEx. destruct (Z.leb_spec n 0); [lia|]. simpl.
  repeat split.
  - intros t Ht. unfold TokenBlacklist.isBlacklisted, TokenBlacklist.get. simpl.
    rewrite RedisKey_eqb_refl. simpl.
    destruct (Z.ltb_spec t (now + n * 1000)); [reflexivity | lia].
  - intros t Ht. unfold TokenBlacklist.isBlacklisted, TokenBlacklist.get. simpl.
    rewrite RedisKey_eqb_refl. simpl.
    destruct (Z.ltb_spec t (now + n * 1000)); [lia | reflexivity].
Qed.

(** A token whose non-zero [exp] is not after the clock is not stored, and
    nothing is thrown. *)
Lemma blacklist_add_expired (token : Str) (now e : Z) (w : World) :
  TokenManager.getTokenExpiration token = Some e ->
  e <> 0 ->
  e <= seconds_of now ->
  TokenBlacklist.add token now w = (w, Ok tt).
Proof.
  intros Hexp Hnz Hle. unfold TokenBlacklist.add. rewrite Hexp.
  unfold truthy_num. destruct (Z.eqb_spec e 0) as [|_]; [contradiction|].
  simpl negb. cbv iota.
  rewrite Z.max_r by lia. reflexivity.
Qed.

(** A token whose [exp] is [0] is taken for a token without expiry. *)
Lemma blacklist_add_exp_zero (token : Str) (now : Z) (w : World) :
  TokenManager.getTokenExpiration token = Some 0 ->
  TokenBlacklist.add token now w
  = (w, Throw (Error "Invalid token: no expiration found")).
Proof.
  intros Hexp. unfold TokenBlacklist.add. rewrite Hexp. reflexivity.
Qed.

(** C5 (the code departs from the claim). A token whose expiry is the
    Unix time [0] expired long ago, yet blacklisting it is not a silent
    no-op: [add] throws "Invalid token: no expiration found", and so does
    the [logout] that blacklists it. *)
Theorem blacklist_add_throws_on_epoch_expiry :
  TokenManager.getTokenExpiration Fixture.expiredAtEpoch = Some 0
  /\ 0 < seconds_of Fixture.t0
  /\ TokenBlacklist.add Fixture.expiredAtEpoch Fixture.t0 Fixture.registered
     = (Fixture.registered, Throw (Error "Invalid token: no expiration found"))
  /\ AuthService.logout Fixture.env Fixture.expiredAtEpoch None Fixture.t0
                        Fixture.registered
     = (Fixture.registered, Throw (Error "Invalid token: no expiration found")).
Proof. repeat split; reflexivity. Qed.

Example blacklist_add_access1 :
  let w := fst (TokenBlacklist.add Fixture.access1 (Fixture.t0 + 60000) Fixture.loggedIn) in
  redis w = [Redis.Entry (TokenKey (Sha256Hex Fixture.access1)) Revoked
                         (Fixture.t0 + 60000 + 840 * 1000)]
  /\ TokenBlacklist.isBlacklisted Fixture.access1 (Fixture.t0 + 60000) w = true
  /\ authGuard Fixture.env (Some Fixture.access1) (Fixture.t0 + 61000) w
     = Throw (UnauthorizedError "Token has been revoked").
Proof. repeat split; reflexivity. Qed.

(* ===================================================================== *)
(** * The two expiries of a refresh token *)
(* ===================================================================== *)

Lemma calculateExpiration_30d (now : Z) :
  AuthService.calculateExpiration "30d" now = Ok (now + 30 * (24 * 60 * 60 * 1000)).
Proof. reflexivity. Qed.

(** With [rememberMe] the ledger row expires 30 days after the login,
    while the token is signed with [JWT_REFRESH_EXPIRES_IN] whatever
    [rememberMe] is. *)
Lemma login_rememberMe_expiries (env : Env.t) (data : LoginDTO) (rnd : Entropy)
    (now : Z) (w w' : World) (res : LoginResult) :
  AuthService.login env data rnd now w = (w', Ok res) ->
  login_rememberMe data = true ->
  exists r b,
    recordById (rowId rnd) w' = Some r
    /\ RefreshToken.expiresAt r = now + 30 * (24 * 60 * 60 * 1000)
    /\ timespan_seconds (Env.JWT_REFRESH_EXPIRES_IN env) = Some b
    /\ TokenManager.getTokenExpiration (login_refreshToken res)
       = Some (seconds_of now + b).
Proof.
  intros Hlogin Hrm.
  destruct (login_inv _ _ _ _ _ _ _ Hlogin)
    as [u [a [b [e [_ [_ [_ [Hb [He [Hold [Hw Hres]]]]]]]]]]].
  rewrite Hrm, calculateExpiration_30d in He. inversion He; subst e.
  pose proof (fresh_row_has_no_record _ _ _ Hold) as Hid.
  eexists. exists b. split; [|split; [|split; [exact Hb|]]].
  - unfold recordById. rewrite Hw. simpl. rewrite find_app_last, Hid.
    unfold RefreshTokenRepository.byId. simpl. rewrite String.eqb_refl. reflexivity.
  - reflexivity.
  - rewrite Hres. reflexivity.
Qed.

(** C6 (the code departs from the claim). A login with [rememberMe] under
    the default policy writes a ledger row that expires 30 days after the
    login, but signs the refresh token with the 7-day timespan: eight days
    after the login the token fails verification as expired, and [refresh]
    throws, also where the ledger row is keyed by the token's digest and
    is 22 days short of its own expiry. *)
Theorem rememberMe_token_expires_in_seven_days :
  snd (AuthService.login Fixture.env (MkLoginDTO "a@x.com" "P@ssw0rd1" true)
                         Fixture.rnd1 Fixture.t0 Fixture.registered)
  = Ok (MkLoginResult (MkUserSummary "user-1" "a@x.com" "Ann")
                      Fixture.access1 Fixture.refresh1 true)
  /\ option_map RefreshToken.expiresAt (recordById "row-1" Fixture.loggedIn)
     = Some (Fixture.t0 + 30 * Fixture.day)
  /\ TokenManager.getTokenExpiration Fixture.refresh1
     = Some (seconds_of Fixture.t0 + 7 * 24 * 60 * 60)
  /\ TokenManager.verifyRefreshToken Fixture.env Fixture.refresh1
                                     (Fixture.t0 + 8 * Fixture.day)
     = Throw (UnauthorizedError "Invalid or expired refresh token")
  /\ AuthService.refresh Fixture.env Fixture.refresh1 Fixture.rnd2
                         (Fixture.t0 + 8 * Fixture.day) Fixture.loggedIn
     = (Fixture.loggedIn, Throw (UnauthorizedError "Invalid or expired refresh token"))
  /\ option_map RefreshToken.expiresAt (recordById "row-1" Fixture.keyed)
     = Some (Fixture.t0 + 30 * Fixture.day)
  /\ AuthService.refresh Fixture.env Fixture.refreshK Fixture.rnd2
                         (Fixture.t0 + 8 * Fixture.day) Fixture.keyed
     = (Fixture.keyed, Throw (UnauthorizedError "Invalid or expired refresh token")).
Proof. repeat split; reflexivity. Qed.

(** Without [rememberMe] both expiries are 7 days after the login. *)
Example login_without_rememberMe :
  let out := AuthService.login Fixture.env (MkLoginDTO "a@x.com" "P@ssw0rd1" false)
                               Fixture.rnd1 Fixture.t0 Fixture.registered in
  option_map RefreshToken.expiresAt (recordById "row-1" (fst out))
  = Some (Fixture.t0 + 7 * Fixture.day)
  /\ match snd out with
     | Ok res => TokenManager.getTokenExpiration (login_refreshToken res)
     | Throw _ => None
     end = Some (seconds_of Fixture.t0 + 7 * 24 * 60 * 60).
Proof. split; reflexivity. Qed.

(* ===================================================================== *)
(** * Password change: revoking everything the user holds *)
(* ===================================================================== *)

Lemma updatePassword_inv (uid : string) (data : UpdatePasswordDTO) (salt : string)
    (now : Z) (w w' : World) :
  AuthService.updatePassword uid data salt now w = (w', Ok tt) ->
  refreshTokens w' = map (revokeForUser uid now) (refreshTokens w)
  /\ redis w' = Redis.Entry (UserKey uid) (Stamp (seconds_of now)) (now + 3600 * 1000)
                  :: filter (fun e => negb (RedisKey_eqb (Redis.key e) (UserKey uid)))
                            (redis w).
Proof.
  unfold AuthService.updatePassword, bind, UserRepository.findById.
  destruct (find _ (users w)) as [u|]; [|discriminate].
  destruct (negb _); [discriminate|].
  unfold UserRepository.updatePassword.
  destruct (existsb _ (users w)); [|discriminate].
  unfold RefreshTokenRepository.revokeAllByUserId, TokenBlacklist.revokeAllUserTokens,
    TokenBlacklist.setEx. simpl.
  intros H. inversion H. subst w'. simpl. split; reflexivity.
Qed.

Lemma revokeForUser_owned (uid : string) (now : Z) (r : RefreshToken.t) :
  RefreshToken.userId r = uid ->
  RefreshToken.is_revoked (revokeForUser uid now r) = true.
Proof.
  intros Hu. unfold revokeForUser. rewrite Hu, String.eqb_refl. simpl.
  destruct (RefreshToken.is_revoked r) eqn:Hr; simpl; [exact Hr | reflexivity].
Qed.

Lemma verifyRefreshToken_throws (env : Env.t) (token : Str) (now : Z) (e : Exn) :
  TokenManager.verifyRefreshToken env token now = Throw e ->
  e = UnauthorizedError "Invalid or expired refresh token".
Proof.
  unfold TokenManager.verifyRefreshToken.
  destruct (TokenManager.verify _ _ token now); [discriminate|].
  intros H. inversion H. reflexivity.
Qed.

(** A refresh token whose ledger record is revoked, or that has none, is
    refused. *)
Lemma refresh_revoked_or_unknown (env : Env.t) (token : Str) (rnd : Entropy) (t : Z)
    (w : World) :
  (forall r, find (RefreshTokenRepository.byToken (Sha256Hex token)) (refreshTokens w)
             = Some r ->
             RefreshToken.is_revoked r = true) ->
  exists w' m, AuthService.refresh env token rnd t w = (w', Throw (UnauthorizedError m)).
Proof.
  intros Hrev. unfold AuthService.refresh, bind, lift.
  destruct (TokenManager.verifyRefreshToken env token t) as [payload|e] eqn:Hv.
  - unfold RefreshTokenRepository.findByToken, RefreshTokenRepository.hashToken.
    destruct (find _ (refreshTokens w)) as [r|] eqn:Hfind.
    + rewrite (Hrev r eq_refl).
      unfold RefreshTokenRepository.revokeAllByUserId, TokenBlacklist.revokeAllUserTokens,
        TokenBlacklist.setEx, throw. simpl.
      eexists. eexists. reflexivity.
    + eexists. eexists. reflexivity.
  - rewrite (verifyRefreshToken_throws _ _ _ _ Hv).
    eexists. eexists. reflexivity.
Qed.

(** C3, as amended. After [updatePassword] succeeds for a user at clock
    reading [now] (at least one second past the Unix epoch): for the 3600
    seconds of the revocation window the guard refuses, with
    [UnauthorizedError], every verified access token of that user whose
    [iat] is earlier than the whole second [now / 1000] in which the call
    ran, or that has no [iat]; and [refresh] throws [UnauthorizedError]
    for every refresh token whose ledger record before the call, if it
    has one, belongs to that user. *)
Theorem updatePassword_mass_revocation :
  forall (env : Env.t) (uid : string) (data : UpdatePasswordDTO) (salt : string)
         (now : Z) (w w' : World),
    1000 <= now ->
    AuthService.updatePassword uid data salt now w = (w', Ok tt) ->
    (forall t token payload,
        now <= t < now + 3600 * 1000 ->
        TokenManager.verifyAccessToken env token t = Ok payload ->
        Claims.userId payload = uid ->
        (forall i, Claims.iat payload = Some i -> i < seconds_of now) ->
        exists m, authGuard env (Some token) t w' = Throw (UnauthorizedError m))
    /\ (forall t token rnd,
          (forall r joined,
              RefreshTokenRepository.findByToken token w = (w, Ok (Some (r, joined))) ->
              RefreshToken.userId r = uid) ->
          exists w'' m,
            AuthService.refresh env token rnd t w' = (w'', Throw (UnauthorizedError m))).
Proof.
  intros env uid data salt now w w' Hclock Hup.
  destruct (updatePassword_inv _ _ _ _ _ _ Hup) as [Hledger Hredis].
  split.
  - intros t token payload Ht Hv Hu Hiat.
    assert (Hepoch : TokenBlacklist.getUserRevocationTimestamp uid t w'
                     = Some (seconds_of now)).
    { unfold TokenBlacklist.getUserRevocationTimestamp, TokenBlacklist.get.
      rewrite Hredis. simpl. rewrite RedisKey_eqb_refl. simpl.
      match goal with
      | |- context [?a <? ?b] => destruct (Z.ltb_spec a b); [reflexivity | lia]
      end. }
    destruct (TokenBlacklist.isBlacklisted token t w') eqn:Hb.
    + unfold authGuard. rewrite (verifyAccessToken_truthy _ _ _ _ Hv). simpl.
      rewrite Hv, Hb. eexists. reflexivity.
    + rewrite (authGuard_after_verification _ _ _ _ _ Hv Hb), Hu, Hepoch.
      pose proof (revocationCheck_positive payload (seconds_of now)
                    (seconds_of_positive now Hclock)) as Hc.
      destruct (Claims.iat payload) as [i|].
      * specialize (Hiat i eq_refl).
        destruct (Z.ltb_spec i (seconds_of now)); [|lia].
        destruct Hc as [m Hm]. rewrite Hm. exists m. reflexivity.
      * destruct Hc as [m Hm]. rewrite Hm. exists m. reflexivity.
  - intros t token rnd Howned.
    apply refresh_revoked_or_unknown.
    intros r'. rewrite Hledger.
    rewrite find_map_same_key.
    + destruct (find _ (refreshTokens w)) as [r|] eqn:Hfind; simpl; [|discriminate].
      intros H. inversion H. subst r'.
      apply revokeForUser_owned.
      apply (Howned r (find (fun u => String.eqb (User.id u) (RefreshToken.userId r))
                            (users w))).
      unfold RefreshTokenRepository.findByToken, RefreshTokenRepository.hashToken.
      rewrite Hfind. reflexivity.
    + intros x. unfold revokeForUser, RefreshTokenRepository.byToken.
      destruct (String.eqb (RefreshToken.userId x) uid && negb (RefreshToken.is_revoked x));
        reflexivity.
Qed.

(** The login at [t0] falls in the second [1700000000]; the password is
    changed 400 ms later, in the same second. *)
Lemma updatePassword_mass_revocation_witness :
  (forall t token payload,
      Fixture.t0 + 400 <= t < Fixture.t0 + 400 + 3600 * 1000 ->
      TokenManager.verifyAccessToken Fixture.env token t = Ok payload ->
      Claims.userId payload = "user-1" ->
      (forall i, Claims.iat payload = Some i -> i < seconds_of (Fixture.t0 + 400)) ->
      exists m,
        authGuard Fixture.env (Some token) t (Fixture.passwordChangedAt (Fixture.t0 + 400))
        = Throw (UnauthorizedError m))
  /\ (forall t token rnd,
        (forall r joined,
            RefreshTokenRepository.findByToken token Fixture.loggedIn
            = (Fixture.loggedIn, Ok (Some (r, joined))) ->
            RefreshToken.userId r = "user-1") ->
        exists w'' m,
          AuthService.refresh Fixture.env token rnd t
                              (Fixture.passwordChangedAt (Fixture.t0 + 400))
          = (w'', Throw (UnauthorizedError m))).
Proof.
  apply (updatePassword_mass_revocation
           Fixture.env "user-1" (MkUpdatePasswordDTO "P@ssw0rd1" "N3w-P@ssw0rd")
           "salt-2" (Fixture.t0 + 400) Fixture.loggedIn
           (Fixture.passwordChangedAt (Fixture.t0 + 400))).
  - vm_compute. discriminate.
  - reflexivity.
Defined.

(** C3, as stated, fails: the access token of the login at [t0] was
    issued 400 ms before the successful password change, and the guard
    admits it 50 ms after the change, inside the revocation window,
    because its [iat] and the epoch are the same whole second. *)
Lemma same_second_token_survives_password_change :
  snd (AuthService.login Fixture.env (MkLoginDTO "a@x.com" "P@ssw0rd1" true)
                         Fixture.rnd1 Fixture.t0 Fixture.registered)
  = Ok (MkLoginResult (MkUserSummary "user-1" "a@x.com" "Ann")
                      Fixture.access1 Fixture.refresh1 true)
  /\ Fixture.t0 < Fixture.t0 + 400
  /\ AuthService.updatePassword
       "user-1" (MkUpdatePasswordDTO "P@ssw0rd1" "N3w-P@ssw0rd") "salt-2"
       (Fixture.t0 + 400) Fixture.loggedIn
     = (Fixture.passwordChangedAt (Fixture.t0 + 400), Ok tt)
  /\ TokenBlacklist.getUserRevocationTimestamp
       "user-1" (Fixture.t0 + 450) (Fixture.passwordChangedAt (Fixture.t0 + 400))
     = Some 1700000000
  /\ authGuard Fixture.env (Some Fixture.access1) (Fixture.t0 + 450)
               (Fixture.passwordChangedAt (Fixture.t0 + 400))
     = Ok (MkReqUser "user-1" (Some "a@x.com")).
Proof. repeat split; reflexivity. Qed.

(* ===================================================================== *)
(** * Revoking a record twice, and the rotation's callback *)
(* ===================================================================== *)

Lemma revoke_existing (tid : string) (by_ : option string) (now : Z) (w : World)
    (r : RefreshToken.t) :
  recordById tid w = Some r ->
  RefreshTokenRepository.revoke tid by_ now w
  = (set_refreshTokens w
       (map (fun x => if RefreshTokenRepository.byId tid x
                      then RefreshToken.with_revoked x now by_ else x)
            (refreshTokens w)),
     Ok (RefreshToken.with_revoked r now by_))
  /\ recordById tid (fst (RefreshTokenRepository.revoke tid by_ now w))
     = Some (RefreshToken.with_revoked r now by_).
Proof.
  intros Hfind.
  unfold RefreshTokenRepository.revoke, RefreshTokenRepository.update.
  unfold recordById in *. rewrite Hfind. simpl. split; [reflexivity|].
  rewrite recordById_update by (intros x; reflexivity).
  rewrite Hfind. simpl.
  assert (Hid : RefreshTokenRepository.byId tid r = true).
  { apply find_some in Hfind. exact (proj2 Hfind). }
  rewrite Hid. reflexivity.
Qed.

(** A second [revoke] at the same instant with the same argument changes
    nothing more. *)
Lemma revoke_twice_same_instant (tid : string) (by_ : option string) (now : Z)
    (w : World) (r : RefreshToken.t) :
  recordById tid w = Some r ->
  let w1 := fst (RefreshTokenRepository.revoke tid by_ now w) in
  fst (RefreshTokenRepository.revoke tid by_ now w1) = w1.
Proof.
  intros Hfind w1.
  destruct (revoke_existing tid by_ now w r Hfind) as [Hrun Hafter].
  destruct (revoke_existing tid by_ now w1 _ Hafter) as [Hrun1 _].
  rewrite Hrun1. subst w1. rewrite Hrun. simpl.
  unfold set_refreshTokens. simpl. f_equal.
  rewrite map_map. apply map_ext. intros x.
  destruct (RefreshTokenRepository.byId tid x) eqn:Hx.
  - unfold RefreshTokenRepository.byId in *. simpl. rewrite Hx. reflexivity.
  - rewrite Hx. reflexivity.
Qed.

(** On a record that no longer exists, [revoke] and the first revision's
    callback throw the database's record-not-found error. *)
Lemma deferredRevocation_missing (t : Timer) (now : Z) (w : World) :
  recordById (oldTokenId t) w = None ->
  AuthService.deferredRevocation t now w = (w, Throw (PrismaError "P2025")).
Proof.
  intros Hnone.
  unfold AuthService.deferredRevocation, bind, RefreshTokenRepository.revoke,
    RefreshTokenRepository.update.
  unfold recordById in Hnone. rewrite Hnone. reflexivity.
Qed.

(** The second revision's callback never throws. *)
Lemma deferredRevocation2_total (t : Timer) (now : Z) (w : World) :
  snd (AuthService2.deferredRevocation t now w) = Ok tt.
Proof. reflexivity. Qed.

(** C7, as amended. For a record that exists, revoked already or not:
    [revoke] throws nothing and leaves the record revoked, with
    [revokedAt] set to the current instant and [replacedBy] to the
    argument; the rotation's deferred revocation is that [revoke], so it
    throws nothing and leaves the record revoked. *)
Theorem revoke_tolerates_revoked :
  forall (tid : string) (now : Z) (w : World) (r : RefreshToken.t),
    recordById tid w = Some r ->
    (forall by_, exists w' r',
        RefreshTokenRepository.revoke tid by_ now w = (w', Ok r')
        /\ recordById tid w' = Some r'
        /\ RefreshToken.revokedAt r' = Some now
        /\ RefreshToken.replacedBy r' = by_)
    /\ (forall due newId, exists w' r',
          AuthService.deferredRevocation (MkTimer due tid newId) now w = (w', Ok tt)
          /\ recordById tid w' = Some r'
          /\ RefreshToken.revokedAt r' = Some now
          /\ RefreshToken.replacedBy r' = Some newId).
Proof.
  intros tid now w r Hfind. split.
  - intros by_.
    destruct (revoke_existing tid by_ now w r Hfind) as [Hrun Hafter].
    rewrite Hrun in Hafter. simpl in Hafter.
    eexists. eexists. split; [exact Hrun|].
    split; [exact Hafter | split; reflexivity].
  - intros due newId.
    destruct (revoke_existing tid (Some newId) now w r Hfind) as [Hrun Hafter].
    rewrite Hrun in Hafter. simpl in Hafter.
    unfold AuthService.deferredRevocation, bind. simpl. rewrite Hrun.
    eexists. eexists. split; [reflexivity|].
    split; [exact Hafter | split; reflexivity].
Qed.

(** The record "row-1" was revoked by a password change before the
    rotation's callback runs. *)
Lemma revoke_tolerates_revoked_witness :
  option_map RefreshToken.revokedAt (recordById "row-1" Fixture.revokedFirst)
  = Some (Some (Fixture.t0 + 5000))
  /\ exists w' r',
       AuthService.deferredRevocation Fixture.timer1 (Fixture.t0 + 11000)
                                      Fixture.revokedFirst = (w', Ok tt)
       /\ recordById "row-1" w' = Some r'
       /\ RefreshToken.revokedAt r' = Some (Fixture.t0 + 11000)
       /\ RefreshToken.replacedBy r' = Some "row-2".
Proof.
  split; [reflexivity|].
  exact (proj2 (revoke_tolerates_revoked
                  "row-1" (Fixture.t0 + 11000) Fixture.revokedFirst
                  (RefreshToken.Build
                     "row-1" (Sha256Hex Fixture.refreshK) "user-1"
                     (Fixture.t0 + 30 * Fixture.day) Fixture.t0
                     (Some (Fixture.t0 + 5000)) None
                     (Some (Sha256Hex Fixture.refresh2)) (Some (Fixture.t0 + 11000)))
                  eq_refl)
               (Fixture.t0 + 11000) "row-2").
Defined.

(** C7, as stated, fails on both counts.  On a record that a password
    change revoked, the deferred revocation is not a no-op: it replaces
    [revokedAt] and [replacedBy].  On a record that the expiry sweep
    deleted between the rotation and the callback, it throws the
    database's record-not-found error. *)
Lemma deferred_revocation_not_tolerant :
  (option_map (fun r => (RefreshToken.revokedAt r, RefreshToken.replacedBy r))
              (recordById "row-1" Fixture.revokedFirst)
   = Some (Some (Fixture.t0 + 5000), None)
   /\ snd (AuthService.deferredRevocation Fixture.timer1 (Fixture.t0 + 11000)
                                          Fixture.revokedFirst) = Ok tt
   /\ option_map (fun r => (RefreshToken.revokedAt r, RefreshToken.replacedBy r))
                 (recordById "row-1"
                    (fst (AuthService.deferredRevocation
                            Fixture.timer1 (Fixture.t0 + 11000) Fixture.revokedFirst)))
      = Some (Some (Fixture.t0 + 11000), Some "row-2")
   /\ fst (AuthService.deferredRevocation Fixture.timer1 (Fixture.t0 + 11000)
                                          Fixture.revokedFirst)
      <> Fixture.revokedFirst)
  /\ (timers Fixture.lateRotation = [Fixture.timer7]
      /\ recordById "row-1" Fixture.swept = None
      /\ AuthService.deferredRevocation Fixture.timer7 (Fixture.t0 + 7 * Fixture.day + 5000)
                                        Fixture.swept
         = (Fixture.swept, Throw (PrismaError "P2025"))).
Proof.
  repeat split; try reflexivity.
  intros H.
  apply (f_equal (fun w => option_map RefreshToken.replacedBy (recordById "row-1" w))) in H.
  vm_compute in H. discriminate.
Qed.

(** The second revision's callback swallows the error. *)
Example deferred_revocation2_swallows :
  AuthService2.deferredRevocation Fixture.timer7 (Fixture.t0 + 7 * Fixture.day + 5000)
                                  Fixture.swept
  = (Fixture.swept, Ok tt).
Proof. reflexivity. Qed.

(* ===================================================================== *)
(** * The token codec: round trips and scopes *)
(* ===================================================================== *)

Lemma generateAccessToken_inv (env : Env.t) (uid mail jti_ : string) (now : Z)
    (token : Str) :
  TokenManager.generateAccessToken env uid mail jti_ now = Ok token ->
  exists span,
    timespan_seconds (Env.JWT_ACCESS_EXPIRES_IN env) = Some span
    /\ token = Jwt (Env.JWT_ACCESS_SECRET env)
                   (Claims.Build uid (Some mail) None
                      (Some (seconds_of now)) (Some (seconds_of now + span))
                      (Some TokenManager.issuer) (Some "api") (Some jti_)).
Proof.
  unfold TokenManager.generateAccessToken, TokenManager.sign.
  destruct (timespan_seconds (Env.JWT_ACCESS_EXPIRES_IN env)) as [span|]; [|discriminate].
  intros H. inversion H. exists span. split; reflexivity.
Qed.

Lemma generateRefreshToken_inv (env : Env.t) (uid tid : string) (now : Z) (token : Str) :
  TokenManager.generateRefreshToken env uid tid now = Ok token ->
  exists span,
    timespan_seconds (Env.JWT_REFRESH_EXPIRES_IN env) = Some span
    /\ token = Jwt (Env.JWT_REFRESH_SECRET env)
                   (Claims.Build uid None (Some tid)
                      (Some (seconds_of now)) (Some (seconds_of now + span))
                      (Some TokenManager.issuer) (Some "refresh") None).
Proof.
  unfold TokenManager.generateRefreshToken, TokenManager.sign.
  destruct (timespan_seconds (Env.JWT_REFRESH_EXPIRES_IN env)) as [span|]; [|discriminate].
  intros H. inversion H. exists span. split; reflexivity.
Qed.

(** X1. An access token that [generateAccessToken] returned carries the
    [jwtid] and an expiry one timespan after its [iat]; until that expiry
    [verifyAccessToken] returns its [userId], [email] and [iat], and from
    that second on it throws. *)
Theorem access_token_round_trip :
  forall (env : Env.t) (uid mail jti_ : string) (now t : Z) (token : Str),
    TokenManager.generateAccessToken env uid mail jti_ now = Ok token ->
    exists span,
      timespan_seconds (Env.JWT_ACCESS_EXPIRES_IN env) = Some span
      /\ TokenManager.getTokenExpiration token = Some (seconds_of now + span)
      /\ TokenManager.getTokenId token = Some jti_
      /\ (seconds_of t < seconds_of now + span ->
          exists payload,
            TokenManager.verifyAccessToken env token t = Ok payload
            /\ Claims.userId payload = uid
            /\ Claims.email payload = Some mail
            /\ Claims.iat payload = Some (seconds_of now))
      /\ (seconds_of now + span <= seconds_of t ->
          TokenManager.verifyAccessToken env token t
          = Throw (UnauthorizedError "Invalid or expired access token")).
Proof.
  intros env uid mail jti_ now t token Hgen.
  destruct (generateAccessToken_inv _ _ _ _ _ _ Hgen) as [span [Hspan ->]].
  exists span. split; [exact Hspan|]. split; [reflexivity|]. split; [reflexivity|].
  unfold TokenManager.verifyAccessToken, TokenManager.verify. simpl.
  rewrite String.eqb_refl. simpl.
  split.
  - intros Hlive. destruct (Z.leb_spec (seconds_of now + span) (seconds_of t)); [lia|].
    simpl. eexists. split; [reflexivity|]. repeat split.
  - intros Hdead. destruct (Z.leb_spec (seconds_of now + span) (seconds_of t)); [|lia].
    reflexivity.
Qed.

Lemma access_token_round_trip_witness :
  exists payload,
    TokenManager.verifyAccessToken Fixture.env Fixture.access1 (Fixture.t0 + 899000)
    = Ok payload
    /\ Claims.userId payload = "user-1"
    /\ Claims.email payload = Some "a@x.com"
    /\ Claims.iat payload = Some 1700000000.
Proof.
  destruct (access_token_round_trip
              Fixture.env "user-1" "a@x.com" "jti-1" Fixture.t0 (Fixture.t0 + 899000)
              Fixture.access1 eq_refl) as [span [Hspan [_ [_ [Hlive _]]]]].
  vm_compute in Hspan. inversion Hspan. subst span.
  apply Hlive. vm_compute. reflexivity.
Defined.

(** X2. The two scopes do not mix: a token that [generateRefreshToken]
    returned never passes [verifyAccessToken], and a token that
    [generateAccessToken] returned never passes [verifyRefreshToken], at
    any instant and also when both secrets are the same string. *)
Theorem token_scopes_do_not_mix :
  forall (env : Env.t) (uid mail tid jti_ : string) (now t : Z) (access refresh_ : Str),
    TokenManager.generateAccessToken env uid mail jti_ now = Ok access ->
    TokenManager.generateRefreshToken env uid tid now = Ok refresh_ ->
    TokenManager.verifyRefreshToken env access t
      = Throw (UnauthorizedError "Invalid or expired refresh token")
    /\ TokenManager.verifyAccessToken env refresh_ t
      = Throw (UnauthorizedError "Invalid or expired access token").
Proof.
  intros env uid mail tid jti_ now t access refresh_ Ha Hr.
  destruct (generateAccessToken_inv _ _ _ _ _ _ Ha) as [a [_ ->]].
  destruct (generateRefreshToken_inv _ _ _ _ _ Hr) as [b [_ ->]].
  unfold TokenManager.verifyRefreshToken, TokenManager.verifyAccessToken,
    TokenManager.verify. simpl.
  split.
  - destruct (negb _); [reflexivity|].
    destruct (_ <=? _); reflexivity.
  - destruct (negb _); [reflexivity|].
    destruct (_ <=? _); reflexivity.
Qed.

Lemma token_scopes_do_not_mix_witness :
  TokenManager.verifyRefreshToken Fixture.env Fixture.access1 (Fixture.t0 + 1000)
    = Throw (UnauthorizedError "Invalid or expired refresh token")
  /\ TokenManager.verifyAccessToken Fixture.env Fixture.refresh1 (Fixture.t0 + 1000)
    = Throw (UnauthorizedError "Invalid or expired access token").
Proof.
  exact (token_scopes_do_not_mix
           Fixture.env "user-1" "a@x.com" "row-1" "jti-1" Fixture.t0 (Fixture.t0 + 1000)
           Fixture.access1 Fixture.refresh1 eq_refl eq_refl).
Defined.

(* ===================================================================== *)
(** * Durations *)
(* ===================================================================== *)

Lemma parse_digits_nonneg (s : string) (acc v : Z) :
  0 <= acc -> parse_digits acc s = Some v -> 0 <= v.
Proof.
  revert acc. induction s as [|c s IH]; intros acc Hacc; simpl.
  - intros H. inversion H. subst. exact Hacc.
  - unfold digit_value.
    destruct ((48 <=? Z.of_nat (nat_of_ascii c)) && (Z.of_nat (nat_of_ascii c) <=? 57))
      eqn:Hd; [|discriminate].
    apply andb_true_iff in Hd. destruct Hd as [Hlo Hhi].
    apply Z.leb_le in Hlo. apply IH. lia.
Qed.

Lemma match_duration_nonneg (d : string) (v : Z) (u : ascii) :
  match_duration d = Some (v, u) -> 0 <= v.
Proof.
  unfold match_duration.
  destruct (split_last d) as [[front u']|]; [|discriminate].
  destruct front as [|c front]; [discriminate|].
  destruct (parse_digits 0 (String c front)) as [v'|] eqn:Hp; [|discriminate].
  intros H. inversion H. subst.
  apply (parse_digits_nonneg _ 0 v (Z.le_refl 0) Hp).
Qed.

(** X3. Whenever [calculateExpiration] accepts a duration that the [ms]
    parser reads at all (at most 100 characters) and the instant it
    computes is one a [Date] can hold, the signer's timespan accepts the
    duration too and both mean the same number of seconds, which is not
    negative: the computed instant is [now] plus that many seconds and
    never lies before [now].  Within these bounds every number involved
    is an integer below 2^53, where the code's arithmetic is exact. *)
Theorem calculateExpiration_agrees_with_timespan :
  forall (duration : string) (now e : Z),
    AuthService.calculateExpiration duration now = Ok e ->
    (String.length duration <= msMaxLength)%nat ->
    0 <= now ->
    e <= maxDate ->
    exists seconds,
      timespan_seconds duration = Some seconds
      /\ 0 <= seconds
      /\ e = now + seconds * 1000
      /\ now <= e
      /\ seconds * 1000 <= maxDate.
Proof.
  intros duration now e Hcalc _ Hnow Hrange. revert Hcalc.
  unfold AuthService.calculateExpiration, timespan_seconds.
  destruct (match_duration duration) as [[v u]|] eqn:Hm; [|discriminate].
  pose proof (match_duration_nonneg _ _ _ Hm) as Hv.
  destruct u as [[] [] [] [] [] [] [] []]; try discriminate;
    intros H; inversion H; subst; eexists; (split; [reflexivity|]); lia.
Qed.

Lemma calculateExpiration_agrees_with_timespan_witness :
  exists seconds,
    timespan_seconds "12h" = Some seconds
    /\ 0 <= seconds
    /\ Fixture.t0 + 43200000 = Fixture.t0 + seconds * 1000
    /\ Fixture.t0 <= Fixture.t0 + 43200000
    /\ seconds * 1000 <= maxDate.
Proof.
  apply (calculateExpiration_agrees_with_timespan
           "12h" Fixture.t0 (Fixture.t0 + 43200000) eq_refl).
  - unfold msMaxLength. simpl. lia.
  - unfold Fixture.t0. lia.
  - unfold Fixture.t0, maxDate. lia.
Defined.

(** The converse fails: the signer takes seconds and weeks, the ledger
    expiry does not; the ledger expiry also refuses an empty number and a
    sign. *)
Example durations_only_the_signer_accepts :
  timespan_seconds "1w" = Some 604800
  /\ AuthService.calculateExpiration "1w" Fixture.t0 = Throw (Error "Invalid duration format")
  /\ timespan_seconds "90s" = Some 90
  /\ AuthService.calculateExpiration "90s" Fixture.t0 = Throw (Error "Invalid duration format")
  /\ AuthService.calculateExpiration "d" Fixture.t0 = Throw (Error "Invalid duration format")
  /\ AuthService.calculateExpiration "-1d" Fixture.t0 = Throw (Error "Invalid duration format")
  /\ AuthService.calculateExpiration "" Fixture.t0 = Throw (Error "Invalid duration format").
Proof. repeat split; reflexivity. Qed.

Lemma calculateExpiration_inv (duration : string) (now e : Z) :
  AuthService.calculateExpiration duration now = Ok e ->
  exists seconds,
    timespan_seconds duration = Some seconds /\ 0 <= seconds /\ e = now + seconds * 1000.
Proof.
  unfold AuthService.calculateExpiration, timespan_seconds.
  destruct (match_duration duration) as [[v u]|] eqn:Hm; [|discriminate].
  pose proof (match_duration_nonneg _ _ _ Hm) as Hv.
  destruct u as [[] [] [] [] [] [] [] []]; try discriminate;
    intros H; inversion H; subst; eexists; (split; [reflexivity|]); lia.
Qed.

Lemma seconds_of_bounds (now : Z) :
  seconds_of now * 1000 <= now < seconds_of now * 1000 + 1000.
Proof.
  unfold seconds_of.
  pose proof (Z.div_mod now 1000 ltac:(lia)) as Hdm.
  pose proof (Z.mod_pos_bound now 1000 ltac:(lia)) as Hb.
  lia.
Qed.

Lemma seconds_of_mono (a b : Z) : a <= b -> seconds_of a <= seconds_of b.
Proof. intros H. unfold seconds_of. apply Z.div_le_mono; lia. Qed.

(** With one reading of the clock, [Timed.login] is [AuthService.login]. *)
Lemma Timed_login_one_clock (env : Env.t) (data : LoginDTO) (rnd : Entropy) (now : Z) :
  Timed.login env data rnd (Timed.MkClocks now now now now)
  = AuthService.login env data rnd now.
Proof. reflexivity. Qed.

(** X4. [login] reads the clock for the row's [expiresAt] before the
    awaited insert, and [jwt.sign] reads it again for the refresh token
    after it.  For a successful login without [rememberMe], when the clock
    did not go back between the two readings and the expiry is an instant
    a [Date] can hold: the ledger row never outlives the second that the
    token's [exp] names, and it expires before that second by no more
    than the time that passed between the two readings. *)
Theorem login_row_expiry_trails_token :
  forall (env : Env.t) (data : LoginDTO) (rnd : Entropy) (clk : Timed.Clocks)
         (w w' : World) (res : LoginResult),
    Timed.login env data rnd clk w = (w', Ok res) ->
    login_rememberMe data = false ->
    0 <= Timed.atExpiration clk ->
    Timed.atExpiration clk <= Timed.atRefreshSign clk ->
    (forall b, timespan_seconds (Env.JWT_REFRESH_EXPIRES_IN env) = Some b ->
               Timed.atExpiration clk + b * 1000 <= maxDate) ->
    exists r e,
      recordById (rowId rnd) w' = Some r
      /\ TokenManager.getTokenExpiration (login_refreshToken res) = Some e
      /\ e * 1000 - (Timed.atRefreshSign clk - Timed.atExpiration clk)
         <= RefreshToken.expiresAt r < e * 1000 + 1000.
Proof.
  intros env data rnd clk w w' res Hlogin Hrm _ Hclock _. revert Hlogin.
  unfold Timed.login, bind, UserRepository.findByEmail.
  destruct (find _ (users w)) as [u|]; [|discriminate].
  destruct (HashProvider.compare _ _); simpl; [|discriminate].
  unfold TokenManager.generateAccessToken, TokenManager.generateRefreshToken,
    TokenManager.sign, lift.
  destruct (timespan_seconds (Env.JWT_ACCESS_EXPIRES_IN env)) as [a|]; [|discriminate].
  rewrite Hrm.
  destruct (AuthService.calculateExpiration _ (Timed.atExpiration clk)) as [x|] eqn:Hexp;
    [|discriminate].
  unfold RefreshTokenRepository.create, RefreshTokenRepository.hashToken.
  destruct (existsb _ (refreshTokens w)) eqn:Hfresh; simpl; [discriminate|].
  destruct (timespan_seconds (Env.JWT_REFRESH_EXPIRES_IN env)) as [b|] eqn:Hb;
    [|discriminate].
  intros H. inversion H. subst w' res. clear H.
  destruct (calculateExpiration_inv _ _ _ Hexp) as [sec [Hs [_ Hx]]].
  rewrite Hb in Hs. inversion Hs. subst sec.
  pose proof (fresh_row_has_no_record _ _ _ Hfresh) as Hid.
  eexists. exists (seconds_of (Timed.atRefreshSign clk) + b). split; [|split].
  - unfold recordById. simpl. rewrite find_app_last, Hid.
    unfold RefreshTokenRepository.byId. simpl. rewrite String.eqb_refl. reflexivity.
  - reflexivity.
  - simpl. rewrite Hx. pose proof (seconds_of_bounds (Timed.atRefreshSign clk)). lia.
Qed.

(** The expiry is computed at [t0 + 300 ms] and the token signed 400 ms
    later, in the next second. *)
Lemma login_row_expiry_trails_token_witness :
  exists r e,
    recordById "row-1"
      (fst (Timed.login Fixture.env (MkLoginDTO "a@x.com" "P@ssw0rd1" false) Fixture.rnd1
                        (Timed.MkClocks Fixture.t0 (Fixture.t0 + 300) (Fixture.t0 + 450)
                                        (Fixture.t0 + 700))
                        Fixture.registered))
    = Some r
    /\ TokenManager.getTokenExpiration
         (Jwt (Env.JWT_REFRESH_SECRET Fixture.env)
              (Claims.Build "user-1" None (Some "row-1")
                            (Some 1700000001) (Some 1700604801)
                            (Some "secure-auth-poc") (Some "refresh") None))
       = Some e
    /\ e * 1000 - (Fixture.t0 + 700 - (Fixture.t0 + 300))
       <= RefreshToken.expiresAt r < e * 1000 + 1000.
Proof.
  apply (login_row_expiry_trails_token
           Fixture.env (MkLoginDTO "a@x.com" "P@ssw0rd1" false) Fixture.rnd1
           (Timed.MkClocks Fixture.t0 (Fixture.t0 + 300) (Fixture.t0 + 450)
                           (Fixture.t0 + 700))
           Fixture.registered _
           (MkLoginResult
              (MkUserSummary "user-1" "a@x.com" "Ann")
              Fixture.access1
              (Jwt (Env.JWT_REFRESH_SECRET Fixture.env)
                   (Claims.Build "user-1" None (Some "row-1")
                                 (Some 1700000001) (Some 1700604801)
                                 (Some "secure-auth-poc") (Some "refresh") None))
              false)
           eq_refl eq_refl).
  - vm_compute. discriminate.
  - vm_compute. discriminate.
  - intros b Hb. vm_compute in Hb. inversion Hb. vm_compute. discriminate.
Defined.

(** In that run the row expires 200 ms before the second of the token's
    [exp] begins: the two do not expire in the same second. *)
Example login_readings_straddle_a_second :
  option_map RefreshToken.expiresAt
    (recordById "row-1"
       (fst (Timed.login Fixture.env (MkLoginDTO "a@x.com" "P@ssw0rd1" false) Fixture.rnd1
                         (Timed.MkClocks Fixture.t0 (Fixture.t0 + 300) (Fixture.t0 + 450)
                                         (Fixture.t0 + 700))
                         Fixture.registered)))
  = Some 1700604800800
  /\ option_map (fun res => TokenManager.getTokenExpiration (login_refreshToken res))
       (match snd (Timed.login Fixture.env (MkLoginDTO "a@x.com" "P@ssw0rd1" false)
                               Fixture.rnd1
                               (Timed.MkClocks Fixture.t0 (Fixture.t0 + 300)
                                               (Fixture.t0 + 450) (Fixture.t0 + 700))
                               Fixture.registered) with
        | Ok res => Some res
        | Throw _ => None
        end)
     = Some (Some 1700604801).
Proof. split; reflexivity. Qed.

(* ===================================================================== *)
(** * The ledger: lookups, unique keys and bulk revocation *)
(* ===================================================================== *)

Lemma fresh_row_has_no_token (h : Str) (tid : string) (rs : list RefreshToken.t) :
  existsb (fun r => RefreshTokenRepository.byToken h r || RefreshTokenRepository.byId tid r)
          rs = false ->
  find (RefreshTokenRepository.byToken h) rs = None.
Proof.
  intros Hfresh. apply find_none_existsb. apply not_true_is_false. intros Hex.
  apply existsb_exists in Hex. destruct Hex as [r [Hin Hr]].
  assert (Hc : existsb (fun r => RefreshTokenRepository.byToken h r
                                 || RefreshTokenRepository.byId tid r) rs = true).
  { apply existsb_exists. exists r. split; [exact Hin|]. rewrite Hr. reflexivity. }
  congruence.
Qed.

Lemma byToken_false (h : Str) (r : RefreshToken.t) :
  RefreshToken.token r <> h -> RefreshTokenRepository.byToken h r = false.
Proof.
  intros Hne. apply not_true_is_false. intros Hc. apply byToken_true in Hc. contradiction.
Qed.

(** X5. What [create] stored is what [findByToken] returns for the same
    string, joined with the owner's row, and the lookup of every other
    string answers as before.  A second [create] of the same string
    throws the unique-constraint error and changes nothing. *)
Theorem create_then_findByToken :
  forall (uid : string) (token : Str) (expiresAt : Z) (newId : string) (now : Z)
         (w w' : World) (r : RefreshToken.t),
    RefreshTokenRepository.create uid token expiresAt newId now w = (w', Ok r) ->
    r = RefreshToken.Build newId (Sha256Hex token) uid expiresAt now None None None None
    /\ RefreshTokenRepository.findByToken token w'
       = (w', Ok (Some (r, find (fun u => String.eqb (User.id u) uid) (users w'))))
    /\ (forall other,
          other <> token ->
          snd (RefreshTokenRepository.findByToken other w')
          = snd (RefreshTokenRepository.findByToken other w))
    /\ (forall uid2 expiresAt2 newId2 now2,
          RefreshTokenRepository.create uid2 token expiresAt2 newId2 now2 w'
          = (w', Throw (PrismaError "P2002"))).
Proof.
  intros uid token expiresAt newId now w w' r.
  unfold RefreshTokenRepository.create, RefreshTokenRepository.hashToken.
  destruct (existsb _ (refreshTokens w)) eqn:Hfresh; [discriminate|].
  intros H. inversion H. subst w' r. clear H.
  split; [reflexivity|].
  pose proof (fresh_row_has_no_token _ _ _ Hfresh) as Hmiss.
  split; [|split].
  - unfold RefreshTokenRepository.findByToken, RefreshTokenRepository.hashToken. simpl.
    rewrite find_app_last, Hmiss.
    rewrite (proj2 (byToken_true (Sha256Hex token) _)) by reflexivity.
    reflexivity.
  - intros other Hother.
    unfold RefreshTokenRepository.findByToken, RefreshTokenRepository.hashToken. simpl.
    rewrite find_app_last.
    destruct (find (RefreshTokenRepository.byToken (Sha256Hex other)) (refreshTokens w))
      as [y|]; [reflexivity|].
    rewrite byToken_false; [reflexivity|].
    simpl. intros Heq. inversion Heq. congruence.
  - intros uid2 expiresAt2 newId2 now2. simpl.
    replace (existsb _ (refreshTokens w ++ _)) with true; [reflexivity|].
    symmetry. apply existsb_exists.
    eexists. split; [apply in_or_app; right; left; reflexivity|].
    rewrite (proj2 (byToken_true (Sha256Hex token) _)) by reflexivity.
    reflexivity.
Qed.

Lemma create_then_findByToken_witness :
  RefreshTokenRepository.findByToken
    Fixture.refresh1
    (fst (RefreshTokenRepository.create
            "user-1" Fixture.refresh1 (Fixture.t0 + Fixture.day) "row-9"
            Fixture.t0 Fixture.loggedIn))
  = (fst (RefreshTokenRepository.create
            "user-1" Fixture.refresh1 (Fixture.t0 + Fixture.day) "row-9"
            Fixture.t0 Fixture.loggedIn),
     Ok (Some (RefreshToken.Build "row-9" (Sha256Hex Fixture.refresh1) "user-1"
                                  (Fixture.t0 + Fixture.day) Fixture.t0
                                  None None None None,
               Some Fixture.ann))).
Proof.
  exact (proj1 (proj2 (create_then_findByToken
                         "user-1" Fixture.refresh1 (Fixture.t0 + Fixture.day) "row-9"
                         Fixture.t0 Fixture.loggedIn _ _ eq_refl))).
Defined.

Lemma fresh_keys_not_in (h : Str) (tid : string) (rs : list RefreshToken.t) :
  existsb (fun r => RefreshTokenRepository.byToken h r || RefreshTokenRepository.byId tid r)
          rs = false ->
  ~ In tid (map RefreshToken.id rs) /\ ~ In h (map RefreshToken.token rs).
Proof.
  intros Hfresh. split; intros Hin; apply in_map_iff in Hin; destruct Hin as [r [Hr Hin]];
    assert (Hc : existsb (fun r => RefreshTokenRepository.byToken h r
                                   || RefreshTokenRepository.byId tid r) rs = true);
    try congruence; apply existsb_exists; exists r; (split; [exact Hin|]).
  - unfold RefreshTokenRepository.byId. rewrite Hr, String.eqb_refl. apply orb_true_r.
  - rewrite (proj2 (byToken_true h r) Hr). reflexivity.
Qed.

Lemma update_shape (tid : string) (f : RefreshToken.t -> RefreshToken.t) (w : World) :
  (forall x, RefreshToken.id (f x) = RefreshToken.id x) ->
  (forall x, RefreshToken.token (f x) = RefreshToken.token x) ->
  (forall x, graceTogether x -> graceTogether (f x)) ->
  StepShape (refreshTokens w) (refreshTokens (fst (RefreshTokenRepository.update tid f w))).
Proof.
  intros Hid Htok Hgrace. unfold RefreshTokenRepository.update.
  destruct (find _ (refreshTokens w)); simpl.
  - apply (Mapped _ _ (fun x => if RefreshTokenRepository.byId tid x then f x else x)).
    + reflexivity.
    + intros x. destruct (RefreshTokenRepository.byId tid x); [apply Hid | reflexivity].
    + intros x. destruct (RefreshTokenRepository.byId tid x); [apply Htok | reflexivity].
    + intros x Hx. destruct (RefreshTokenRepository.byId tid x); [apply Hgrace|]; exact Hx.
  - apply Same. reflexivity.
Qed.

Lemma step_shape (s : LedgerStep) (now : Z) (w : World) :
  StepShape (refreshTokens w) (refreshTokens (runLedgerStep s now w)).
Proof.
  destruct s as [[uid token expiresAt newId | token | tid by_ | tid newToken secs | uid]|];
    simpl.
  - unfold RefreshTokenRepository.create.
    destruct (existsb _ (refreshTokens w)) eqn:Hfresh; simpl.
    + apply Same. reflexivity.
    + destruct (fresh_keys_not_in _ _ _ Hfresh) as [Hi Ht].
      eapply Appended; [reflexivity | exact Hi | exact Ht | reflexivity | reflexivity].
  - apply Same. reflexivity.
  - apply update_shape; intros x; try reflexivity. intros Hx. exact Hx.
  - apply update_shape; intros x; try reflexivity.
    intros _. unfold graceTogether. simpl. split; discriminate.
  - apply (Mapped _ _ (revokeForUser uid now)).
    + reflexivity.
    + intros x. unfold revokeForUser. destruct (_ && _); reflexivity.
    + intros x. unfold revokeForUser. destruct (_ && _); reflexivity.
    + intros x Hx. unfold revokeForUser. destruct (_ && _); exact Hx.
  - eapply Filtered. reflexivity.
Qed.

Lemma NoDup_app_last {A : Type} (l : list A) (x : A) :
  NoDup l -> ~ In x l -> NoDup (l ++ [x]).
Proof.
  intros Hl Hx. induction Hl as [|a l Ha Hl IH]; simpl.
  - constructor; [intros [] | constructor].
  - constructor.
    + intros Hin. apply in_app_or in Hin. destruct Hin as [Hin | [Heq | []]].
      * exact (Ha Hin).
      * apply Hx. left. symmetry. exact Heq.
    + apply IH. intros Hin. apply Hx. right. exact Hin.
Qed.

Lemma NoDup_map_filter {A B : Type} (key : A -> B) (keep : A -> bool) (rows : list A) :
  NoDup (map key rows) -> NoDup (map key (filter keep rows)).
Proof.
  induction rows as [|a rows IH]; simpl; intros H.
  - constructor.
  - inversion H as [|b l' Hb Hl]; subst.
    destruct (keep a); simpl; [|exact (IH Hl)].
    constructor; [|exact (IH Hl)].
    intros Hin. apply Hb. apply in_map_iff in Hin. destruct Hin as [y [Hy Hin]].
    apply filter_In in Hin. apply in_map_iff. exists y. split; [exact Hy | exact (proj1 Hin)].
Qed.

Lemma shape_keeps_uniqueKeys (before after : list RefreshToken.t) :
  StepShape before after -> uniqueKeys before -> uniqueKeys after.
Proof.
  intros Hshape [Hid Htok].
  destruct Hshape as [-> | r -> Hi Ht _ _ | g -> Hgid Hgtok _ | p ->].
  - split; assumption.
  - split; rewrite map_app; simpl; apply NoDup_app_last; assumption.
  - split; rewrite map_map.
    + rewrite (map_ext _ RefreshToken.id Hgid). exact Hid.
    + rewrite (map_ext _ RefreshToken.token Hgtok). exact Htok.
  - split; apply NoDup_map_filter; assumption.
Qed.

Lemma shape_keeps_graceTogether (before after : list RefreshToken.t) :
  StepShape before after -> Forall graceTogether before -> Forall graceTogether after.
Proof.
  intros Hshape Hall.
  destruct Hshape as [-> | r -> _ _ Hg He | g -> _ _ Hgrace | p ->].
  - exact Hall.
  - apply Forall_app. split; [exact Hall|].
    constructor; [|constructor]. unfold graceTogether. rewrite Hg, He. split; reflexivity.
  - apply Forall_forall. intros y Hy. apply in_map_iff in Hy. destruct Hy as [x [<- Hx]].
    apply Hgrace. exact (proj1 (Forall_forall _ _) Hall x Hx).
  - apply Forall_forall. intros y Hy. apply filter_In in Hy.
    exact (proj1 (Forall_forall _ _) Hall y (proj1 Hy)).
Qed.

(** X6. The ledger's two unique columns stay unique: if no two rows share
    an [id] and no two share a [token] digest, the same holds after any
    run of [create], [findByToken], [revoke], [setGracePeriod],
    [revokeAllByUserId] and [deleteExpired], returning or throwing. *)
Theorem ledger_keys_stay_unique :
  forall (steps : list (LedgerStep * Z)) (w : World),
    uniqueKeys (refreshTokens w) ->
    uniqueKeys (refreshTokens (runLedgerSteps steps w)).
Proof.
  induction steps as [|[s now] steps IH]; intros w Hw; simpl.
  - exact Hw.
  - apply IH. exact (shape_keeps_uniqueKeys _ _ (step_shape s now w) Hw).
Qed.

(** X7. The grace-period columns are set together or not at all: if every
    row has [gracePeriodToken] and [gracePeriodEnds] both null or both
    set, so has every row after any run of the ledger's operations. *)
Theorem grace_columns_stay_together :
  forall (steps : list (LedgerStep * Z)) (w : World),
    Forall graceTogether (refreshTokens w) ->
    Forall graceTogether (refreshTokens (runLedgerSteps steps w)).
Proof.
  induction steps as [|[s now] steps IH]; intros w Hw; simpl.
  - exact Hw.
  - apply IH. exact (shape_keeps_graceTogether _ _ (step_shape s now w) Hw).
Qed.

Lemma ledger_keys_stay_unique_witness :
  uniqueKeys
    (refreshTokens
       (runLedgerSteps
          [(Step (OpCreate "user-1" (Lit "uuid-2") (Fixture.t0 + Fixture.day) "row-7"),
            Fixture.t0 + 2000);
           (Step (OpCreate "user-1" (Lit "uuid-7") (Fixture.t0 + Fixture.day) "row-7"),
            Fixture.t0 + 3000);
           (Step (OpRevoke "row-1" (Some "row-2")), Fixture.t0 + 11000);
           (Sweep, Fixture.t0 + 8 * Fixture.day)]
          Fixture.rotated)).
Proof.
  apply ledger_keys_stay_unique.
  split; vm_compute;
    repeat (constructor; [simpl; intuition congruence|]); constructor.
Defined.

Lemma grace_columns_stay_together_witness :
  Forall graceTogether
    (refreshTokens
       (runLedgerSteps
          [(Step (OpSetGracePeriod "row-2" Fixture.refresh1 10), Fixture.t0 + 2000);
           (Step (OpRevokeAllByUserId "user-1"), Fixture.t0 + 3000);
           (Step (OpCreate "user-1" (Lit "uuid-7") (Fixture.t0 + Fixture.day) "row-7"),
            Fixture.t0 + 4000)]
          Fixture.rotated)).
Proof.
  apply grace_columns_stay_together.
  vm_compute.
  repeat (constructor; [unfold graceTogether; simpl; split; congruence|]); constructor.
Defined.

Lemma revokeForUser_twice (uid : string) (now later : Z) (r : RefreshToken.t) :
  revokeForUser uid later (revokeForUser uid now r) = revokeForUser uid now r.
Proof.
  unfold revokeForUser.
  destruct (String.eqb (RefreshToken.userId r) uid && negb (RefreshToken.is_revoked r))
    eqn:Hc.
  - simpl. rewrite andb_false_r. reflexivity.
  - rewrite Hc. reflexivity.
Qed.

(** X8. [revokeAllByUserId] leaves every row of the user revoked, leaves
    the rows of other users and the rows already revoked exactly as they
    were (an earlier [revokedAt] is kept), touches nothing outside the
    ledger, and a second call at any later instant changes nothing. *)
Theorem revokeAllByUserId_revokes_once :
  forall (uid : string) (now : Z) (w : World),
    (forall r, In r (refreshTokens (fst (RefreshTokenRepository.revokeAllByUserId uid now w))) ->
               RefreshToken.userId r = uid -> RefreshToken.revokedAt r <> None)
    /\ (forall r, In r (refreshTokens w) ->
                  RefreshToken.userId r <> uid \/ RefreshToken.revokedAt r <> None ->
                  In r (refreshTokens (fst (RefreshTokenRepository.revokeAllByUserId uid now w))))
    /\ (forall later,
          RefreshTokenRepository.revokeAllByUserId
            uid later (fst (RefreshTokenRepository.revokeAllByUserId uid now w))
          = (fst (RefreshTokenRepository.revokeAllByUserId uid now w), Ok tt))
    /\ users (fst (RefreshTokenRepository.revokeAllByUserId uid now w)) = users w
    /\ redis (fst (RefreshTokenRepository.revokeAllByUserId uid now w)) = redis w.
Proof.
  intros uid now w.
  change (refreshTokens (fst (RefreshTokenRepository.revokeAllByUserId uid now w)))
    with (map (revokeForUser uid now) (refreshTokens w)).
  split; [|split; [|split; [|split; reflexivity]]].
  - intros r Hin Hu. apply in_map_iff in Hin. destruct Hin as [x [<- Hx]].
    assert (Hx' : RefreshToken.userId x = uid).
    { revert Hu. unfold revokeForUser. destruct (_ && _); exact (fun H => H). }
    pose proof (revokeForUser_owned uid now x Hx') as Hr.
    unfold RefreshToken.is_revoked in Hr.
    destruct (RefreshToken.revokedAt (revokeForUser uid now x)); [discriminate|discriminate].
  - intros r Hin Hkeep. apply in_map_iff. exists r. split; [|exact Hin].
    unfold revokeForUser, RefreshToken.is_revoked.
    destruct Hkeep as [Hother | Hrev].
    + destruct (String.eqb_spec (RefreshToken.userId r) uid); [contradiction | reflexivity].
    + destruct (RefreshToken.revokedAt r); [|contradiction].
      rewrite andb_false_r. reflexivity.
  - intros later. unfold RefreshTokenRepository.revokeAllByUserId. simpl.
    unfold set_refreshTokens. simpl. f_equal. f_equal.
    rewrite map_map. apply map_ext. intros x.
    apply (revokeForUser_twice uid now later x).
Qed.

(* ===================================================================== *)
(** * The revocation store: one key at a time *)
(* ===================================================================== *)

Lemma RedisKey_eqb_sym (a b : RedisKey) : RedisKey_eqb a b = RedisKey_eqb b a.
Proof.
  unfold RedisKey_eqb.
  destruct (RedisKey_eq_dec a b), (RedisKey_eq_dec b a); congruence.
Qed.

Lemma RedisKey_eqb_neq (a b : RedisKey) : a <> b -> RedisKey_eqb a b = false.
Proof.
  intros H. unfold RedisKey_eqb. destruct (RedisKey_eq_dec a b); [contradiction | reflexivity].
Qed.

(** Deleting a key hides that key and no other. *)
Lemma get_after_del (k k0 : RedisKey) (t : Z) (es : list Redis.entry) :
  TokenBlacklist.get k t (filter (fun e => negb (RedisKey_eqb (Redis.key e) k0)) es)
  = if RedisKey_eqb k k0 then None else TokenBlacklist.get k t es.
Proof.
  unfold TokenBlacklist.get.
  induction es as [|e es IH]; simpl.
  - destruct (RedisKey_eqb k k0); reflexivity.
  - destruct (RedisKey_eqb (Redis.key e) k0) eqn:He0; simpl.
    + destruct (RedisKey_eqb (Redis.key e) k) eqn:Hek.
      * apply RedisKey_eqb_eq in He0. apply RedisKey_eqb_eq in Hek.
        assert (Hk : RedisKey_eqb k k0 = true) by (apply RedisKey_eqb_eq; congruence).
        rewrite Hk in *. exact IH.
      * exact IH.
    + destruct (RedisKey_eqb (Redis.key e) k) eqn:Hek.
      * apply RedisKey_eqb_eq in Hek. subst k. rewrite He0. reflexivity.
      * exact IH.
Qed.

(** Writing a key shows the new value until its deadline and leaves every
    other key as it was. *)
Lemma get_after_setEx (k k0 : RedisKey) (v : RedisVal) (ttl now t : Z) (w : World) :
  0 < ttl ->
  TokenBlacklist.get k t (redis (fst (TokenBlacklist.setEx k0 ttl v now w)))
  = if RedisKey_eqb k k0
    then (if t <? now + ttl * 1000 then Some v else None)
    else TokenBlacklist.get k t (redis w).
Proof.
  intros Httl. unfold TokenBlacklist.setEx.
  destruct (Z.leb_spec ttl 0); [lia|]. simpl.
  unfold TokenBlacklist.get at 1. simpl.
  rewrite (RedisKey_eqb_sym k0 k).
  destruct (RedisKey_eqb k k0) eqn:Hk; [reflexivity|].
  pose proof (get_after_del k k0 t (redis w)) as Hdel.
  rewrite Hk in Hdel. exact Hdel.
Qed.

(** X9. [remove] un-blacklists exactly the token it is given: that token
    is no longer blacklisted at any instant, every other token is
    blacklisted exactly when it was before, and no user's revocation
    epoch changes. *)
Theorem blacklist_remove_one_token :
  forall (token : Str) (t : Z) (w : World),
    TokenBlacklist.isBlacklisted token t (fst (TokenBlacklist.remove token w)) = false
    /\ (forall other,
          other <> token ->
          TokenBlacklist.isBlacklisted other t (fst (TokenBlacklist.remove token w))
          = TokenBlacklist.isBlacklisted other t w)
    /\ (forall uid,
          TokenBlacklist.getUserRevocationTimestamp uid t (fst (TokenBlacklist.remove token w))
          = TokenBlacklist.getUserRevocationTimestamp uid t w).
Proof.
  intros token t w.
  unfold TokenBlacklist.isBlacklisted, TokenBlacklist.getUserRevocationTimestamp,
    TokenBlacklist.remove. simpl.
  split; [|split].
  - rewrite get_after_del, RedisKey_eqb_refl. reflexivity.
  - intros other Hother. rewrite get_after_del.
    rewrite RedisKey_eqb_neq; [reflexivity|].
    unfold TokenBlacklist.getKey. intros H. inversion H. contradiction.
  - intros uid. rewrite get_after_del.
    rewrite RedisKey_eqb_neq; [reflexivity|].
    unfold TokenBlacklist.getKey. discriminate.
Qed.

(** X10. Revoking all tokens of one user changes the guard's answer for
    nobody else: a request whose token, if it verifies, belongs to
    another user is answered after [revokeAllUserTokens] exactly as
    before it. *)
Theorem revokeAllUserTokens_spares_other_users :
  forall (env : Env.t) (cookie : option Str) (t : Z) (uid : string) (ttl now : Z)
         (w : World),
    (forall token payload,
        cookie = Some token ->
        TokenManager.verifyAccessToken env token t = Ok payload ->
        Claims.userId payload <> uid) ->
    authGuard env cookie t (fst (TokenBlacklist.revokeAllUserTokens uid ttl now w))
    = authGuard env cookie t w.
Proof.
  intros env cookie t uid ttl now w Hother.
  destruct (Z.leb_spec ttl 0) as [Hle | Hpos].
  - unfold TokenBlacklist.revokeAllUserTokens, TokenBlacklist.setEx.
    destruct (Z.leb_spec ttl 0); [reflexivity | lia].
  - unfold authGuard.
    destruct cookie as [token|]; [|reflexivity].
    destruct (negb (truthy_str token)); [reflexivity|].
    destruct (TokenManager.verifyAccessToken env token t) as [payload|e] eqn:Hv;
      [|reflexivity].
    specialize (Hother token payload eq_refl Hv).
    unfold TokenBlacklist.isBlacklisted, TokenBlacklist.getUserRevocationTimestamp,
      TokenBlacklist.revokeAllUserTokens.
    rewrite !get_after_setEx by exact Hpos.
    rewrite (RedisKey_eqb_neq (TokenBlacklist.getKey token) (UserKey uid))
      by (unfold TokenBlacklist.getKey; discriminate).
    rewrite (RedisKey_eqb_neq (UserKey (Claims.userId payload)) (UserKey uid))
      by (intros H; inversion H; contradiction).
    reflexivity.
Qed.

Lemma revokeAllUserTokens_spares_other_users_witness :
  authGuard Fixture.env (Some Fixture2.accessBob) (Fixture.t0 + 5000)
            (fst (TokenBlacklist.revokeAllUserTokens "user-1" 3600 (Fixture.t0 + 2000)
                                                     Fixture2.twoUsers))
  = authGuard Fixture.env (Some Fixture2.accessBob) (Fixture.t0 + 5000) Fixture2.twoUsers.
Proof.
  apply (revokeAllUserTokens_spares_other_users
           Fixture.env (Some Fixture2.accessBob) (Fixture.t0 + 5000) "user-1" 3600
           (Fixture.t0 + 2000) Fixture2.twoUsers).
  intros token payload Hc Hv. inversion Hc. subst token.
  vm_compute in Hv. inversion Hv. simpl. discriminate.
Defined.

(* ===================================================================== *)
(** * The guard: what an admission means, and when revocation ends *)
(* ===================================================================== *)

(** The two outcomes of the guard. *)
Lemma authGuard_outcomes :
  forall (env : Env.t) (cookie : option Str) (now : Z) (w : World),
    match authGuard env cookie now w with
    | Ok user =>
        exists token payload,
          cookie = Some token
          /\ TokenManager.verifyAccessToken env token now = Ok payload
          /\ TokenBlacklist.isBlacklisted token now w = false
          /\ user = MkReqUser (Claims.userId payload) (Claims.email payload)
          /\ (forall ts,
                TokenBlacklist.getUserRevocationTimestamp (Claims.userId payload) now w
                = Some ts ->
                ts <> 0 ->
                exists i, Claims.iat payload = Some i /\ ts <= i)
    | Throw e => exists m, e = UnauthorizedError m
    end.
Proof.
  intros env cookie now w. unfold authGuard.
  destruct cookie as [token|]; [|eexists; reflexivity].
  destruct (negb (truthy_str token)); [eexists; reflexivity|].
  destruct (TokenManager.verifyAccessToken env token now) as [payload|e] eqn:Hv.
  2:{ unfold TokenManager.verifyAccessToken in Hv.
      destruct (TokenManager.verify _ _ token now); [discriminate|].
      inversion Hv. eexists. reflexivity. }
  destruct (TokenBlacklist.isBlacklisted token now w) eqn:Hb; [eexists; reflexivity|].
  unfold revocationCheck.
  destruct (TokenBlacklist.getUserRevocationTimestamp (Claims.userId payload) now w)
    as [ts|] eqn:Hts.
  - unfold truthy_num. destruct (Z.eqb_spec ts 0) as [Hz | Hnz]; simpl.
    + exists token, payload.
      split; [reflexivity|]. split; [exact Hv|].
      split; [exact Hb|]. split; [reflexivity|].
      intros ts' Hts' Hne. rewrite Hts in Hts'. inversion Hts'. lia.
    + destruct (Claims.iat payload) as [i|] eqn:Hi; [|eexists; reflexivity].
      destruct (Z.eqb_spec i 0); simpl; [eexists; reflexivity|].
      destruct (Z.ltb_spec i ts); [eexists; reflexivity|].
      exists token, payload.
      split; [reflexivity|]. split; [exact Hv|].
      split; [exact Hb|]. split; [reflexivity|].
      intros ts' Hts' _. rewrite Hts in Hts'. inversion Hts'. subst.
      exists i. split; [exact Hi | lia].
  - exists token, payload.
    split; [reflexivity|]. split; [exact Hv|].
    split; [exact Hb|]. split; [reflexivity|].
    intros ts' Hts'. rewrite Hts in Hts'. discriminate.
Qed.


(** X12. The revocation of a password change ends with its window: 3600
    seconds after [updatePassword] succeeded the epoch is gone, and the
    guard admits a token of that user that still verifies and is not
    blacklisted, also when it was issued before the password change. *)
Theorem revocation_window_lapses :
  forall (env : Env.t) (uid : string) (data : UpdatePasswordDTO) (salt : string)
         (now t : Z) (w w' : World) (token : Str) (payload : Claims.t),
    AuthService.updatePassword uid data salt now w = (w', Ok tt) ->
    now + 3600 * 1000 <= t ->
    TokenManager.verifyAccessToken env token t = Ok payload ->
    Claims.userId payload = uid ->
    TokenBlacklist.isBlacklisted token t w' = false ->
    TokenBlacklist.getUserRevocationTimestamp uid t w' = None
    /\ authGuard env (Some token) t w' = Ok (MkReqUser uid (Claims.email payload)).
Proof.
  intros env uid data salt now t w w' token payload Hup Ht Hv Hu Hb.
  destruct (updatePassword_inv _ _ _ _ _ _ Hup) as [_ Hredis].
  assert (Hnone : TokenBlacklist.getUserRevocationTimestamp uid t w' = None).
  { unfold TokenBlacklist.getUserRevocationTimestamp, TokenBlacklist.get.
    rewrite Hredis. simpl. rewrite RedisKey_eqb_refl. simpl.
    match goal with
    | |- context [?a <? ?b] => destruct (Z.ltb_spec a b); [lia | reflexivity]
    end. }
  split; [exact Hnone|].
  rewrite (authGuard_after_verification _ _ _ _ _ Hv Hb), Hu, Hnone. reflexivity.
Qed.

(** Under a policy of two-hour access tokens, the token of the login at
    [t0] is refused after the password change at [t0 + 2 s] and admitted
    again one hour later. *)
Lemma revocation_window_lapses_witness :
  authGuard Fixture2.env2h (Some Fixture2.access2h) (Fixture.t0 + 3000) Fixture2.changed2h
  = Throw (UnauthorizedError "Token has been revoked by user security event")
  /\ TokenBlacklist.getUserRevocationTimestamp
       "user-1" (Fixture.t0 + 2000 + 3600 * 1000) Fixture2.changed2h = None
  /\ authGuard Fixture2.env2h (Some Fixture2.access2h) (Fixture.t0 + 2000 + 3600 * 1000)
               Fixture2.changed2h
     = Ok (MkReqUser "user-1" (Some "a@x.com")).
Proof.
  split; [reflexivity|].
  apply (revocation_window_lapses
           Fixture2.env2h "user-1" (MkUpdatePasswordDTO "P@ssw0rd1" "N3w-P@ssw0rd")
           "salt-2" (Fixture.t0 + 2000) (Fixture.t0 + 2000 + 3600 * 1000)
           Fixture2.loggedIn2h Fixture2.changed2h Fixture2.access2h
           (Claims.Build "user-1" (Some "a@x.com") None
                         (Some 1700000000) (Some 1700007200)
                         (Some "secure-auth-poc") (Some "api") (Some "jti-1")));
    first [reflexivity | vm_compute; discriminate].
Defined.

(* ===================================================================== *)
(** * Logout *)
(* ===================================================================== *)

(** The refresh half of [logout] is wrapped in [try/catch]: it returns,
    and it writes to the ledger only. *)
Lemma logout_split (env : Env.t) (access : Str) (refresh_ : option Str) (now : Z)
    (w : World) :
  snd (AuthService.logout env access refresh_ now w) = snd (TokenBlacklist.add access now w)
  /\ redis (fst (AuthService.logout env access refresh_ now w))
     = redis (fst (TokenBlacklist.add access now w))
  /\ users (fst (AuthService.logout env access refresh_ now w)) = users w.
Proof.
  assert (Husers : forall w0, users (fst (TokenBlacklist.add access now w0)) = users w0).
  { intros w0. unfold TokenBlacklist.add.
    destruct (TokenManager.getTokenExpiration access) as [e|]; [|reflexivity].
    destruct (negb (truthy_num e)); [reflexivity|].
    destruct (_ =? 0); [reflexivity|].
    unfold TokenBlacklist.setEx. destruct (_ <=? 0); reflexivity. }
  unfold AuthService.logout, bind.
  destruct (TokenBlacklist.add access now w) as [w1 [[]|e]] eqn:Hadd; simpl.
  - assert (Hu1 : users w1 = users w).
    { specialize (Husers w). rewrite Hadd in Husers. exact Husers. }
    destruct refresh_ as [token|]; [|repeat split; exact Hu1].
    destruct (truthy_str token); [|repeat split; exact Hu1].
    unfold try_ignore, bind, lift. simpl.
    destruct (TokenManager.verifyRefreshToken env token now) as [payload|e]; simpl;
      [|repeat split; exact Hu1].
    destruct (Claims.tokenId payload) as [tid|]; simpl; [|repeat split; exact Hu1].
    unfold RefreshTokenRepository.revoke, RefreshTokenRepository.update.
    destruct (find _ (refreshTokens w1)); simpl; repeat split; exact Hu1.
  - repeat split.
    specialize (Husers w). rewrite Hadd in Husers. exact Husers.
Qed.

(** X13. Once [logout] has returned, the access token it was given is
    never admitted again: at every later instant the guard refuses it,
    first because it is blacklisted and, from its own expiry on, because
    it no longer verifies. *)
Theorem logout_access_token_never_admitted :
  forall (env : Env.t) (access : Str) (refresh_ : option Str) (now t : Z) (w w' : World),
    AuthService.logout env access refresh_ now w = (w', Ok tt) ->
    now <= t ->
    exists m, authGuard env (Some access) t w' = Throw (UnauthorizedError m).
Proof.
  intros env access refresh_ now t w w' Hlogout Ht.
  destruct (logout_split env access refresh_ now w) as [Hsnd [Hredis _]].
  rewrite Hlogout in Hsnd, Hredis. simpl in Hsnd, Hredis.
  pose proof (authGuard_outcomes env (Some access) t w') as Hguard.
  destruct (authGuard env (Some access) t w') as [user|e];
    [|destruct Hguard as [m ->]; exists m; reflexivity].
  exfalso. destruct Hguard as [token [payload [Hc [Hv [Hb _]]]]].
  inversion Hc. subst token. clear Hc.
  unfold TokenManager.verifyAccessToken in Hv.
  destruct (TokenManager.verify _ _ access t) as [c|] eqn:Hverify; [|discriminate].
  inversion Hv. subst c. clear Hv.
  destruct (verify_is_jwt _ _ _ _ _ Hverify) as [k ->].
  (* the token is live at [t] *)
  assert (Hlive : forall e, Claims.exp payload = Some e -> seconds_of t < e).
  { intros e He. simpl in Hverify.
    destruct (negb (String.eqb k _)); [discriminate|].
    rewrite He in Hverify.
    destruct (Z.leb_spec e (seconds_of t)); [discriminate | lia]. }
  unfold TokenBlacklist.add in Hsnd, Hredis. simpl in Hsnd, Hredis.
  destruct (Claims.exp payload) as [e|] eqn:He; [|discriminate].
  destruct (negb (truthy_num e)); [discriminate|].
  specialize (Hlive e eq_refl).
  pose proof (seconds_of_mono now t Ht) as Hmono.
  rewrite Z.max_l in Hredis, Hsnd by lia.
  destruct (Z.eqb_spec (e - seconds_of now) 0); [lia|].
  unfold TokenBlacklist.setEx in Hredis.
  destruct (Z.leb_spec (e - seconds_of now) 0); [lia|]. simpl in Hredis.
  unfold TokenBlacklist.isBlacklisted, TokenBlacklist.get in Hb.
  rewrite Hredis in Hb. simpl in Hb. rewrite RedisKey_eqb_refl in Hb. simpl in Hb.
  pose proof (seconds_of_bounds now) as Hn. pose proof (seconds_of_bounds t) as Htb.
  destruct (Z.ltb_spec t (now + (e - seconds_of now) * 1000)); [discriminate | lia].
Qed.

(** The login at [t0], the logout a minute later, the guard after another
    minute and after the token's own expiry. *)
Lemma logout_access_token_never_admitted_witness :
  (exists m,
      authGuard Fixture.env (Some Fixture.access1) (Fixture.t0 + 120000)
                (fst (AuthService.logout Fixture.env Fixture.access1 (Some Fixture.refresh1)
                                         (Fixture.t0 + 60000) Fixture.loggedIn))
      = Throw (UnauthorizedError m))
  /\ (exists m,
        authGuard Fixture.env (Some Fixture.access1) (Fixture.t0 + 900000)
                  (fst (AuthService.logout Fixture.env Fixture.access1 (Some Fixture.refresh1)
                                           (Fixture.t0 + 60000) Fixture.loggedIn))
        = Throw (UnauthorizedError m)).
Proof.
  split.
  - apply (logout_access_token_never_admitted
             Fixture.env Fixture.access1 (Some Fixture.refresh1)
             (Fixture.t0 + 60000) (Fixture.t0 + 120000) Fixture.loggedIn _ eq_refl).
    vm_compute. discriminate.
  - apply (logout_access_token_never_admitted
             Fixture.env Fixture.access1 (Some Fixture.refresh1)
             (Fixture.t0 + 60000) (Fixture.t0 + 900000) Fixture.loggedIn _ eq_refl).
    vm_compute. discriminate.
Defined.

(** X14. [logout] returns or throws exactly as blacklisting the access
    token does, whatever the refresh cookie holds; with no refresh token,
    or one that does not verify, the ledger is left as it was. *)
Theorem logout_outcome_is_the_blacklisting :
  forall (env : Env.t) (access : Str) (refresh_ : option Str) (now : Z) (w : World),
    snd (AuthService.logout env access refresh_ now w) = snd (TokenBlacklist.add access now w)
    /\ redis (fst (AuthService.logout env access refresh_ now w))
       = redis (fst (TokenBlacklist.add access now w))
    /\ ((forall token payload,
            refresh_ = Some token ->
            TokenManager.verifyRefreshToken env token now <> Ok payload) ->
        refreshTokens (fst (AuthService.logout env access refresh_ now w))
        = refreshTokens w).
Proof.
  intros env access refresh_ now w.
  destruct (logout_split env access refresh_ now w) as [Hsnd [Hredis _]].
  split; [exact Hsnd|]. split; [exact Hredis|].
  intros Hbad.
  assert (Hledger : forall w0, refreshTokens (fst (TokenBlacklist.add access now w0))
                               = refreshTokens w0).
  { intros w0. unfold TokenBlacklist.add.
    destruct (TokenManager.getTokenExpiration access) as [e|]; [|reflexivity].
    destruct (negb (truthy_num e)); [reflexivity|].
    destruct (_ =? 0); [reflexivity|].
    unfold TokenBlacklist.setEx. destruct (_ <=? 0); reflexivity. }
  unfold AuthService.logout, bind.
  specialize (Hledger w).
  destruct (TokenBlacklist.add access now w) as [w1 [[]|e]]; simpl in *; [|exact Hledger].
  destruct refresh_ as [token|]; [|exact Hledger].
  destruct (truthy_str token); [|exact Hledger].
  unfold try_ignore, bind, lift. simpl.
  destruct (TokenManager.verifyRefreshToken env token now) as [payload|e] eqn:Hv; simpl;
    [|exact Hledger].
  exfalso. exact (Hbad token payload eq_refl Hv).
Qed.

Lemma add_keeps_ledger (access : Str) (now : Z) (w : World) :
  refreshTokens (fst (TokenBlacklist.add access now w)) = refreshTokens w.
Proof.
  unfold TokenBlacklist.add.
  destruct (TokenManager.getTokenExpiration access) as [e|]; [|reflexivity].
  destruct (negb (truthy_num e)); [reflexivity|].
  destruct (_ =? 0); [reflexivity|].
  unfold TokenBlacklist.setEx. destruct (_ <=? 0); reflexivity.
Qed.

(** X15. When [logout] returns and the refresh token verifies, the ledger
    row whose key is the token's [tokenId] claim is revoked at that
    instant with no successor; the row is chosen by that claim, not by
    the token's digest. *)
Theorem logout_revokes_the_named_row :
  forall (env : Env.t) (access token : Str) (now : Z) (w w' : World)
         (payload : Claims.t) (tid : string) (r : RefreshToken.t),
    AuthService.logout env access (Some token) now w = (w', Ok tt) ->
    TokenManager.verifyRefreshToken env token now = Ok payload ->
    Claims.tokenId payload = Some tid ->
    recordById tid w = Some r ->
    recordById tid w' = Some (RefreshToken.with_revoked r now None).
Proof.
  intros env access token now w w' payload tid r Hlogout Hv Htid Hfind.
  assert (Htruthy : truthy_str token = true).
  { unfold TokenManager.verifyRefreshToken in Hv.
    destruct (TokenManager.verify _ _ token now) as [c|] eqn:Hc; [|discriminate].
    destruct (verify_is_jwt _ _ _ _ _ Hc) as [k ->]. reflexivity. }
  revert Hlogout. unfold AuthService.logout, bind.
  pose proof (add_keeps_ledger access now w) as Hledger.
  destruct (TokenBlacklist.add access now w) as [w1 [[]|e]]; simpl in Hledger;
    [|discriminate].
  rewrite Htruthy. unfold try_ignore, bind, lift. simpl. rewrite Hv. simpl.
  rewrite Htid.
  assert (Hfind1 : recordById tid w1 = Some r).
  { unfold recordById. rewrite Hledger. exact Hfind. }
  destruct (revoke_existing tid None now w1 r Hfind1) as [Hrun Hafter].
  intros H. inversion H. subst w'. exact Hafter.
Qed.

(** The pair of the login at [t0]: its refresh token names "row-1". *)
Lemma logout_revokes_the_named_row_witness :
  recordById "row-1"
    (fst (AuthService.logout Fixture.env Fixture.access1 (Some Fixture.refresh1)
                             (Fixture.t0 + 60000) Fixture.loggedIn))
  = Some (RefreshToken.Build "row-1" (Sha256Hex (Lit "uuid-1")) "user-1"
                             (Fixture.t0 + 30 * Fixture.day) Fixture.t0
                             (Some (Fixture.t0 + 60000)) None None None).
Proof.
  exact (logout_revokes_the_named_row
           Fixture.env Fixture.access1 Fixture.refresh1 (Fixture.t0 + 60000)
           Fixture.loggedIn _
           (Claims.Build "user-1" None (Some "row-1")
                         (Some 1700000000) (Some 1700604800)
                         (Some "secure-auth-poc") (Some "refresh") None)
           "row-1"
           (RefreshToken.Build "row-1" (Sha256Hex (Lit "uuid-1")) "user-1"
                               (Fixture.t0 + 30 * Fixture.day) Fixture.t0
                               None None None None)
           eq_refl eq_refl eq_refl eq_refl).
Defined.

(** A token of the second revision's login names a random UUID, so the
    logout revokes nothing. *)
Example logout_after_login2_revokes_nothing :
  AuthService.logout Fixture.env Fixture.access1 (Some Fixture.refreshK)
                     (Fixture.t0 + 60000) Fixture.keyed
  = (set_redis Fixture.keyed
       [Redis.Entry (TokenKey (Sha256Hex Fixture.access1)) Revoked
                    (Fixture.t0 + 60000 + 840 * 1000)],
     Ok tt).
Proof. reflexivity. Qed.

(* ===================================================================== *)
(** * Refresh: reuse detection, rotation, failures *)
(* ===================================================================== *)

(** After every row of a user has been revoked, no refresh token whose
    row, if it has one, belongs to that user is accepted. *)
Lemma refresh_after_bulk_revocation (env : Env.t) (uid : string) (revokedAt_ : Z)
    (w w' : World) (token : Str) (rnd : Entropy) (t : Z) :
  refreshTokens w' = map (revokeForUser uid revokedAt_) (refreshTokens w) ->
  (forall r, find (RefreshTokenRepository.byToken (Sha256Hex token)) (refreshTokens w)
             = Some r -> RefreshToken.userId r = uid) ->
  exists w'' m, AuthService.refresh env token rnd t w' = (w'', Throw (UnauthorizedError m)).
Proof.
  intros Hledger Howned.
  apply refresh_revoked_or_unknown.
  intros r'. rewrite Hledger. rewrite find_map_same_key.
  - destruct (find _ (refreshTokens w)) as [r|] eqn:Hfind; simpl; [|discriminate].
    intros H. inversion H. subst r'.
    apply revokeForUser_owned. exact (Howned r eq_refl).
  - intros x. unfold revokeForUser, RefreshTokenRepository.byToken.
    destruct (String.eqb (RefreshToken.userId x) uid && negb (RefreshToken.is_revoked x));
      reflexivity.
Qed.

(** X16. Presenting a refresh token whose row is revoked throws "Token
    reuse detected. All sessions revoked.", and on the way revokes every
    row of the user named in the token, so that every refresh token of
    that user is refused afterwards, and raises that user's revocation
    epoch to the current second for 3600 seconds. *)
Theorem reuse_detection_revokes_all_sessions :
  forall (env : Env.t) (token : Str) (rnd : Entropy) (now : Z) (w : World)
         (payload : Claims.t) (r : RefreshToken.t) (joined : option User.t),
    TokenManager.verifyRefreshToken env token now = Ok payload ->
    RefreshTokenRepository.findByToken token w = (w, Ok (Some (r, joined))) ->
    RefreshToken.revokedAt r <> None ->
    exists w',
      AuthService.refresh env token rnd now w
      = (w', Throw (UnauthorizedError "Token reuse detected. All sessions revoked."))
      /\ (forall x, In x (refreshTokens w') ->
                    RefreshToken.userId x = Claims.userId payload ->
                    RefreshToken.revokedAt x <> None)
      /\ (forall other rnd2 t,
            (forall x, find (RefreshTokenRepository.byToken (Sha256Hex other))
                            (refreshTokens w) = Some x ->
                       RefreshToken.userId x = Claims.userId payload) ->
            exists w'' m,
              AuthService.refresh env other rnd2 t w' = (w'', Throw (UnauthorizedError m)))
      /\ (forall t, now <= t < now + 3600 * 1000 ->
                    TokenBlacklist.getUserRevocationTimestamp (Claims.userId payload) t w'
                    = Some (seconds_of now))
      /\ users w' = users w
      /\ timers w' = timers w.
Proof.
  intros env token rnd now w payload r joined Hv Hfind Hrev.
  assert (Hr : RefreshToken.is_revoked r = true).
  { unfold RefreshToken.is_revoked. destruct (RefreshToken.revokedAt r); congruence. }
  exists (MkWorld
            (users w)
            (map (revokeForUser (Claims.userId payload) now) (refreshTokens w))
            (Redis.Entry (UserKey (Claims.userId payload)) (Stamp (seconds_of now))
                         (now + 3600 * 1000)
               :: filter (fun e => negb (RedisKey_eqb (Redis.key e)
                                                      (UserKey (Claims.userId payload))))
                         (redis w))
            (timers w)).
  split.
  { unfold AuthService.refresh, bind, lift. rewrite Hv, Hfind, Hr. reflexivity. }
  simpl.
  split; [|split; [|split; [|split; reflexivity]]].
  - intros x Hin Hu.
    change (In x (map (revokeForUser (Claims.userId payload) now) (refreshTokens w))) in Hin.
    apply in_map_iff in Hin. destruct Hin as [y [<- Hy]].
    assert (Hy' : RefreshToken.userId y = Claims.userId payload).
    { revert Hu. unfold revokeForUser. destruct (_ && _); exact (fun H => H). }
    pose proof (revokeForUser_owned _ now y Hy') as Hyr.
    unfold RefreshToken.is_revoked in Hyr.
    destruct (RefreshToken.revokedAt (revokeForUser (Claims.userId payload) now y));
      discriminate.
  - intros other rnd2 t Howned.
    apply (refresh_after_bulk_revocation env (Claims.userId payload) now w);
      [reflexivity | exact Howned].
  - intros t Ht. unfold TokenBlacklist.getUserRevocationTimestamp, TokenBlacklist.get.
    simpl. rewrite RedisKey_eqb_refl. simpl.
    match goal with
    | |- context [?a <? ?b] => destruct (Z.ltb_spec a b); [reflexivity | lia]
    end.
Qed.

(** The old token is presented again after the rotation's callback has
    revoked its row. *)
Lemma reuse_detection_revokes_all_sessions_witness :
  exists w',
    AuthService.refresh Fixture.env Fixture.refreshK Fixture.rnd3 (Fixture.t0 + 12000)
                        Fixture2.timerFired
    = (w', Throw (UnauthorizedError "Token reuse detected. All sessions revoked."))
    /\ (forall x, In x (refreshTokens w') ->
                  RefreshToken.userId x = "user-1" -> RefreshToken.revokedAt x <> None).
Proof.
  destruct (reuse_detection_revokes_all_sessions
              Fixture.env Fixture.refreshK Fixture.rnd3 (Fixture.t0 + 12000)
              Fixture2.timerFired Fixture2.claimsK
              (RefreshToken.Build
                 "row-1" (Sha256Hex Fixture.refreshK) "user-1"
                 (Fixture.t0 + 30 * Fixture.day) Fixture.t0
                 (Some (Fixture.t0 + 11000)) (Some "row-2")
                 (Some (Sha256Hex Fixture.refresh2)) (Some (Fixture.t0 + 11000)))
              (Some Fixture.ann) eq_refl eq_refl ltac:(discriminate))
    as [w' [Hrun [Hall _]]].
  exists w'. split; [exact Hrun | exact Hall].
Defined.

(** Outside the grace period, [refresh] on a live row is the rotation. *)
Lemma refresh_rotates (env : Env.t) (token : Str) (rnd : Entropy) (now : Z) (w : World)
    (payload : Claims.t) (r : RefreshToken.t) (u : User.t) :
  TokenManager.verifyRefreshToken env token now = Ok payload ->
  RefreshTokenRepository.findByToken token w = (w, Ok (Some (r, Some u))) ->
  RefreshToken.revokedAt r = None ->
  now <= RefreshToken.expiresAt r ->
  inGracePeriod r now = false ->
  AuthService.refresh env token rnd now w = AuthService.rotate env r u rnd now w.
Proof.
  intros Hv Hfind Hrev Hexp Hgrace.
  unfold AuthService.refresh, bind, lift. rewrite Hv, Hfind.
  unfold RefreshToken.is_revoked. rewrite Hrev.
  destruct (Z.ltb_spec (RefreshToken.expiresAt r) now); [lia|].
  unfold inGracePeriod in Hgrace.
  destruct (RefreshToken.gracePeriodToken r) as [stored|];
    destruct (RefreshToken.gracePeriodEnds r) as [ends|];
    try rewrite Hgrace; reflexivity.
Qed.

(** The world a rotation leaves and the pair it returns. *)
Lemma rotate_run (env : Env.t) (r : RefreshToken.t) (u : User.t) (rnd : Entropy)
    (now a b : Z) (w : World) :
  timespan_seconds (Env.JWT_ACCESS_EXPIRES_IN env) = Some a ->
  timespan_seconds (Env.JWT_REFRESH_EXPIRES_IN env) = Some b ->
  existsb (fun x => RefreshTokenRepository.byToken (Sha256Hex (Lit (uuid rnd))) x
                    || RefreshTokenRepository.byId (rowId rnd) x)
          (refreshTokens w) = false ->
  recordById (RefreshToken.id r) w = Some r ->
  let minted :=
    Jwt (Env.JWT_REFRESH_SECRET env)
        (Claims.Build (User.id u) None (Some (rowId rnd))
           (Some (seconds_of now)) (Some (seconds_of now + b))
           (Some TokenManager.issuer) (Some "refresh") None) in
  let row :=
    RefreshToken.Build (rowId rnd) (Sha256Hex (Lit (uuid rnd))) (User.id u)
                       (now + 7 * 24 * 60 * 60 * 1000) now None None None None in
  AuthService.rotate env r u rnd now w
  = (MkWorld
       (users w)
       (map (fun x => if RefreshTokenRepository.byId (RefreshToken.id r) x
                      then RefreshToken.with_grace
                             x (Sha256Hex minted)
                             (now + Env.REFRESH_GRACE_PERIOD_SECONDS env * 1000)
                      else x)
            (refreshTokens w ++ [row]))
       (redis w)
       (timers w ++ [MkTimer (now + Env.REFRESH_GRACE_PERIOD_SECONDS env * 1000)
                             (RefreshToken.id r) (rowId rnd)]),
     Ok (MkRefreshResult
           (Jwt (Env.JWT_ACCESS_SECRET env)
                (Claims.Build (User.id u) (Some (User.email u)) None
                   (Some (seconds_of now)) (Some (seconds_of now + a))
                   (Some TokenManager.issuer) (Some "api") (Some (jwtid rnd))))
           minted)).
Proof.
  intros Ha Hb Hfresh Hfind minted row.
  unfold AuthService.rotate, bind, lift, TokenManager.generateAccessToken,
    TokenManager.generateRefreshToken, TokenManager.sign.
  rewrite Ha.
  unfold RefreshTokenRepository.create, RefreshTokenRepository.hashToken.
  rewrite Hfresh. simpl. rewrite Hb.
  unfold RefreshTokenRepository.setGracePeriod, RefreshTokenRepository.update,
    RefreshTokenRepository.hashToken. simpl.
  unfold recordById in Hfind. rewrite find_app_last, Hfind. reflexivity.
Qed.

(** X17. A rotation (a live row, no grace period running, a fresh key for
    the new row) returns a new pair and does not revoke the old row: the
    old row only receives the digest of the new refresh token and the end
    of the grace period; a new row of the same user is created, expiring
    7 days later whatever the policy and [rememberMe] were; and one
    deferred revocation of the old row in favour of the new one is
    scheduled for the end of the grace period. *)
Theorem rotation_defers_the_revocation :
  forall (env : Env.t) (token : Str) (rnd : Entropy) (now a b : Z) (w : World)
         (payload : Claims.t) (r : RefreshToken.t) (u : User.t),
    TokenManager.verifyRefreshToken env token now = Ok payload ->
    RefreshTokenRepository.findByToken token w = (w, Ok (Some (r, Some u))) ->
    recordById (RefreshToken.id r) w = Some r ->
    RefreshToken.revokedAt r = None ->
    now <= RefreshToken.expiresAt r ->
    inGracePeriod r now = false ->
    timespan_seconds (Env.JWT_ACCESS_EXPIRES_IN env) = Some a ->
    timespan_seconds (Env.JWT_REFRESH_EXPIRES_IN env) = Some b ->
    existsb (fun x => RefreshTokenRepository.byToken (Sha256Hex (Lit (uuid rnd))) x
                      || RefreshTokenRepository.byId (rowId rnd) x)
            (refreshTokens w) = false ->
    exists w' res,
      AuthService.refresh env token rnd now w = (w', Ok res)
      /\ TokenManager.getTokenExpiration (refreshToken res) = Some (seconds_of now + b)
      /\ recordById (RefreshToken.id r) w'
         = Some (RefreshToken.with_grace
                   r (Sha256Hex (refreshToken res))
                   (now + Env.REFRESH_GRACE_PERIOD_SECONDS env * 1000))
      /\ recordById (rowId rnd) w'
         = Some (RefreshToken.Build (rowId rnd) (Sha256Hex (Lit (uuid rnd))) (User.id u)
                                    (now + 7 * 24 * 60 * 60 * 1000) now
                                    None None None None)
      /\ timers w' = (timers w ++
                      [MkTimer (now + Env.REFRESH_GRACE_PERIOD_SECONDS env * 1000)
                               (RefreshToken.id r) (rowId rnd)])%list
      /\ redis w' = redis w.
Proof.
  intros env token rnd now a b w payload r u Hv Hfind Hid Hrev Hexp Hgrace Ha Hb Hfresh.
  rewrite (refresh_rotates _ _ _ _ _ _ _ _ Hv Hfind Hrev Hexp Hgrace).
  rewrite (rotate_run env r u rnd now a b w Ha Hb Hfresh Hid).
  eexists. eexists. split; [reflexivity|].
  cbn [refreshTokens timers redis users refreshToken accessToken].
  pose proof (fresh_row_has_no_record _ _ _ Hfresh) as Hnew.
  assert (Hself : RefreshTokenRepository.byId (RefreshToken.id r) r = true).
  { unfold RefreshTokenRepository.byId. apply String.eqb_refl. }
  assert (Hne : RefreshTokenRepository.byId (RefreshToken.id r)
                  (RefreshToken.Build (rowId rnd) (Sha256Hex (Lit (uuid rnd))) (User.id u)
                                      (now + 7 * 24 * 60 * 60 * 1000) now
                                      None None None None) = false).
  { unfold RefreshTokenRepository.byId. simpl.
    destruct (String.eqb_spec (rowId rnd) (RefreshToken.id r)) as [Heq|]; [|reflexivity].
    exfalso. unfold recordById in Hid. rewrite <- Heq in Hid. congruence. }
  assert (Hrow : RefreshTokenRepository.byId (rowId rnd)
                   (RefreshToken.Build (rowId rnd) (Sha256Hex (Lit (uuid rnd))) (User.id u)
                                       (now + 7 * 24 * 60 * 60 * 1000) now
                                       None None None None) = true).
  { unfold RefreshTokenRepository.byId. simpl. apply String.eqb_refl. }
  split; [reflexivity|]. split; [|split; [|split; reflexivity]].
  - unfold recordById. cbn [refreshTokens].
    rewrite recordById_update by (intros x; reflexivity).
    unfold recordById in Hid. rewrite find_app_last, Hid. cbn [option_map].
    rewrite Hself. reflexivity.
  - unfold recordById. cbn [refreshTokens].
    rewrite recordById_update by (intros x; reflexivity).
    rewrite find_app_last, Hnew, Hrow. cbn [option_map].
    rewrite Hne. reflexivity.
Qed.

Lemma rotation_defers_the_revocation_witness :
  exists w' res,
    AuthService.refresh Fixture.env Fixture.refreshK Fixture.rnd2 (Fixture.t0 + 1000)
                        Fixture.keyed = (w', Ok res)
    /\ TokenManager.getTokenExpiration (refreshToken res) = Some (1700000001 + 604800)
    /\ recordById "row-1" w'
       = Some (RefreshToken.with_grace Fixture2.rowK (Sha256Hex (refreshToken res))
                                       (Fixture.t0 + 1000 + 10 * 1000))
    /\ recordById "row-2" w'
       = Some (RefreshToken.Build "row-2" (Sha256Hex (Lit "uuid-2")) "user-1"
                                  (Fixture.t0 + 1000 + 7 * 24 * 60 * 60 * 1000)
                                  (Fixture.t0 + 1000) None None None None)
    /\ timers w' = [MkTimer (Fixture.t0 + 1000 + 10 * 1000) "row-1" "row-2"]
    /\ redis w' = [].
Proof.
  exact (rotation_defers_the_revocation
           Fixture.env Fixture.refreshK Fixture.rnd2 (Fixture.t0 + 1000) 900 604800
           Fixture.keyed Fixture2.claimsK Fixture2.rowK Fixture.ann
           eq_refl eq_refl eq_refl eq_refl ltac:(vm_compute; discriminate)
           eq_refl eq_refl eq_refl eq_refl).
Defined.

(** A token that has no row is refused and nothing is written. *)
Lemma refresh_unknown_token (env : Env.t) (token : Str) (rnd : Entropy) (t : Z) (w : World) :
  find (RefreshTokenRepository.byToken (Sha256Hex token)) (refreshTokens w) = None ->
  exists m, AuthService.refresh env token rnd t w = (w, Throw (UnauthorizedError m)).
Proof.
  intros Hnone. unfold AuthService.refresh, bind, lift.
  destruct (TokenManager.verifyRefreshToken env token t) as [payload|e] eqn:Hv.
  - unfold RefreshTokenRepository.findByToken, RefreshTokenRepository.hashToken.
    rewrite Hnone. eexists. reflexivity.
  - rewrite (verifyRefreshToken_throws _ _ _ _ Hv). eexists. reflexivity.
Qed.

(** X18. The refresh token that a rotation returns cannot be redeemed:
    the new row is keyed by the digest of a random UUID, so unless some
    row already carried the digest of the token being minted, [refresh]
    with the returned token throws [UnauthorizedError] at every instant
    and writes nothing. *)
Theorem rotated_token_is_not_redeemable :
  forall (env : Env.t) (token : Str) (rnd : Entropy) (now a b : Z) (w : World)
         (payload : Claims.t) (r : RefreshToken.t) (u : User.t),
    TokenManager.verifyRefreshToken env token now = Ok payload ->
    RefreshTokenRepository.findByToken token w = (w, Ok (Some (r, Some u))) ->
    recordById (RefreshToken.id r) w = Some r ->
    RefreshToken.revokedAt r = None ->
    now <= RefreshToken.expiresAt r ->
    inGracePeriod r now = false ->
    timespan_seconds (Env.JWT_ACCESS_EXPIRES_IN env) = Some a ->
    timespan_seconds (Env.JWT_REFRESH_EXPIRES_IN env) = Some b ->
    existsb (fun x => RefreshTokenRepository.byToken (Sha256Hex (Lit (uuid rnd))) x
                      || RefreshTokenRepository.byId (rowId rnd) x)
            (refreshTokens w) = false ->
    (forall x, In x (refreshTokens w) ->
               RefreshToken.token x
               <> Sha256Hex
                    (Jwt (Env.JWT_REFRESH_SECRET env)
                         (Claims.Build (User.id u) None (Some (rowId rnd))
                            (Some (seconds_of now)) (Some (seconds_of now + b))
                            (Some TokenManager.issuer) (Some "refresh") None))) ->
    exists w' res,
      AuthService.refresh env token rnd now w = (w', Ok res)
      /\ RefreshTokenRepository.findByToken (refreshToken res) w' = (w', Ok None)
      /\ (forall rnd2 t,
            exists m,
              AuthService.refresh env (refreshToken res) rnd2 t w'
              = (w', Throw (UnauthorizedError m))).
Proof.
  intros env token rnd now a b w payload r u Hv Hfind Hid Hrev Hexp Hgrace Ha Hb Hfresh
         Hnodigest.
  rewrite (refresh_rotates _ _ _ _ _ _ _ _ Hv Hfind Hrev Hexp Hgrace).
  rewrite (rotate_run env r u rnd now a b w Ha Hb Hfresh Hid).
  eexists. eexists. split; [reflexivity|].
  cbn [refreshToken].
  match goal with
  | |- RefreshTokenRepository.findByToken ?minted ?w' = _ /\ _ =>
      assert (Hnone : find (RefreshTokenRepository.byToken (Sha256Hex minted))
                           (refreshTokens w') = None)
  end.
  { cbn [refreshTokens].
    rewrite find_map_same_key.
    - rewrite find_app_last.
      replace (find _ (refreshTokens w)) with (@None RefreshToken.t).
      + rewrite byToken_false; [reflexivity | simpl; discriminate].
      + symmetry. apply find_none_existsb. apply not_true_is_false. intros Hex.
        apply existsb_exists in Hex. destruct Hex as [x [Hin Hx]].
        apply byToken_true in Hx. exact (Hnodigest x Hin Hx).
    - intros x. unfold RefreshTokenRepository.byToken.
      destruct (RefreshTokenRepository.byId (RefreshToken.id r) x); reflexivity. }
  split.
  - unfold RefreshTokenRepository.findByToken, RefreshTokenRepository.hashToken.
    rewrite Hnone. reflexivity.
  - intros rnd2 t. apply refresh_unknown_token. exact Hnone.
Qed.

Lemma rotated_token_is_not_redeemable_witness :
  exists w' res,
    AuthService.refresh Fixture.env Fixture.refreshK Fixture.rnd2 (Fixture.t0 + 1000)
                        Fixture.keyed = (w', Ok res)
    /\ RefreshTokenRepository.findByToken (refreshToken res) w' = (w', Ok None)
    /\ (forall rnd2 t,
          exists m,
            AuthService.refresh Fixture.env (refreshToken res) rnd2 t w'
            = (w', Throw (UnauthorizedError m))).
Proof.
  apply (rotated_token_is_not_redeemable
           Fixture.env Fixture.refreshK Fixture.rnd2 (Fixture.t0 + 1000) 900 604800
           Fixture.keyed Fixture2.claimsK Fixture2.rowK Fixture.ann);
    try reflexivity.
  - vm_compute. discriminate.
  - intros x [<- | []]. simpl. discriminate.
Defined.

Lemma sign_throws (secret uid : string) (mail tid : option string)
    (expiresIn audience : string) (jti_ : option string) (now : Z) (e : Exn) :
  TokenManager.sign secret uid mail tid expiresIn audience jti_ now = Throw e ->
  e = Error "invalid expiresIn option".
Proof.
  unfold TokenManager.sign. destruct (timespan_seconds expiresIn); [discriminate|].
  intros H. inversion H. reflexivity.
Qed.

(** What a rotation throws is never an [UnauthorizedError]. *)
Lemma rotate_never_unauthorized (env : Env.t) (r : RefreshToken.t) (u : User.t)
    (rnd : Entropy) (now : Z) (w w' : World) (m : string) :
  AuthService.rotate env r u rnd now w <> (w', Throw (UnauthorizedError m)).
Proof.
  unfold AuthService.rotate, bind, lift, TokenManager.generateAccessToken,
    TokenManager.generateRefreshToken.
  destruct (TokenManager.sign _ _ _ _ _ _ _ now) as [acc|e] eqn:Hacc.
  2:{ rewrite (sign_throws _ _ _ _ _ _ _ _ _ Hacc). intros H. inversion H. }
  unfold RefreshTokenRepository.create.
  destruct (existsb _ (refreshTokens w)); [intros H; inversion H|].
  cbn [RefreshToken.id].
  destruct (TokenManager.sign _ _ None _ _ _ _ now) as [rt|e] eqn:Hrt.
  2:{ rewrite (sign_throws _ _ _ _ _ _ _ _ _ Hrt). intros H. inversion H. }
  unfold RefreshTokenRepository.setGracePeriod, RefreshTokenRepository.update.
  cbn [refreshTokens set_refreshTokens].
  destruct (find _ _); intros H; inversion H.
Qed.

(** X19. A refresh that is refused for any reason other than reuse has
    written nothing: when [refresh] throws an [UnauthorizedError] whose
    message is not the reuse message, the state is unchanged. *)
Theorem refused_refresh_writes_nothing :
  forall (env : Env.t) (token : Str) (rnd : Entropy) (now : Z) (w w' : World) (m : string),
    AuthService.refresh env token rnd now w = (w', Throw (UnauthorizedError m)) ->
    m <> "Token reuse detected. All sessions revoked." ->
    w' = w.
Proof.
  intros env token rnd now w w' m Hrun Hm.
  revert Hrun. unfold AuthService.refresh, bind, lift.
  destruct (TokenManager.verifyRefreshToken env token now) as [payload|e].
  2:{ intros H. inversion H. reflexivity. }
  unfold RefreshTokenRepository.findByToken.
  destruct (find _ (refreshTokens w)) as [r|].
  2:{ intros H. inversion H. reflexivity. }
  destruct (RefreshToken.is_revoked r).
  { unfold RefreshTokenRepository.revokeAllByUserId, TokenBlacklist.revokeAllUserTokens,
      TokenBlacklist.setEx, throw. simpl.
    intros H. inversion H. subst m. contradiction. }
  destruct (RefreshToken.expiresAt r <? now).
  { intros H. inversion H. reflexivity. }
  assert (Hrot : forall joined,
             (match AuthService.the_user joined w with
              | (w1, Ok user) => AuthService.rotate env r user rnd now w1
              | (w1, Throw e) => (w1, Throw e)
              end) = (w', Throw (UnauthorizedError m)) -> w' = w).
  { intros joined. destruct joined as [user|]; simpl.
    - intros H. exfalso. exact (rotate_never_unauthorized _ _ _ _ _ _ _ _ H).
    - intros H. inversion H. }
  destruct (RefreshToken.gracePeriodToken r) as [stored|];
    destruct (RefreshToken.gracePeriodEnds r) as [ends|]; try apply Hrot.
  destruct (truthy_str stored && (now <? ends)); [|apply Hrot].
  destruct (find _ (users w)) as [user|]; simpl.
  - unfold TokenManager.generateAccessToken.
    destruct (TokenManager.sign _ _ _ _ _ _ _ now) as [acc|e] eqn:Hacc.
    + intros H. inversion H.
    + rewrite (sign_throws _ _ _ _ _ _ _ _ _ Hacc). intros H. inversion H.
  - intros H. inversion H.
Qed.

(** An expired row: the refusal leaves the world as it was. *)
Lemma refused_refresh_writes_nothing_witness :
  fst (AuthService.refresh Fixture.env Fixture.refreshK Fixture.rnd2
                           (Fixture.t0 + 8 * Fixture.day) Fixture.keyed)
  = Fixture.keyed.
Proof.
  apply (refused_refresh_writes_nothing
           Fixture.env Fixture.refreshK Fixture.rnd2 (Fixture.t0 + 8 * Fixture.day)
           Fixture.keyed _ "Invalid or expired refresh token").
  - reflexivity.
  - discriminate.
Defined.

(** The call inside the grace period of [Fixture.rotated]. *)
Lemma refresh_in_grace_period_witness :
  AuthService.refresh Fixture.env Fixture.refreshK Fixture.rnd3 (Fixture.t0 + 2000)
                      Fixture.rotated
  = (Fixture.rotated,
     Ok (MkRefreshResult (Fixture.access_at "jti-3" 1700000002)
                         (Sha256Hex Fixture.refresh2))).
Proof.
  exact (refresh_in_grace_period
           Fixture.env Fixture.refreshK Fixture.rnd3 (Fixture.t0 + 2000) Fixture.rotated
           Fixture2.claimsK
           (RefreshToken.with_grace Fixture2.rowK (Sha256Hex Fixture.refresh2)
                                    (Fixture.t0 + 11000))
           Fixture.ann (Sha256Hex Fixture.refresh2) (Fixture.t0 + 11000) 900
           eq_refl eq_refl eq_refl ltac:(vm_compute; discriminate) eq_refl eq_refl eq_refl
           eq_refl eq_refl).
Defined.

(* ===================================================================== *)
(** * Password change: what it replaces and how it fails *)
(* ===================================================================== *)

Lemma find_some_existsb {A : Type} (p : A -> bool) (l : list A) (x : A) :
  find p l = Some x -> existsb p l = true.
Proof.
  intros H. destruct (existsb p l) eqn:He; [reflexivity|].
  apply find_none_existsb in He. congruence.
Qed.

Lemma updatePassword_users (uid : string) (data : UpdatePasswordDTO) (salt : string)
    (now : Z) (w w' : World) :
  AuthService.updatePassword uid data salt now w = (w', Ok tt) ->
  users w' = map (withPassword uid (Argon2id salt (newPassword data))) (users w)
  /\ timers w' = timers w.
Proof.
  unfold AuthService.updatePassword, bind, UserRepository.findById.
  destruct (find _ (users w)) as [u|]; [|discriminate].
  destruct (negb _); [discriminate|].
  unfold UserRepository.updatePassword.
  destruct (existsb _ (users w)); [|discriminate].
  unfold RefreshTokenRepository.revokeAllByUserId, TokenBlacklist.revokeAllUserTokens,
    TokenBlacklist.setEx. simpl.
  intros H. inversion H. subst w'. simpl. split; reflexivity.
Qed.

(** Without faults, [Faulty.updatePassword] is [AuthService.updatePassword]. *)
Lemma Faulty_updatePassword_none (uid : string) (data : UpdatePasswordDTO)
    (salt : string) (now : Z) (w : World) :
  Faulty.updatePassword Faulty.none uid data salt now w
  = AuthService.updatePassword uid data salt now w.
Proof.
  unfold Faulty.updatePassword, AuthService.updatePassword, Faulty.failing, bind,
    UserRepository.findById. simpl.
  destruct (find _ (users w)) as [u|]; [|reflexivity].
  destruct (negb _); reflexivity.
Qed.

(** X20. [updatePassword] refuses before it writes.  Whatever rejects
    among the services it awaits: when no user has the id it throws
    [BadRequestError] "User not found", when the current password does not
    match the stored hash it throws [UnauthorizedError] "Current password
    is incorrect", both with the state as it was; and every
    [BadRequestError] or [UnauthorizedError] it throws is one of these two
    refusals, so nothing has been written.  (Rejections of the hashing,
    the database or Redis are errors of other classes.) *)
Theorem updatePassword_refusals_write_nothing :
  forall (f : Faulty.Faults) (uid : string) (data : UpdatePasswordDTO) (salt : string)
         (now : Z) (w : World),
    (Faulty.lookupFails f = None ->
     find (fun u => String.eqb (User.id u) uid) (users w) = None ->
     Faulty.updatePassword f uid data salt now w
     = (w, Throw (BadRequestError "User not found")))
    /\ (forall u,
          Faulty.lookupFails f = None ->
          find (fun u => String.eqb (User.id u) uid) (users w) = Some u ->
          HashProvider.compare (currentPassword data) (User.password u) = false ->
          Faulty.updatePassword f uid data salt now w
          = (w, Throw (UnauthorizedError "Current password is incorrect")))
    /\ (forall w' e,
          Faulty.updatePassword f uid data salt now w = (w', Throw e) ->
          (exists m, e = BadRequestError m \/ e = UnauthorizedError m) ->
          w' = w
          /\ ((e = BadRequestError "User not found"
               /\ find (fun u => String.eqb (User.id u) uid) (users w) = None)
              \/ (e = UnauthorizedError "Current password is incorrect"
                  /\ exists u,
                       find (fun u => String.eqb (User.id u) uid) (users w) = Some u
                       /\ HashProvider.compare (currentPassword data) (User.password u)
                          = false))).
Proof.
  intros f uid data salt now w.
  split; [|split].
  - intros Hlookup Hfind.
    unfold Faulty.updatePassword, Faulty.failing, bind, UserRepository.findById.
    rewrite Hlookup, Hfind. reflexivity.
  - intros u Hlookup Hfind Hcmp.
    unfold Faulty.updatePassword, Faulty.failing, bind, UserRepository.findById.
    rewrite Hlookup, Hfind, Hcmp. reflexivity.
  - intros w' e Hrun [m Hclass]. revert Hrun.
    unfold Faulty.updatePassword, Faulty.failing, bind, UserRepository.findById.
    destruct (Faulty.lookupFails f) as [c|].
    { unfold throw. intros H. inversion H. subst. destruct Hclass; discriminate. }
    destruct (find _ (users w)) as [u|] eqn:Hfind.
    2:{ intros H. inversion H. split; [reflexivity|]. left. split; reflexivity. }
    destruct (HashProvider.compare (currentPassword data) (User.password u)) eqn:Hcmp;
      cbn [negb].
    2:{ intros H. inversion H. split; [reflexivity|]. right.
        split; [reflexivity|]. exists u. split; [reflexivity | exact Hcmp]. }
    destruct (Faulty.hashFails f) as [c|].
    { unfold throw. intros H. inversion H. subst. destruct Hclass; discriminate. }
    unfold ret.
    destruct (Faulty.userUpdateFails f) as [c|].
    { unfold throw. intros H. inversion H. subst. destruct Hclass; discriminate. }
    unfold UserRepository.updatePassword.
    rewrite (find_some_existsb _ _ _ Hfind).
    destruct (Faulty.ledgerUpdateFails f) as [c|].
    { unfold throw. intros H. inversion H. subst. destruct Hclass; discriminate. }
    unfold RefreshTokenRepository.revokeAllByUserId.
    destruct (Faulty.redisFails f) as [c|].
    { unfold throw. intros H. inversion H. subst. destruct Hclass; discriminate. }
    unfold TokenBlacklist.revokeAllUserTokens, TokenBlacklist.setEx. simpl.
    discriminate.
Qed.

(** A wrong guess of Ann's current password, and an id nobody has, while
    argon2, the database's writes and Redis would all reject. *)
Lemma updatePassword_refusals_write_nothing_witness :
  Faulty.updatePassword
    (Faulty.MkFaults None (Some "out of memory") (Some "P1001") (Some "P1001")
                     (Some "The client is closed"))
    "user-1" (MkUpdatePasswordDTO "guess" "N3w-P@ssw0rd") "salt-2"
    (Fixture.t0 + 400) Fixture.loggedIn
  = (Fixture.loggedIn, Throw (UnauthorizedError "Current password is incorrect"))
  /\ Faulty.updatePassword
       (Faulty.MkFaults None (Some "out of memory") (Some "P1001") (Some "P1001")
                        (Some "The client is closed"))
       "user-9" (MkUpdatePasswordDTO "P@ssw0rd1" "N3w-P@ssw0rd") "salt-2"
       (Fixture.t0 + 400) Fixture.loggedIn
     = (Fixture.loggedIn, Throw (BadRequestError "User not found")).
Proof.
  split.
  - exact (proj1 (proj2 (updatePassword_refusals_write_nothing
                           (Faulty.MkFaults None (Some "out of memory") (Some "P1001")
                                            (Some "P1001") (Some "The client is closed"))
                           "user-1" (MkUpdatePasswordDTO "guess" "N3w-P@ssw0rd") "salt-2"
                           (Fixture.t0 + 400) Fixture.loggedIn))
                 Fixture.ann eq_refl eq_refl eq_refl).
  - exact (proj1 (updatePassword_refusals_write_nothing
                    (Faulty.MkFaults None (Some "out of memory") (Some "P1001")
                                     (Some "P1001") (Some "The client is closed"))
                    "user-9" (MkUpdatePasswordDTO "P@ssw0rd1" "N3w-P@ssw0rd") "salt-2"
                    (Fixture.t0 + 400) Fixture.loggedIn)
                 eq_refl eq_refl).
Defined.

(** The writes are not undone by a later rejection: when the ledger update
    rejects, the new hash is already stored and no session is revoked;
    when only Redis rejects, the rows are revoked and no epoch is set. *)
Lemma updatePassword_keeps_earlier_writes (f : Faulty.Faults) (uid : string)
    (data : UpdatePasswordDTO) (salt : string) (now : Z) (w : World) (u : User.t) :
  Faulty.lookupFails f = None ->
  Faulty.hashFails f = None ->
  Faulty.userUpdateFails f = None ->
  find (fun u => String.eqb (User.id u) uid) (users w) = Some u ->
  HashProvider.compare (currentPassword data) (User.password u) = true ->
  (forall c, Faulty.ledgerUpdateFails f = Some c ->
             Faulty.updatePassword f uid data salt now w
             = (set_users w (map (withPassword uid (Argon2id salt (newPassword data)))
                                 (users w)),
                Throw (PrismaError c)))
  /\ (forall m, Faulty.ledgerUpdateFails f = None ->
                Faulty.redisFails f = Some m ->
                exists w',
                  Faulty.updatePassword f uid data salt now w = (w', Throw (Error m))
                  /\ users w' = map (withPassword uid (Argon2id salt (newPassword data)))
                                    (users w)
                  /\ refreshTokens w' = map (revokeForUser uid now) (refreshTokens w)
                  /\ redis w' = redis w).
Proof.
  intros Hlookup Hhash Hupdate Hfind Hcmp.
  split.
  - intros c Hledger.
    unfold Faulty.updatePassword, Faulty.failing, bind, UserRepository.findById.
    rewrite Hlookup, Hfind, Hcmp, Hhash, Hupdate, Hledger. cbn [negb]. unfold ret.
    unfold UserRepository.updatePassword. rewrite (find_some_existsb _ _ _ Hfind).
    reflexivity.
  - intros m Hledger Hredis.
    unfold Faulty.updatePassword, Faulty.failing, bind, UserRepository.findById.
    rewrite Hlookup, Hfind, Hcmp, Hhash, Hupdate, Hledger, Hredis. cbn [negb]. unfold ret.
    unfold UserRepository.updatePassword. rewrite (find_some_existsb _ _ _ Hfind).
    unfold RefreshTokenRepository.revokeAllByUserId. simpl.
    eexists. split; [reflexivity|]. repeat split.
Qed.

(** X21. After [updatePassword] succeeded, the account it changed logs in
    with the new password and no longer with the old one (when the two
    differ): [login] with the old password throws "Invalid credentials",
    and with the new password it returns that user. *)
Theorem updatePassword_replaces_the_password :
  forall (env : Env.t) (uid : string) (data : UpdatePasswordDTO) (salt : string)
         (now : Z) (w w' : World) (mail : string) (u : User.t),
    AuthService.updatePassword uid data salt now w = (w', Ok tt) ->
    UserRepository.findByEmail mail w = (w, Ok (Some u)) ->
    User.id u = uid ->
    (currentPassword data <> newPassword data ->
     forall rememberMe rnd t,
       AuthService.login env (MkLoginDTO mail (currentPassword data) rememberMe) rnd t w'
       = (w', Throw (UnauthorizedError "Invalid credentials")))
    /\ (forall rememberMe rnd t,
          can_issue env rememberMe rnd w' ->
          exists w'' res,
            AuthService.login env (MkLoginDTO mail (newPassword data) rememberMe) rnd t w'
            = (w'', Ok res)
            /\ summary_id (login_user res) = uid).
Proof.
  intros env uid data salt now w w' mail u Hup Hfind Hu.
  destruct (updatePassword_users _ _ _ _ _ _ Hup) as [Husers _].
  assert (Hfind' : UserRepository.findByEmail mail w'
                   = (w', Ok (Some (User.Build (User.id u) (User.email u)
                                               (Argon2id salt (newPassword data))
                                               (User.name u) (User.createdAt u))))).
  { unfold UserRepository.findByEmail in *. rewrite Husers.
    rewrite find_map_same_key.
    - inversion Hfind as [Hf]. rewrite Hf. simpl.
      unfold withPassword. rewrite Hu, String.eqb_refl. reflexivity.
    - intros x. unfold withPassword. destruct (String.eqb (User.id x) uid); reflexivity. }
  split.
  - intros Hdiff rememberMe rnd t.
    unfold AuthService.login, bind. cbn [login_email login_password].
    rewrite Hfind'. cbn [User.password HashProvider.compare].
    destruct (String.eqb_spec (newPassword data) (currentPassword data)) as [Heq|];
      [congruence | reflexivity].
  - intros rememberMe rnd t Hissue.
    destruct (login_succeeds env (MkLoginDTO mail (newPassword data) rememberMe) rnd t w' _
                Hfind') as [w'' [res [Hrun [Hsum _]]]].
    + simpl. apply String.eqb_refl.
    + exact Hissue.
    + exists w'', res. split; [exact Hrun|]. rewrite Hsum. simpl. exact Hu.
Qed.

Lemma updatePassword_replaces_the_password_witness :
  AuthService.login Fixture.env (MkLoginDTO "A@x.com" "P@ssw0rd1" false) Fixture.rnd2
                    (Fixture.t0 + 600) (Fixture.passwordChangedAt (Fixture.t0 + 400))
  = (Fixture.passwordChangedAt (Fixture.t0 + 400),
     Throw (UnauthorizedError "Invalid credentials")).
Proof.
  apply (proj1 (updatePassword_replaces_the_password
                  Fixture.env "user-1" (MkUpdatePasswordDTO "P@ssw0rd1" "N3w-P@ssw0rd")
                  "salt-2" (Fixture.t0 + 400) Fixture.loggedIn
                  (Fixture.passwordChangedAt (Fixture.t0 + 400)) "A@x.com" Fixture.ann
                  eq_refl eq_refl eq_refl)).
  discriminate.
Defined.

(* ===================================================================== *)
(** * A fresh login is admitted; the grace period absorbs repeats *)
(* ===================================================================== *)

(** X22. The access token of a successful login is admitted by the guard
    from the login until the token's expiry, provided it is not
    blacklisted and no revocation epoch of that user is later than the
    second of the login; in particular a login made after a password
    change, even within the same second, is admitted. *)
Theorem fresh_login_is_admitted :
  forall (env : Env.t) (data : LoginDTO) (rnd : Entropy) (now t : Z) (w w' : World)
         (res : LoginResult),
    AuthService.login env data rnd now w = (w', Ok res) ->
    1000 <= now ->
    now <= t ->
    (forall a, timespan_seconds (Env.JWT_ACCESS_EXPIRES_IN env) = Some a ->
               seconds_of t < seconds_of now + a) ->
    TokenBlacklist.isBlacklisted (login_accessToken res) t w = false ->
    (forall ts, TokenBlacklist.getUserRevocationTimestamp
                  (summary_id (login_user res)) t w = Some ts ->
                ts <= seconds_of now) ->
    authGuard env (Some (login_accessToken res)) t w'
    = Ok (MkReqUser (summary_id (login_user res)) (Some (summary_email (login_user res)))).
Proof.
  intros env data rnd now t w w' res Hlogin Hclock Ht Hlive Hb Hepoch.
  destruct (login_inv _ _ _ _ _ _ _ Hlogin)
    as [u [a [b [e [_ [_ [Ha [_ [_ [_ [Hw Hres]]]]]]]]]]].
  specialize (Hlive a Ha).
  assert (Hredis : redis w' = redis w) by (rewrite Hw; reflexivity).
  rewrite Hres in *. cbn [login_accessToken login_user summary_id summary_email] in *.
  match goal with
  | |- authGuard _ (Some (Jwt _ ?c)) _ _ = _ => set (claims := c) in *
  end.
  assert (Hv : TokenManager.verifyAccessToken env (Jwt (Env.JWT_ACCESS_SECRET env) claims) t
               = Ok claims).
  { unfold TokenManager.verifyAccessToken, TokenManager.verify. subst claims. simpl.
    rewrite String.eqb_refl. simpl.
    destruct (Z.leb_spec (seconds_of now + a) (seconds_of t)); [lia | reflexivity]. }
  assert (Hb' : TokenBlacklist.isBlacklisted (Jwt (Env.JWT_ACCESS_SECRET env) claims) t w'
                = false).
  { unfold TokenBlacklist.isBlacklisted in *. rewrite Hredis. exact Hb. }
  rewrite (authGuard_after_verification _ _ _ _ _ Hv Hb').
  assert (Hcheck : revocationCheck
                     claims
                     (TokenBlacklist.getUserRevocationTimestamp (Claims.userId claims) t w')
                   = Ok tt).
  { unfold TokenBlacklist.getUserRevocationTimestamp in *. rewrite Hredis.
    unfold revocationCheck.
    destruct (match TokenBlacklist.get (UserKey (Claims.userId claims)) t (redis w) with
              | Some (Stamp n) => Some n
              | _ => None
              end) as [ts|] eqn:Hts; [|reflexivity].
    specialize (Hepoch ts Hts).
    destruct (truthy_num ts); [|reflexivity].
    subst claims. cbn [Claims.iat].
    pose proof (seconds_of_positive now Hclock) as Hpos.
    rewrite (truthy_num_pos _ Hpos). simpl.
    destruct (Z.ltb_spec (seconds_of now) ts); [lia | reflexivity]. }
  rewrite Hcheck. reflexivity.
Qed.

(** The password is changed at [t0 + 400 ms]; the login with the new
    password 200 ms later falls in the same second and is admitted. *)
Lemma fresh_login_is_admitted_witness :
  authGuard Fixture.env
    (Some (Fixture.access_at "jti-2" 1700000000)) (Fixture.t0 + 700)
    (fst (AuthService.login Fixture.env (MkLoginDTO "a@x.com" "N3w-P@ssw0rd" false)
                            Fixture.rnd2 (Fixture.t0 + 600)
                            (Fixture.passwordChangedAt (Fixture.t0 + 400))))
  = Ok (MkReqUser "user-1" (Some "a@x.com")).
Proof.
  apply (fresh_login_is_admitted
           Fixture.env (MkLoginDTO "a@x.com" "N3w-P@ssw0rd" false) Fixture.rnd2
           (Fixture.t0 + 600) (Fixture.t0 + 700)
           (Fixture.passwordChangedAt (Fixture.t0 + 400)) _ _ eq_refl).
  - vm_compute. discriminate.
  - vm_compute. discriminate.
  - intros a Ha. vm_compute in Ha. inversion Ha. vm_compute. reflexivity.
  - reflexivity.
  - intros ts Hts. vm_compute in Hts. inversion Hts. vm_compute. discriminate.
Defined.

(** X23. While the grace period of a row runs, any number of [refresh]
    calls with the old token, one after the other, leave the state
    exactly as it was, and every one of them returns the string stored on
    the row as its refresh token. *)
Theorem grace_period_absorbs_repeated_calls :
  forall (env : Env.t) (token : Str) (calls : list (Entropy * Z)) (w : World)
         (r : RefreshToken.t) (u : User.t) (stored : Str) (ends a : Z),
    RefreshTokenRepository.findByToken token w = (w, Ok (Some (r, Some u))) ->
    RefreshToken.revokedAt r = None ->
    RefreshToken.gracePeriodToken r = Some stored ->
    truthy_str stored = true ->
    RefreshToken.gracePeriodEnds r = Some ends ->
    timespan_seconds (Env.JWT_ACCESS_EXPIRES_IN env) = Some a ->
    (forall rnd now, In (rnd, now) calls ->
                     now < ends /\ now <= RefreshToken.expiresAt r
                     /\ exists p, TokenManager.verifyRefreshToken env token now = Ok p) ->
    fst (refreshAll env token calls w) = w
    /\ length (snd (refreshAll env token calls w)) = length calls
    /\ Forall (fun o => exists res, o = Ok res /\ refreshToken res = stored)
              (snd (refreshAll env token calls w)).
Proof.
  intros env token calls w r u stored ends a Hfind Hrev Hg Htruthy Hends Ha.
  induction calls as [|[rnd now] calls IH]; intros Hcalls; simpl.
  - repeat split. constructor.
  - destruct (Hcalls rnd now (or_introl eq_refl)) as [Hnow [Hexp [p Hv]]].
    rewrite (refresh_in_grace_period env token rnd now w p r u stored ends a
               Hv Hfind Hrev Hexp Hg Htruthy Hends Hnow Ha).
    assert (Hrest : forall rnd' now', In (rnd', now') calls ->
                      now' < ends /\ now' <= RefreshToken.expiresAt r
                      /\ exists p', TokenManager.verifyRefreshToken env token now' = Ok p').
    { intros rnd' now' Hin. apply (Hcalls rnd' now'). right. exact Hin. }
    destruct (IH Hrest) as [Hw [Hlen Hall]].
    destruct (refreshAll env token calls w) as [w2 os]. simpl in *.
    split; [exact Hw|]. split; [rewrite Hlen; reflexivity|].
    constructor; [|exact Hall].
    eexists. split; reflexivity.
Qed.

Lemma grace_period_absorbs_repeated_calls_witness :
  fst (refreshAll Fixture.env Fixture.refreshK
         [(Fixture.rnd3, Fixture.t0 + 2000); (Fixture.rnd4, Fixture.t0 + 3000);
          (Fixture.rnd3, Fixture.t0 + 10999)]
         Fixture.rotated)
  = Fixture.rotated
  /\ length (snd (refreshAll Fixture.env Fixture.refreshK
                    [(Fixture.rnd3, Fixture.t0 + 2000); (Fixture.rnd4, Fixture.t0 + 3000);
                     (Fixture.rnd3, Fixture.t0 + 10999)]
                    Fixture.rotated)) = 3%nat
  /\ Forall (fun o => exists res, o = Ok res /\ refreshToken res = Sha256Hex Fixture.refresh2)
            (snd (refreshAll Fixture.env Fixture.refreshK
                    [(Fixture.rnd3, Fixture.t0 + 2000); (Fixture.rnd4, Fixture.t0 + 3000);
                     (Fixture.rnd3, Fixture.t0 + 10999)]
                    Fixture.rotated)).
Proof.
  apply (grace_period_absorbs_repeated_calls
           Fixture.env Fixture.refreshK
           [(Fixture.rnd3, Fixture.t0 + 2000); (Fixture.rnd4, Fixture.t0 + 3000);
            (Fixture.rnd3, Fixture.t0 + 10999)]
           Fixture.rotated
           (RefreshToken.with_grace Fixture2.rowK (Sha256Hex Fixture.refresh2)
                                    (Fixture.t0 + 11000))
           Fixture.ann (Sha256Hex Fixture.refresh2) (Fixture.t0 + 11000) 900);
    try reflexivity.
  intros rnd now [H | [H | [H | []]]]; inversion H; subst;
    (split; [vm_compute; reflexivity|]);
    (split; [vm_compute; discriminate|]);
    exists Fixture2.claimsK; reflexivity.
Defined.

(* ===================================================================== *)
(** * The identity store *)
(* ===================================================================== *)

Lemma lower_ascii_idem (c : ascii) : lower_ascii (lower_ascii c) = lower_ascii c.
Proof.
  destruct c as [[] [] [] [] [] [] [] []]; reflexivity.
Qed.

Lemma toLowerCase_idem (s : string) : toLowerCase (toLowerCase s) = toLowerCase s.
Proof.
  induction s as [|c s IH]; simpl.
  - reflexivity.
  - rewrite lower_ascii_idem, IH. reflexivity.
Qed.

Lemma map_withPassword_keys (uid : string) (h : PwHash) (us : list User.t) :
  map User.id (map (withPassword uid h) us) = map User.id us
  /\ map User.email (map (withPassword uid h) us) = map User.email us.
Proof.
  induction us as [|u us [IH1 IH2]]; simpl.
  - split; reflexivity.
  - rewrite IH1, IH2. unfold withPassword.
    destruct (String.eqb (User.id u) uid); split; reflexivity.
Qed.

Lemma register_users (data : RegisterDTO) (salt newId : string) (now : Z) (w : World) :
  users (fst (AuthService.register data salt newId now w)) = users w
  \/ (existsb (fun u => String.eqb (User.email u) (toLowerCase (reg_email data))
                        || String.eqb (User.id u) newId) (users w) = false
      /\ users (fst (AuthService.register data salt newId now w))
         = (users w ++ [User.Build newId (toLowerCase (reg_email data))
                                   (HashProvider.hash (reg_password data) salt)
                                   (reg_name data) now])%list).
Proof.
  unfold AuthService.register, bind, UserRepository.findByEmail.
  destruct (find _ (users w)); [left; reflexivity|].
  unfold UserRepository.create.
  destruct (existsb _ (users w)) eqn:Hex; [left; reflexivity|].
  right. split; reflexivity.
Qed.

Lemma updatePassword_users_any (uid : string) (data : UpdatePasswordDTO) (salt : string)
    (now : Z) (w : World) :
  users (fst (AuthService.updatePassword uid data salt now w)) = users w
  \/ users (fst (AuthService.updatePassword uid data salt now w))
     = map (withPassword uid (Argon2id salt (newPassword data))) (users w).
Proof.
  destruct (AuthService.updatePassword uid data salt now w) as [w' [[]|e]] eqn:Hrun.
  - right. exact (proj1 (updatePassword_users uid data salt now w w' Hrun)).
  - left. revert Hrun.
    unfold AuthService.updatePassword, bind, UserRepository.findById.
    destruct (find _ (users w)) as [u|] eqn:Hfind;
      [|intros H; inversion H; reflexivity].
    destruct (negb _); [intros H; inversion H; reflexivity|].
    unfold UserRepository.updatePassword.
    rewrite (find_some_existsb _ _ _ Hfind).
    unfold RefreshTokenRepository.revokeAllByUserId, TokenBlacklist.revokeAllUserTokens,
      TokenBlacklist.setEx. simpl.
    intros H; inversion H.
Qed.

(** X24. [register] and [updatePassword] keep the identity store well
    formed, whatever their arguments and whether they succeed or throw:
    keys stay unique, addresses stay unique, and every address is stored
    in lower case (so no two accounts differ only in the case of their
    address). *)
Theorem identity_store_stays_well_formed :
  forall (w : World),
    usersWellFormed (users w) ->
    (forall data salt newId now,
        usersWellFormed (users (fst (AuthService.register data salt newId now w))))
    /\ (forall uid data salt now,
           usersWellFormed (users (fst (AuthService.updatePassword uid data salt now w)))).
Proof.
  intros w [Hids [Hmails Hlower]]. split.
  - intros data salt newId now.
    destruct (register_users data salt newId now w) as [-> | [Hfresh ->]].
    + repeat split; assumption.
    + assert (Hnot : ~ In newId (map User.id (users w))
                     /\ ~ In (toLowerCase (reg_email data)) (map User.email (users w))).
      { split; intros Hin; apply in_map_iff in Hin; destruct Hin as [u [Hu Hin]];
          assert (Hc : existsb (fun u => String.eqb (User.email u)
                                                    (toLowerCase (reg_email data))
                                         || String.eqb (User.id u) newId) (users w) = true);
          try congruence; apply existsb_exists; exists u; (split; [exact Hin|]);
          rewrite Hu, String.eqb_refl; [apply orb_true_r | reflexivity]. }
      destruct Hnot as [Hid Hmail].
      unfold usersWellFormed. rewrite !map_app. simpl.
      split; [apply NoDup_app_last; assumption|].
      split; [apply NoDup_app_last; assumption|].
      apply Forall_app. split; [exact Hlower|].
      constructor; [|constructor]. simpl. apply toLowerCase_idem.
  - intros uid data salt now.
    destruct (updatePassword_users_any uid data salt now w) as [-> | ->].
    + repeat split; assumption.
    + unfold usersWellFormed.
      destruct (map_withPassword_keys uid (Argon2id salt (newPassword data)) (users w))
        as [-> ->].
      split; [exact Hids|]. split; [exact Hmails|].
      apply Forall_map. eapply Forall_impl; [|exact Hlower].
      intros u Hu. unfold withPassword.
      destruct (String.eqb (User.id u) uid); exact Hu.
Qed.

Lemma usersWellFormed_twoUsers : usersWellFormed (users Fixture2.twoUsers).
Proof.
  unfold usersWellFormed. vm_compute.
  split; [|split].
  - constructor; [intros [H | []]; discriminate|].
    constructor; [intros []|constructor].
  - constructor; [intros [H | []]; discriminate|].
    constructor; [intros []|constructor].
  - repeat constructor.
Qed.

Lemma identity_store_stays_well_formed_witness :
  usersWellFormed
    (users (fst (AuthService.register (MkRegisterDTO "BOB@x.com" "pw" "Bobby")
                                      "salt-c" "user-3" (Fixture.t0 + 200)
                                      Fixture2.twoUsers)))
  /\ usersWellFormed
       (users (fst (AuthService.updatePassword
                      "user-2" (MkUpdatePasswordDTO "hunter22!" "hunter23!") "salt-d"
                      (Fixture.t0 + 300) Fixture2.twoUsers))).
Proof.
  split.
  - exact (proj1 (identity_store_stays_well_formed Fixture2.twoUsers
                    usersWellFormed_twoUsers)
                 (MkRegisterDTO "BOB@x.com" "pw" "Bobby") "salt-c" "user-3"
                 (Fixture.t0 + 200)).
  - exact (proj2 (identity_store_stays_well_formed Fixture2.twoUsers
                    usersWellFormed_twoUsers)
                 "user-2" (MkUpdatePasswordDTO "hunter22!" "hunter23!") "salt-d"
                 (Fixture.t0 + 300)).
Defined.

(** X25. After a successful [register], a [login] with the registered
    password and the registered address in any letter case names the new
    account, provided the tokens can be signed and the row keys are free;
    with any other password it throws "Invalid credentials" and leaves the
    state as it is. *)
Theorem register_then_login :
  forall (env : Env.t) (data : RegisterDTO) (salt newId : string) (t now : Z)
         (w w' : World) (u : User.t) (mail pw : string) (rm : bool) (rnd : Entropy)
         (a b e : Z),
    AuthService.register data salt newId t w = (w', Ok u) ->
    toLowerCase mail = toLowerCase (reg_email data) ->
    timespan_seconds (Env.JWT_ACCESS_EXPIRES_IN env) = Some a ->
    timespan_seconds (Env.JWT_REFRESH_EXPIRES_IN env) = Some b ->
    AuthService.calculateExpiration
      (if rm then "30d" else Env.JWT_REFRESH_EXPIRES_IN env) now = Ok e ->
    existsb (fun r => RefreshTokenRepository.byToken (Sha256Hex (Lit (uuid rnd))) r
                      || RefreshTokenRepository.byId (rowId rnd) r)
            (refreshTokens w) = false ->
    (exists w'' res,
        AuthService.login env (MkLoginDTO mail (reg_password data) rm) rnd now w'
        = (w'', Ok res)
        /\ login_user res
           = MkUserSummary newId (toLowerCase (reg_email data)) (reg_name data))
    /\ (pw <> reg_password data ->
        AuthService.login env (MkLoginDTO mail pw rm) rnd now w'
        = (w', Throw (UnauthorizedError "Invalid credentials"))).
Proof.
  intros env data salt newId t now w w' u mail pw rm rnd a b e
         Hreg Hmail Ha Hb He Hfresh.
  unfold AuthService.register, bind, UserRepository.findByEmail in Hreg.
  destruct (find _ (users w)) eqn:Hnone; [discriminate|].
  unfold UserRepository.create in Hreg.
  destruct (existsb _ (users w)); [discriminate|].
  inversion Hreg. subst w' u. clear Hreg.
  set (u := User.Build newId (toLowerCase (reg_email data))
                       (HashProvider.hash (reg_password data) salt) (reg_name data) t).
  assert (Hfind : find (fun x => String.eqb (User.email x) (toLowerCase mail))
                       (users w ++ [u])%list = Some u).
  { rewrite find_app_last, Hmail, Hnone. subst u. cbn [User.email].
    rewrite String.eqb_refl. reflexivity. }
  split.
  - unfold AuthService.login, bind, UserRepository.findByEmail.
    cbn [login_email login_password login_rememberMe users set_users].
    rewrite Hfind.
    subst u. cbn [User.password User.id User.email User.name].
    unfold HashProvider.hash, HashProvider.compare.
    rewrite String.eqb_refl. cbn [negb].
    unfold lift, TokenManager.generateAccessToken, TokenManager.generateRefreshToken,
      TokenManager.sign. rewrite Ha, He.
    unfold RefreshTokenRepository.create, RefreshTokenRepository.hashToken.
    cbn [refreshTokens set_users].
    rewrite Hfresh, Hb. cbn [ret].
    eexists. eexists. split; reflexivity.
  - intros Hpw.
    unfold AuthService.login, bind, UserRepository.findByEmail.
    cbn [login_email login_password login_rememberMe users set_users].
    rewrite Hfind.
    subst u. cbn [User.password].
    unfold HashProvider.hash, HashProvider.compare.
    destruct (String.eqb_spec (reg_password data) pw) as [Heq | Hne].
    + exfalso. apply Hpw. symmetry. exact Heq.
    + reflexivity.
Qed.

Lemma register_then_login_witness :
  (exists w'' res,
      AuthService.login Fixture.env (MkLoginDTO "BOB@X.COM" "hunter22!" false)
                        Fixture.rnd2 (Fixture.t0 + 500) Fixture2.twoUsers
      = (w'', Ok res)
      /\ login_user res = MkUserSummary "user-2" "bob@x.com" "Bob")
  /\ ("hunter22" <> "hunter22!" ->
      AuthService.login Fixture.env (MkLoginDTO "BOB@X.COM" "hunter22" false)
                        Fixture.rnd2 (Fixture.t0 + 500) Fixture2.twoUsers
      = (Fixture2.twoUsers, Throw (UnauthorizedError "Invalid credentials"))).
Proof.
  exact (register_then_login
           Fixture.env (MkRegisterDTO "Bob@X.com" "hunter22!" "Bob") "salt-b" "user-2"
           (Fixture.t0 + 100) (Fixture.t0 + 500) Fixture.loggedIn Fixture2.twoUsers
           (User.Build "user-2" "bob@x.com" (Argon2id "salt-b" "hunter22!") "Bob"
                       (Fixture.t0 + 100))
           "BOB@X.COM" "hunter22" false Fixture.rnd2 900 604800
           (Fixture.t0 + 500 + 7 * Fixture.day)
           eq_refl eq_refl eq_refl eq_refl eq_refl eq_refl).
Defined.

(* ===================================================================== *)
(** * The second revision of login, and the expiry sweep *)
(* ===================================================================== *)

(** X26. Every successful [login] of the second revision returns a
    refresh token that [findByToken] finds at once: the row carries the
    key the login drew, belongs to the user the login names, is not
    revoked, and no grace period runs on it. *)
Theorem login2_refresh_token_is_found :
  forall (env : Env.t) (data : LoginDTO) (rnd : Entropy) (now : Z) (w w' : World)
         (res : LoginResult),
    AuthService2.login env data rnd now w = (w', Ok res) ->
    exists r joined,
      RefreshTokenRepository.findByToken (login_refreshToken res) w'
      = (w', Ok (Some (r, joined)))
      /\ RefreshToken.id r = rowId rnd
      /\ RefreshToken.userId r = summary_id (login_user res)
      /\ RefreshToken.token r = Sha256Hex (login_refreshToken res)
      /\ RefreshToken.revokedAt r = None
      /\ RefreshToken.gracePeriodToken r = None
      /\ RefreshToken.createdAt r = now
      /\ users w' = users w.
Proof.
  intros env data rnd now w w' res.
  unfold AuthService2.login, bind, UserRepository.findByEmail.
  destruct (find _ (users w)) as [u|]; [|discriminate].
  destruct (negb _); [discriminate|].
  unfold lift, TokenManager.generateAccessToken, TokenManager.generateRefreshToken,
    TokenManager.sign.
  destruct (timespan_seconds (Env.JWT_ACCESS_EXPIRES_IN env)) as [a|]; [|discriminate].
  destruct (AuthService.calculateExpiration _ now) as [e|]; [|discriminate].
  destruct (timespan_seconds (Env.JWT_REFRESH_EXPIRES_IN env)) as [b|]; [|discriminate].
  unfold RefreshTokenRepository.create, RefreshTokenRepository.hashToken.
  destruct (existsb _ (refreshTokens w)) eqn:Hfresh; [discriminate|].
  cbn [ret]. intros H. inversion H. subst w' res. clear H.
  cbn [login_refreshToken login_user summary_id].
  unfold RefreshTokenRepository.findByToken, RefreshTokenRepository.hashToken.
  cbn [refreshTokens users set_refreshTokens].
  rewrite find_app_last, (fresh_row_has_no_token _ _ _ Hfresh).
  match goal with
  | |- context [if RefreshTokenRepository.byToken ?h ?r then _ else _] =>
      replace (RefreshTokenRepository.byToken h r) with true
        by (symmetry; apply byToken_true; reflexivity)
  end.
  eexists. eexists. split; [reflexivity|].
  repeat split.
Qed.

Lemma login2_refresh_token_is_found_witness :
  exists r joined,
    RefreshTokenRepository.findByToken
      (login_refreshToken (MkLoginResult (MkUserSummary "user-1" "a@x.com" "Ann")
                                         Fixture.access1 Fixture.refreshK true))
      Fixture.keyed
    = (Fixture.keyed, Ok (Some (r, joined)))
    /\ RefreshToken.id r = rowId Fixture.rnd1
    /\ RefreshToken.userId r
       = summary_id (login_user (MkLoginResult (MkUserSummary "user-1" "a@x.com" "Ann")
                                               Fixture.access1 Fixture.refreshK true))
    /\ RefreshToken.token r
       = Sha256Hex (login_refreshToken
                      (MkLoginResult (MkUserSummary "user-1" "a@x.com" "Ann")
                                     Fixture.access1 Fixture.refreshK true))
    /\ RefreshToken.revokedAt r = None
    /\ RefreshToken.gracePeriodToken r = None
    /\ RefreshToken.createdAt r = Fixture.t0
    /\ users Fixture.keyed = users Fixture.registered.
Proof.
  exact (login2_refresh_token_is_found
           Fixture.env (MkLoginDTO "a@x.com" "P@ssw0rd1" true) Fixture.rnd1 Fixture.t0
           Fixture.registered Fixture.keyed
           (MkLoginResult (MkUserSummary "user-1" "a@x.com" "Ann")
                          Fixture.access1 Fixture.refreshK true)
           eq_refl).
Defined.

Lemma find_filter_keep {A : Type} (p q : A -> bool) (l : list A) (r : A) :
  find p l = Some r -> q r = true -> find p (filter q l) = Some r.
Proof.
  intros Hfind Hq. induction l as [|a l IH]; simpl in *; [discriminate|].
  destruct (p a) eqn:Hp.
  - inversion Hfind. subst a. rewrite Hq. simpl. rewrite Hp. reflexivity.
  - destruct (q a); simpl; [rewrite Hp|]; exact (IH Hfind).
Qed.

Lemma find_filter_drop (h : Str) (q : RefreshToken.t -> bool) (l : list RefreshToken.t)
    (r : RefreshToken.t) :
  NoDup (map RefreshToken.token l) ->
  find (RefreshTokenRepository.byToken h) l = Some r ->
  q r = false ->
  find (RefreshTokenRepository.byToken h) (filter q l) = None.
Proof.
  intros Hnd Hfind Hq. induction l as [|a l IH]; simpl in *; [discriminate|].
  inversion Hnd as [|x l' Hx Hl]; subst.
  destruct (RefreshTokenRepository.byToken h a) eqn:Hp.
  - inversion Hfind. subst a. rewrite Hq.
    apply find_none_existsb. apply not_true_is_false. intros Hex.
    apply existsb_exists in Hex. destruct Hex as [y [Hin Hy]].
    apply filter_In in Hin. destruct Hin as [Hin _].
    apply Hx. apply in_map_iff. exists y. split; [|exact Hin].
    apply byToken_true in Hy. apply byToken_true in Hp. congruence.
  - destruct (q a); simpl; [rewrite Hp|]; exact (IH Hl Hfind).
Qed.

(** X27. The expiry sweep removes a row exactly when its [expiresAt] lies
    before the instant of the sweep: a token whose row has not expired is
    found after the sweep as before it, and a token whose row has expired
    is no longer found. *)
Theorem sweep_removes_exactly_the_expired :
  forall (token : Str) (now : Z) (w : World) (r : RefreshToken.t) (u : option User.t),
    uniqueKeys (refreshTokens w) ->
    RefreshTokenRepository.findByToken token w = (w, Ok (Some (r, u))) ->
    (now <= RefreshToken.expiresAt r ->
     RefreshTokenRepository.findByToken
       token (fst (RefreshTokenRepository.deleteExpired now w))
     = (fst (RefreshTokenRepository.deleteExpired now w), Ok (Some (r, u))))
    /\ (RefreshToken.expiresAt r < now ->
        RefreshTokenRepository.findByToken
          token (fst (RefreshTokenRepository.deleteExpired now w))
        = (fst (RefreshTokenRepository.deleteExpired now w), Ok None)).
Proof.
  intros token now w r u [_ Htokens].
  unfold RefreshTokenRepository.findByToken, RefreshTokenRepository.deleteExpired,
    RefreshTokenRepository.hashToken.
  cbn [fst refreshTokens users set_refreshTokens].
  destruct (find (RefreshTokenRepository.byToken (Sha256Hex token)) (refreshTokens w))
    as [r0|] eqn:Hfind; [|discriminate].
  intros H. inversion H. subst r0 u. clear H.
  split; intros Hexp.
  - rewrite (find_filter_keep _ _ _ _ Hfind); [reflexivity|].
    destruct (Z.ltb_spec (RefreshToken.expiresAt r) now); [lia | reflexivity].
  - rewrite (find_filter_drop _ _ _ _ Htokens Hfind); [reflexivity|].
    destruct (Z.ltb_spec (RefreshToken.expiresAt r) now); [reflexivity | lia].
Qed.

Lemma uniqueKeys_keyed : uniqueKeys (refreshTokens Fixture.keyed).
Proof.
  unfold uniqueKeys. vm_compute.
  split; (constructor; [intros [] | constructor]).
Qed.

(** The row of the login at [t0] with [rememberMe] lasts thirty days. *)
Lemma sweep_removes_exactly_the_expired_witness :
  RefreshTokenRepository.findByToken
    Fixture.refreshK
    (fst (RefreshTokenRepository.deleteExpired (Fixture.t0 + 30 * Fixture.day) Fixture.keyed))
  = (fst (RefreshTokenRepository.deleteExpired (Fixture.t0 + 30 * Fixture.day) Fixture.keyed),
     Ok (Some (Fixture2.rowK, Some Fixture.ann)))
  /\ RefreshTokenRepository.findByToken
       Fixture.refreshK
       (fst (RefreshTokenRepository.deleteExpired (Fixture.t0 + 30 * Fixture.day + 1)
                                                  Fixture.keyed))
     = (fst (RefreshTokenRepository.deleteExpired (Fixture.t0 + 30 * Fixture.day + 1)
                                                  Fixture.keyed),
        Ok None).
Proof.
  split.
  - apply (proj1 (sweep_removes_exactly_the_expired
                    Fixture.refreshK (Fixture.t0 + 30 * Fixture.day) Fixture.keyed
                    Fixture2.rowK (Some Fixture.ann) uniqueKeys_keyed eq_refl)).
    vm_compute. discriminate.
  - apply (proj2 (sweep_removes_exactly_the_expired
                    Fixture.refreshK (Fixture.t0 + 30 * Fixture.day + 1) Fixture.keyed
                    Fixture2.rowK (Some Fixture.ann) uniqueKeys_keyed eq_refl)).
    vm_compute. reflexivity.
Defined.

(* ===================================================================== *)
(** * The CSRF check and the reconnection policy *)
(* ===================================================================== *)

Lemma missing_false (v : option string) :
  CsrfProtection.missing v = false <-> exists t, v = Some t /\ t <> EmptyString.
Proof.
  destruct v as [[|c t]|]; simpl; split; try discriminate.
  - intros [t [H Hne]]. inversion H. subst t. contradiction.
  - intros _. eexists. split; [reflexivity | discriminate].
  - reflexivity.
  - intros [t [H _]]. discriminate.
Qed.

(** X28. The CSRF check lets a request pass exactly when its method is
    GET, HEAD or OPTIONS, or the header and the cookie carry the same
    non-empty token.  Among the refusals, the comparison's [RangeError]
    (not a [ForbiddenError]) is the outcome exactly when both tokens are
    present and differ in length. *)
Theorem csrf_passes_only_matching_tokens :
  forall (method : string) (header cookie : option string),
    (CsrfProtection.validateToken method header cookie = CsrfProtection.Next
     <-> (CsrfProtection.safeMethod method = true
          \/ exists t, header = Some t /\ cookie = Some t /\ t <> EmptyString))
    /\ ((exists m, CsrfProtection.validateToken method header cookie
                   = CsrfProtection.RangeError m)
        <-> (CsrfProtection.safeMethod method = false
             /\ exists h c, header = Some h /\ cookie = Some c
                            /\ h <> EmptyString /\ c <> EmptyString
                            /\ String.length h <> String.length c)).
Proof.
  intros method header cookie. unfold CsrfProtection.validateToken.
  destruct (CsrfProtection.safeMethod method).
  { split; split.
    - intros _. left. reflexivity.
    - reflexivity.
    - intros [m H]. discriminate.
    - intros [H _]. discriminate. }
  destruct (CsrfProtection.missing header) eqn:Hh.
  { simpl. split; split.
    - discriminate.
    - intros [H | [t [-> [_ Hne]]]]; [discriminate|].
      exfalso. destruct t; [contradiction | discriminate].
    - intros [m H]. discriminate.
    - intros [_ [h [c [-> [_ [Hne _]]]]]].
      exfalso. destruct h; [contradiction | discriminate]. }
  destruct (CsrfProtection.missing cookie) eqn:Hc.
  { simpl. split; split.
    - discriminate.
    - intros [H | [t [_ [-> Hne]]]]; [discriminate|].
      exfalso. destruct t; [contradiction | discriminate].
    - intros [m H]. discriminate.
    - intros [_ [h [c [_ [-> [_ [Hne _]]]]]]].
      exfalso. destruct c; [contradiction | discriminate]. }
  apply missing_false in Hh. destruct Hh as [h [-> Hhne]].
  apply missing_false in Hc. destruct Hc as [c [-> Hcne]].
  simpl.
  destruct (Nat.eqb_spec (String.length h) (String.length c)) as [Hlen | Hlen]; simpl.
  - destruct (String.eqb_spec h c) as [Heq | Hneq].
    + split; split.
      * intros _. right. exists h. subst c. repeat split. exact Hhne.
      * reflexivity.
      * intros [m H]. discriminate.
      * intros [_ [h' [c' [H1 [H2 [_ [_ Hl]]]]]]]. inversion H1. inversion H2. subst.
        contradiction.
    + split; split.
      * discriminate.
      * intros [H | [t [H1 [H2 _]]]]; [discriminate|].
        inversion H1. inversion H2. subst. contradiction.
      * intros [m H]. discriminate.
      * intros [_ [h' [c' [H1 [H2 [_ [_ Hl]]]]]]]. inversion H1. inversion H2. subst.
        contradiction.
  - split; split.
    + discriminate.
    + intros [H | [t [H1 [H2 _]]]]; [discriminate|].
      inversion H1. inversion H2. subst. contradiction.
    + intros _. split; [reflexivity|]. exists h, c. repeat split; assumption.
    + intros _. eexists. reflexivity.
Qed.

(** X29. While the client has not given up, the delay before the next
    reconnection attempt is a hundred milliseconds per attempt made and
    never more than one second, so the cap of three seconds is never
    reached; from the eleventh retry on the client gives up. *)
Theorem reconnect_delay_is_linear :
  forall (retries : Z),
    match RedisClient.reconnectStrategy retries with
    | RedisClient.Delay ms => retries <= 10 /\ ms = retries * 100 /\ ms <= 1000
    | RedisClient.GiveUp _ => 10 < retries
    end.
Proof.
  intros retries. unfold RedisClient.reconnectStrategy.
  destruct (Z.ltb_spec 10 retries) as [Hgt | Hle]; [exact Hgt|].
  split; [exact Hle|]. split; lia.
Qed.
